(** * Worker synchronisation engine: a shallow embedding

    The development follows the Python sources file by file:
    - [Config]            config.py
    - [Py]                the fragment of Python's data model the code relies on
                          (JSON values, truthiness, [dict.get], [==])
    - [Database]          database.py (the JSON worker store)
    - [HikCentralAPI]     api/hikcentral_api.py (the signed RPC client)
    - [SupabaseAPI]       api/supabase_api.py (the upstream event source)
    - [ImageProcessor]    processors/image_processor.py (the admission gate)
    - [EventProcessor]    processors/event_processor.py (the lifecycle handlers)

    Remote systems, the clock, random tokens, cryptographic digests and the
    face encoder are external to the program; they are collected in a record
    of oracles [env].  Stateful code is written in a state-and-exception monad
    over [world]: the worker store, the image files on disk, the history of
    outbound calls and the messages logged by the event processor. *)

From Stdlib Require Import ZArith QArith Qabs String Ascii List Bool Lia DecimalString.
From Stdlib Require Import Sorted Permutation.
From stdpp Require Import base option list strings gmap.

#[local] Set Warnings "-register-all".

Open Scope string_scope.
Open Scope list_scope.

(* ===================================================================== *)
(** ** Python values                                                      *)
(* ===================================================================== *)

Module Py.

(** Values that [json.loads] produces and that the code stores in its dicts.
    JSON numbers are integers here; a [dict] keeps insertion order and is
    expected to hold each key once, as Python's dicts do. *)
Inductive value :=
| VNone
| VBool (b : bool)
| VNum (n : Z)
| VStr (s : string)
| VList (l : list value)
| VDict (d : list (string * value)).

Abbreviation dict := (list (string * value)).

Fixpoint assoc {A} (k : string) (l : list (string * A)) : option A :=
  match l with
  | [] => None
  | (k', v) :: l' => if String.eqb k k' then Some v else assoc k l'
  end.

(** [bool(v)] *)
Definition truthy (v : value) : bool :=
  match v with
  | VNone => false
  | VBool b => b
  | VNum n => negb (n =? 0)%Z
  | VStr s => negb (String.eqb s "")
  | VList l => match l with [] => false | _ => true end
  | VDict d => match d with [] => false | _ => true end
  end.

(** [d.get(k, default)] and [d.get(k)] *)
Definition dget_default (d : dict) (k : string) (default : value) : value :=
  match assoc k d with Some v => v | None => default end.

Definition dget (d : dict) (k : string) : value := dget_default d k VNone.

(** [k in d] *)
Definition dmem (k : string) (d : dict) : bool :=
  match assoc k d with Some _ => true | None => false end.

(** [d[k] = v]: an existing key keeps its position, a new key goes last. *)
Fixpoint dset (k : string) (v : value) (d : dict) : dict :=
  match d with
  | [] => [(k, v)]
  | (k', v') :: d' =>
      if String.eqb k k' then (k, v) :: d' else (k', v') :: dset k v d'
  end.

(** [d.update(u)] *)
Definition dupdate (d u : dict) : dict :=
  fold_left (fun acc kv => dset (fst kv) (snd kv) acc) u d.

(** [a or b] *)
Definition py_or (a b : value) : value := if truthy a then a else b.

(** [a == b].  [True == 1] and [False == 0] as in Python; two dicts are equal
    when they have the same keys with equal values, whatever the order. *)
Fixpoint py_eq (a b : value) {struct a} : bool :=
  match a, b with
  | VNone, VNone => true
  | VBool x, VBool y => Bool.eqb x y
  | VBool x, VNum n => (n =? (if x then 1 else 0))%Z
  | VNum n, VBool x => (n =? (if x then 1 else 0))%Z
  | VNum n, VNum m => (n =? m)%Z
  | VStr s, VStr t => String.eqb s t
  | VList l, VList m =>
      (fix go (l m : list value) : bool :=
         match l, m with
         | [], [] => true
         | x :: l', y :: m' => py_eq x y && go l' m'
         | _, _ => false
         end) l m
  | VDict d, VDict e =>
      Nat.eqb (length d) (length e) &&
      (fix go (d : dict) : bool :=
         match d with
         | [] => true
         | (k, v) :: d' =>
             match assoc k e with
             | Some v' => py_eq v v' && go d'
             | None => false
             end
         end) d
  | _, _ => false
  end.

(** [str.split(' ', 1)] *)
Fixpoint split_first_space (s : string) : string * option string :=
  match s with
  | EmptyString => (EmptyString, None)
  | String c s' =>
      if Ascii.eqb c " "%char then (EmptyString, Some s')
      else let '(a, b) := split_first_space s' in (String c a, b)
  end.

(** [s.replace('Z', '+00:00')] *)
Fixpoint replace_Z (s : string) : string :=
  match s with
  | EmptyString => EmptyString
  | String c s' =>
      if Ascii.eqb c "Z"%char then "+00:00" +:+ replace_Z s'
      else String c (replace_Z s')
  end.

(** ['\n'.join(parts)] *)
Fixpoint join (sep : string) (parts : list string) : string :=
  match parts with
  | [] => ""
  | [p] => p
  | p :: rest => p +:+ sep +:+ join sep rest
  end.

(** [str(n)] for an integer *)
Definition str_of_Z (n : Z) : string := NilZero.string_of_int (Z.to_int n).

End Py.
Export Py.

(* ===================================================================== *)
(** ** config.py                                                          *)
(* ===================================================================== *)

Module Config.

Definition HIKCENTRAL_BASE_URL : string := "https://10.127.0.2/artemis".
Definition HIKCENTRAL_APP_KEY : string := "22452825".
Definition HIKCENTRAL_APP_SECRET : string := "Q9bWogAziordVdIngfoa".
Definition HIKCENTRAL_USER_ID : string := "admin".
Definition HIKCENTRAL_ORG_INDEX_CODE : string := "1".
Definition HIKCENTRAL_PRIVILEGE_GROUP_ID : string := "3".
Definition SUPABASE_BASE_URL : string :=
  "https://xrkxxqhoglrimiljfnml.supabase.co/functions/v1/make-server-2c3121a9".
Definition FACE_SIMILARITY_THRESHOLD : Q := 4 # 10.
Definition MAX_REQUEST_LOGS : Z := 10000.
Definition DATA_DIR : string := "data".
Definition FACES_DIR : string := "data/faces".
Definition ID_CARDS_DIR : string := "data/id_cards".

End Config.

(* ===================================================================== *)
(** ** The outside world                                                  *)
(* ===================================================================== *)

(** What a remote HTTP server may answer.  [BadText] is a body that is not
    JSON, [NoText] an empty body ([response.text] is falsy). *)
Inductive http_body := NoText | JsonText (v : value) | BadText.
Inductive http_outcome :=
| TransportError                       (* timeout, refused connection, ... *)
| Response (status : Z) (body : http_body).

Inductive image_outcome :=
| ImageError
| ImageResponse (status : Z) (content : string).

(** One outbound call, as it leaves the process. *)
Inductive call :=
| HikPost (url : string) (headers : gmap string string) (body : string)
| SupaGet (url : string) (params : dict)
| SupaPost (url : string) (data : dict)
| ImageGet (url : value).

Record datetime := mkDatetime {
  year : Z; month : Z; day : Z; hour : Z; minute : Z; second : Z
}.

(** A face encoding is a vector of numbers; the encoder and the distance are
    the black boxes of the [face_recognition] package. *)
Abbreviation encoding := (list Q).

Inductive level := INFO | WARNING | ERROR.

(** The oracles.  Servers see the history of calls made so far; the clock and
    the random source are indexed by the number of draws made so far. *)
Record env := mkEnv {
  hik_server : list call -> string -> gmap string string -> string -> http_outcome;
  supa_server : list call -> string -> string -> dict -> http_outcome;
  image_server : list call -> value -> image_outcome;
  (* face_recognition.face_encodings(load_image_file(path)); None: it raised *)
  face_encodings : string -> option (list encoding);
  (* face_recognition.face_distance([known], candidate)[0]; None: it raised *)
  face_distance : encoding -> encoding -> option Q;
  b64encode : string -> string;
  md5_b64 : string -> string;
  hmac_sha256_b64 : string -> string -> string;
  json_dumps : value -> string;
  uuid4 : nat -> string;
  time_ms : nat -> string;
  utcnow_iso : nat -> string;
  now : nat -> datetime;
  (* datetime.fromisoformat; None: ValueError *)
  fromisoformat : string -> option datetime;
  (* format(x, '.1%') *)
  format_percent : Q -> string;
  (* str(v) for a value that is not a string *)
  py_repr : value -> string;
  (* str(Path(dir) / name) *)
  path_join : string -> string -> string
}.

Record world := mkWorld {
  db : list dict;                   (* data/workers.json *)
  fs : gmap string string;          (* image files: path -> content *)
  trace : list call;                (* outbound calls, oldest first *)
  logs : list (level * string);     (* event processor log, oldest first *)
  ticks : nat                       (* draws from the clock / random source *)
}.

Definition set_db (d : list dict) (w : world) : world :=
  mkWorld d (fs w) (trace w) (logs w) (ticks w).
Definition set_fs (f : gmap string string) (w : world) : world :=
  mkWorld (db w) f (trace w) (logs w) (ticks w).
Definition add_call (c : call) (w : world) : world :=
  mkWorld (db w) (fs w) (trace w ++ [c]) (logs w) (ticks w).
Definition add_log (l : level) (msg : string) (w : world) : world :=
  mkWorld (db w) (fs w) (trace w) (logs w ++ [(l, msg)]) (ticks w).
Definition tick (w : world) : world :=
  mkWorld (db w) (fs w) (trace w) (logs w) (S (ticks w)).

(** *** The state-and-exception monad *)

Inductive result (A : Type) := Ok (a : A) | Raised.
Arguments Ok {A} a.
Arguments Raised {A}.

Definition M (A : Type) : Type := world -> world * result A.

Definition ret {A} (a : A) : M A := fun w => (w, Ok a).
Definition raise {A} : M A := fun w => (w, Raised).
Definition bind {A B} (c : M A) (k : A -> M B) : M B :=
  fun w => match c w with
           | (w', Ok a) => k a w'
           | (w', Raised) => (w', Raised)
           end.

Notation "'let*' x ':=' c 'in' k" := (bind c (fun x => k))
  (at level 10, x name, c at level 100, k at level 200).
Notation "'do' c 'then' k" := (bind c (fun _ => k))
  (at level 10, c at level 100, k at level 200).

(** [try: c  except Exception: h] *)
Definition try_except {A} (c : M A) (h : M A) : M A :=
  fun w => match c w with
           | (w', Raised) => h w'
           | r => r
           end.

Definition log (l : level) (msg : string) : M unit :=
  fun w => (add_log l msg w, Ok tt).

Definition lift_result {A} (r : result A) : M A := fun w => (w, r).

Definition draw {A} (f : nat -> A) : M A :=
  fun w => (tick w, Ok (f (ticks w))).

(** [for x in xs: body(x)] *)
Fixpoint for_each {A} (xs : list A) (body : A -> M unit) : M unit :=
  match xs with
  | [] => ret tt
  | x :: xs' => do body x then for_each xs' body
  end.

(** [str(v)], as an f-string does *)
Definition py_str (E : env) (v : value) : string :=
  match v with
  | VStr s => s
  | VNone => "None"
  | VBool true => "True"
  | VBool false => "False"
  | VNum n => str_of_Z n
  | _ => py_repr E v
  end.

(** [len(v)] and [iter(v)]: only sized, iterable values have them. *)
Definition chars (s : string) : list value :=
  map (fun c => VStr (String c EmptyString)) (list_ascii_of_string s).

Definition py_iter (v : value) : result (list value) :=
  match v with
  | VList l => Ok l
  | VDict d => Ok (map (fun kv => VStr (fst kv)) d)
  | VStr s => Ok (chars s)
  | _ => Raised
  end.

Definition py_len (v : value) : result nat :=
  match py_iter v with Ok l => Ok (length l) | Raised => Raised end.

(** [v.get(k, default)]: raises AttributeError unless [v] is a dict. *)
Definition py_get (v : value) (k : string) (default : value) : result value :=
  match v with
  | VDict d => Ok (dget_default d k default)
  | _ => Raised
  end.

(* ===================================================================== *)
(** ** database.py                                                        *)
(* ===================================================================== *)

Module Database.
Section Database.
Variable E : env.

Definition read : M (list dict) := fun w => (w, Ok (db w)).
Definition write (data : list dict) : M unit := fun w => (set_db data w, Ok tt).

(** [all(record.get(k) == v for k, v in query.items())] *)
Definition matches (query record : dict) : bool :=
  forallb (fun kv => py_eq (dget record (fst kv)) (snd kv)) query.

Definition find_one (query : dict) : M (option dict) :=
  let* data := read in
  ret (List.find (matches query) data).

Definition insert (record : dict) : M dict :=
  let* data := read in
  let* t1 := draw (utcnow_iso E) in
  let record := dset "_created_at" (VStr t1) record in
  let* t2 := draw (utcnow_iso E) in
  let record := dset "_updated_at" (VStr t2) record in
  do write (data ++ [record]) then
  ret record.

(** The loop of [update]: returns the records after the pass and the count. *)
Fixpoint update_loop (query upd : dict) (data : list dict) : M (list dict * nat) :=
  match data with
  | [] => ret ([], 0%nat)
  | record :: rest =>
      if matches query record then
        let* t := draw (utcnow_iso E) in
        let record := dset "_updated_at" (VStr t) (dupdate record upd) in
        let* r := update_loop query upd rest in
        ret (record :: fst r, S (snd r))
      else
        let* r := update_loop query upd rest in
        ret (record :: fst r, snd r)
  end.

Definition update (query upd : dict) : M nat :=
  let* data := read in
  let* r := update_loop query upd data in
  do (if (0 <? snd r)%nat then write (fst r) else ret tt) then
  ret (snd r).

Definition get_by_national_id (national_id : value) : M (option dict) :=
  find_one [("nationalIdNumber", national_id)].

(** [if existing:] on an [Optional[Dict]] *)
Definition some_truthy (o : option dict) : bool :=
  match o with Some d => truthy (VDict d) | None => false end.

Definition upsert_worker (worker_data : dict) : M dict :=
  match assoc "nationalIdNumber" worker_data with
  | None => raise                                   (* KeyError *)
  | Some national_id =>
      let* existing := get_by_national_id national_id in
      match existing with
      | Some ex =>
          if truthy (VDict ex) then
            do update [("nationalIdNumber", national_id)] worker_data then
            ret (dupdate ex worker_data)
          else insert worker_data
      | None => insert worker_data
      end
  end.

Definition get_all_workers : M (list dict) := read.

(** [find_many(query)]: every record when [query] is [None]. *)
Definition find_many (query : option dict) : M (list dict) :=
  let* data := read in
  match query with
  | None => ret data
  | Some q => ret (List.filter (matches q) data)
  end.

Definition delete (query : dict) : M nat :=
  let* data := read in
  let original_count := length data in
  let data := List.filter (fun record => negb (matches query record)) data in
  let deleted_count := (original_count - length data)%nat in
  do (if (0 <? deleted_count)%nat then write data else ret tt) then
  ret deleted_count.

Definition get_by_worker_id (worker_id : value) : M (option dict) :=
  find_one [("workerId", worker_id)].

Definition get_workers_by_status (status : value) : M (list dict) :=
  find_many (Some [("status", status)]).

End Database.
End Database.

(** [RequestLogsDatabase]: the same class over its own file, which is what
    [db] stands for in the world these functions run in. *)
Module RequestLogsDatabase.
Section RequestLogsDatabase.
Variable E : env.

(** [l[start:]] for a list, with Python's reading of a negative start. *)
Definition slice_from {A} (start : Z) (l : list A) : list A :=
  if (start <? 0)%Z
  then drop (Z.to_nat (Z.max 0 (Z.of_nat (length l) + start))) l
  else drop (Z.to_nat start) l.

Definition add_log (log_data : dict) : M dict :=
  let* logs := Database.read in
  do (if (Config.MAX_REQUEST_LOGS <=? Z.of_nat (length logs))%Z then
        Database.write (slice_from (- (Config.MAX_REQUEST_LOGS - 1)) logs)
      else ret tt) then
  Database.insert E log_data.

End RequestLogsDatabase.
End RequestLogsDatabase.

(* ===================================================================== *)
(** ** datetime: the parts of Python's module the event processor uses    *)
(* ===================================================================== *)

Module Datetime.
#[local] Open Scope Z_scope.

Definition is_leap (y : Z) : bool :=
  (y mod 4 =? 0) && (negb (y mod 100 =? 0) || (y mod 400 =? 0)).

Definition days_in_month (y m : Z) : Z :=
  match m with
  | 1 => 31 | 2 => if is_leap y then 29 else 28 | 3 => 31 | 4 => 30
  | 5 => 31 | 6 => 30 | 7 => 31 | 8 => 31 | 9 => 30 | 10 => 31
  | 11 => 30 | 12 => 31 | _ => 0
  end.

(** The checks of the [date] constructor (MINYEAR = 1, MAXYEAR = 9999). *)
Definition valid_date (y m d : Z) : bool :=
  (1 <=? y) && (y <=? 9999) && (1 <=? m) && (m <=? 12) &&
  (1 <=? d) && (d <=? days_in_month y m).

Definition digit_val (c : ascii) : option Z :=
  let n := Z.of_nat (nat_of_ascii c) in
  if (48 <=? n) && (n <=? 57) then Some (n - 48) else None.

Definition digit_char (n : Z) : ascii := ascii_of_nat (Z.to_nat (48 + n)).

(** [%m] of [strptime]: the regular expression [1[0-2]|0[1-9]|[1-9]]. *)
Definition parse_month (s : string) : option (Z * string) :=
  let two :=
    match s with
    | String c1 (String c2 r) =>
        match digit_val c1, digit_val c2 with
        | Some a, Some b =>
            if (a =? 1) && (b <=? 2) then Some (10 + b, r)
            else if (a =? 0) && (1 <=? b) then Some (b, r)
            else None
        | _, _ => None
        end
    | _ => None
    end in
  match two with
  | Some x => Some x
  | None =>
      match s with
      | String c1 r =>
          match digit_val c1 with
          | Some a => if 1 <=? a then Some (a, r) else None
          | None => None
          end
      | EmptyString => None
      end
  end.

(** [%d] of [strptime]: [3[0-1]|[1-2]\d|0[1-9]|[1-9]| [1-9]]. *)
Definition parse_day (s : string) : option (Z * string) :=
  let two :=
    match s with
    | String c1 (String c2 r) =>
        match digit_val c1, digit_val c2 with
        | Some a, Some b =>
            if (a =? 3) && (b <=? 1) then Some (30 + b, r)
            else if ((a =? 1) || (a =? 2)) then Some (10 * a + b, r)
            else if (a =? 0) && (1 <=? b) then Some (b, r)
            else None
        | _, _ => None
        end
    | _ => None
    end in
  match two with
  | Some x => Some x
  | None =>
      match s with
      | String c1 r =>
          match digit_val c1 with
          | Some a => if 1 <=? a then Some (a, r) else None
          | None =>
              if Ascii.eqb c1 " "%char then
                match r with
                | String c2 r' =>
                    match digit_val c2 with
                    | Some b => if 1 <=? b then Some (b, r') else None
                    | None => None
                    end
                | EmptyString => None
                end
              else None
          end
      | EmptyString => None
      end
  end.

(** [datetime.strptime(s, '%Y-%m-%d')]; [None] stands for ValueError.
    [%Y] is exactly four digits, and nothing may follow the day. *)
Definition strptime_ymd (s : string) : option datetime :=
  match s with
  | String y1 (String y2 (String y3 (String y4 (String dash1 rest)))) =>
      match digit_val y1, digit_val y2, digit_val y3, digit_val y4 with
      | Some a, Some b, Some c, Some d =>
          if Ascii.eqb dash1 "-"%char then
            match parse_month rest with
            | Some (m, String dash2 rest2) =>
                if Ascii.eqb dash2 "-"%char then
                  match parse_day rest2 with
                  | Some (dd, EmptyString) =>
                      let y := 1000 * a + 100 * b + 10 * c + d in
                      if valid_date y m dd then Some (mkDatetime y m dd 0 0 0)
                      else None
                  | _ => None
                  end
                else None
            | _ => None
            end
          else None
      | _, _, _, _ => None
      end
  | _ => None
  end.

Definition pad2 (n : Z) : string :=
  String (digit_char (n / 10 mod 10)) (String (digit_char (n mod 10)) "").

(** [%Y] as documented: the year with century, zero-padded to four digits. *)
Definition pad4 (n : Z) : string :=
  String (digit_char (n / 1000 mod 10))
    (String (digit_char (n / 100 mod 10)) (pad2 n)).

(** ['%Y-%m-%d'] *)
Definition iso_date (y m d : Z) : string :=
  pad4 y +:+ "-" +:+ pad2 m +:+ "-" +:+ pad2 d.

(** [dt.strftime('%Y-%m-%dT00:00:00')] and its end-of-day sibling *)
Definition strftime_start_of_day (dt : datetime) : string :=
  iso_date (year dt) (month dt) (day dt) +:+ "T00:00:00".
Definition strftime_end_of_day (dt : datetime) : string :=
  iso_date (year dt) (month dt) (day dt) +:+ "T23:59:59".

(** [dt.strftime('%Y-%m-%dT%H:%M:%S')] *)
Definition strftime_seconds (dt : datetime) : string :=
  iso_date (year dt) (month dt) (day dt) +:+ "T" +:+
  pad2 (hour dt) +:+ ":" +:+ pad2 (minute dt) +:+ ":" +:+ pad2 (second dt).

(** Proleptic Gregorian ordinals, as in CPython's [_pydatetime]. *)
Definition days_before_year (y : Z) : Z :=
  let y := y - 1 in y * 365 + y / 4 - y / 100 + y / 400.

Definition days_before_month (y m : Z) : Z :=
  (match m with
   | 1 => 0 | 2 => 31 | 3 => 59 | 4 => 90 | 5 => 120 | 6 => 151
   | 7 => 181 | 8 => 212 | 9 => 243 | 10 => 273 | 11 => 304 | 12 => 334
   | _ => 0
   end) + (if (2 <? m) && is_leap y then 1 else 0).

Definition ymd2ord (y m d : Z) : Z :=
  days_before_year y + days_before_month y m + d.

Definition ord2ymd (n : Z) : Z * Z * Z :=
  let n := n - 1 in
  let n400 := n / 146097 in let n := n mod 146097 in
  let y := n400 * 400 + 1 in
  let n100 := n / 36524 in let n := n mod 36524 in
  let n4 := n / 1461 in let n := n mod 1461 in
  let n1 := n / 365 in let n := n mod 365 in
  let y := y + n100 * 100 + n4 * 4 + n1 in
  if (n1 =? 4) || (n100 =? 4) then (y - 1, 12, 31)
  else
    let leapyear := (n1 =? 3) && (negb (n4 =? 24) || (n100 =? 3)) in
    let m := Z.shiftr (n + 50) 5 in
    let preceding :=
      days_before_month 1 m + (if (2 <? m) && leapyear then 1 else 0) in
    if n <? preceding then
      let m := m - 1 in
      let preceding :=
        preceding - (match m with
                     | 1 => 31 | 2 => 28 | 3 => 31 | 4 => 30 | 5 => 31
                     | 6 => 30 | 7 => 31 | 8 => 31 | 9 => 30 | 10 => 31
                     | 11 => 30 | 12 => 31 | _ => 0
                     end + (if (m =? 2) && leapyear then 1 else 0)) in
      (y, m, n - preceding + 1)
    else (y, m, n - preceding + 1).

(** [dt + timedelta(days=n)]; [None] stands for OverflowError. *)
Definition add_days (dt : datetime) (n : Z) : option datetime :=
  let o := ymd2ord (year dt) (month dt) (day dt) + n in
  if (0 <? o) && (o <=? 3652059) then
    let '(y, m, d) := ord2ymd o in
    Some (mkDatetime y m d (hour dt) (minute dt) (second dt))
  else None.

End Datetime.

(** [response.raise_for_status()] raises for 4xx and 5xx. *)
Definition is_error_status (status : Z) : bool :=
  (400 <=? status)%Z && (status <? 600)%Z.

(* ===================================================================== *)
(** ** api/hikcentral_api.py                                              *)
(* ===================================================================== *)

Module HikCentralAPI.
Section HikCentralAPI.
Variable E : env.

(** [__init__]: scheme and host of [Config.HIKCENTRAL_BASE_URL], path dropped. *)
Definition base_url : string := "https://10.127.0.2".
Definition app_key : string := Config.HIKCENTRAL_APP_KEY.
Definition app_secret : string := Config.HIKCENTRAL_APP_SECRET.
Definition user_id : string := Config.HIKCENTRAL_USER_ID.
Definition org_index_code : string := Config.HIKCENTRAL_ORG_INDEX_CODE.
Definition privilege_group_id : string := Config.HIKCENTRAL_PRIVILEGE_GROUP_ID.

Definition newline : string := String "010"%char "".

(** How an f-string renders the result of [headers.get(...)]. *)
Definition fmt_opt (o : option string) : string :=
  match o with Some s => s | None => "None" end.

(** [headers.get(k1, headers.get(k2))] *)
Definition get_either (headers : gmap string string) (k1 k2 : string)
  : option string :=
  match headers !! k1 with Some v => Some v | None => headers !! k2 end.

(** The [string_to_sign] built by [_generate_signature]. *)
Definition string_to_sign (method uri : string) (headers : gmap string string)
  : string :=
  let parts := [method; default "application/json" (headers !! "Accept")] in
  let parts :=
    match headers !! "Content-MD5" with
    | Some md5 => parts ++ [md5]
    | None => parts
    end in
  let parts :=
    parts ++ [default "application/json;charset=UTF-8" (headers !! "Content-Type")] in
  let parts :=
    parts ++ ["x-ca-key:" +:+ fmt_opt (get_either headers "x-ca-key" "X-Ca-Key")] in
  let parts :=
    parts ++ ["x-ca-nonce:" +:+ fmt_opt (get_either headers "x-ca-nonce" "X-Ca-Nonce")] in
  let parts :=
    parts ++ ["x-ca-timestamp:" +:+
              fmt_opt (get_either headers "x-ca-timestamp" "X-Ca-Timestamp")] in
  let parts := parts ++ [uri] in
  join newline parts.

Definition _generate_signature (method uri : string)
    (headers : gmap string string) (body : string) : string :=
  hmac_sha256_b64 E app_secret (string_to_sign method uri headers).

Definition _get_content_md5 (body : string) : string := md5_b64 E body.

(** The dictionary that [_get_authenticated_headers] builds once the nonce
    and the timestamp are drawn. *)
Definition authenticated_headers (nonce timestamp : string)
    (body : option string) : gmap string string :=
  let headers : gmap string string :=
    <["userId" := user_id]>
    (<["X-Ca-Signature-Headers" := "x-ca-key,x-ca-nonce,x-ca-timestamp"]>
    (<["X-Ca-Timestamp" := timestamp]>
    (<["X-Ca-Nonce" := nonce]>
    (<["X-Ca-Key" := app_key]>
    (<["Content-Type" := "application/json;charset=UTF-8"]>
    (<["Accept" := "application/json"]> ∅)))))) in
  match body with
  | Some b =>
      if truthy (VStr b) then <["Content-MD5" := _get_content_md5 b]> headers
      else headers
  | None => headers
  end.

Definition _get_authenticated_headers (body : option string)
  : M (gmap string string) :=
  let* nonce := draw (uuid4 E) in
  let* timestamp := draw (time_ms E) in
  ret (authenticated_headers nonce timestamp body).

(** [requests.post(url, headers=headers, data=body_str, ...)] *)
Definition post (url : string) (headers : gmap string string) (body : string)
  : M http_outcome :=
  fun w => (add_call (HikPost url headers body) w,
            Ok (hik_server E (trace w) url headers body)).

(** The body of the [try] of [_make_request], after [requests.post] returned
    or raised: [Ok VNone] is [return None], [Raised] an exception that is not
    a [RequestException] and so leaves [_make_request]. *)
Definition handle_response (resp : http_outcome) : result value :=
  match resp with
  | TransportError => Ok VNone
  | Response status body =>
      match body with
      | BadText => Ok VNone            (* response.json(): JSONDecodeError *)
      | NoText | JsonText _ =>
          let response_body :=
            match body with JsonText v => v | _ => VNone end in
          if truthy response_body then
            match response_body with
            | VDict d =>
                if negb (py_eq (dget d "code") (VStr "0")) then Ok VNone
                else if is_error_status status then Ok VNone
                else Ok response_body
            | _ => Raised              (* no attribute 'get' *)
            end
          else if is_error_status status then Ok VNone
          else Ok response_body
      end
  end.

Definition _make_request (endpoint : string) (body : dict) (method : string)
  : M value :=
  let url := base_url +:+ endpoint in
  let has_body := truthy (VDict body) in
  let body_str := if has_body then json_dumps E (VDict body) else "" in
  let* headers :=
    _get_authenticated_headers (if has_body then Some body_str else None) in
  let uri := endpoint in
  let signature :=
    _generate_signature method uri headers (if has_body then body_str else "") in
  let headers := <["X-Ca-Signature" := signature]> headers in
  let* resp := post url headers body_str in
  lift_result (handle_response resp).

Definition add_person_endpoint : string :=
  "/artemis/api/resource/v1/person/single/add".

Definition add_person (person_code : value) (family_name given_name : string)
    (gender : Z) (phone_no email : value) (face_data begin_time end_time : string)
  : M value :=
  let body : dict :=
    [("personCode", person_code);
     ("personFamilyName", VStr family_name);
     ("personGivenName", VStr given_name);
     ("gender", VNum gender);
     ("orgIndexCode", VStr org_index_code);
     ("phoneNo", phone_no);
     ("email", py_or email (VStr ""));
     ("faces", VList [VDict [("faceData", VStr face_data)]]);
     ("fingerPrint", VList []);
     ("cards", VList []);
     ("beginTime", VStr begin_time);
     ("endTime", VStr end_time);
     ("residentRoomNo", VNum 1);
     ("residentFloorNo", VNum 1)] in
  let* result := _make_request add_person_endpoint body "POST" in
  if negb (truthy result) then ret VNone
  else
    let data := match result with VDict r => dget r "data" | _ => VNone end in
    match data with
    | VDict d => ret (py_or (py_or (dget d "personId") (dget d "id")) person_code)
    | _ => ret VNone
    end.

(** [result and result.get('code') == '0'], as the condition of an [if] *)
Definition result_ok (result : value) : M bool :=
  if truthy result then
    match result with
    | VDict r => ret (py_eq (dget r "code") (VStr "0"))
    | _ => raise
    end
  else ret false.

Definition update_person (person_id person_code : value)
    (family_name given_name : string) (gender : Z) (phone_no email : value)
    (begin_time end_time : string) : M bool :=
  let body : dict :=
    [("personId", person_id);
     ("personCode", person_code);
     ("personFamilyName", VStr family_name);
     ("personGivenName", VStr given_name);
     ("orgIndexCode", VStr org_index_code);
     ("gender", VNum gender);
     ("phoneNo", phone_no);
     ("email", py_or email (VStr ""));
     ("cards", VList []);
     ("beginTime", VStr begin_time);
     ("endTime", VStr end_time);
     ("residentRoomNo", VNum 1);
     ("residentFloorNo", VNum 1);
     ("remark", VStr "")] in
  let* result :=
    _make_request "/artemis/api/resource/v1/person/single/update" body "POST" in
  result_ok result.

Definition delete_person (person_id : value) : M bool :=
  let body : dict := [("personId", person_id)] in
  let* result :=
    _make_request "/artemis/api/resource/v1/person/single/delete" body "POST" in
  result_ok result.

Definition privilege_body (person_id : value) : dict :=
  [("privilegeGroupId", VStr privilege_group_id);
   ("type", VNum 1);
   ("list", VList [VDict [("id", person_id)]])].

Definition add_persons_endpoint : string :=
  "/artemis/api/acs/v1/privilege/group/single/addPersons".
Definition delete_persons_endpoint : string :=
  "/artemis/api/acs/v1/privilege/group/single/deletePersons".

Definition add_to_privilege_group (person_id : value) : M bool :=
  let* result :=
    _make_request add_persons_endpoint (privilege_body person_id) "POST" in
  result_ok result.

Definition remove_from_privilege_group (person_id : value) : M bool :=
  let* result :=
    _make_request delete_persons_endpoint (privilege_body person_id) "POST" in
  result_ok result.

End HikCentralAPI.
End HikCentralAPI.

(* ===================================================================== *)
(** ** api/supabase_api.py                                                *)
(* ===================================================================== *)

Module SupabaseAPI.
Section SupabaseAPI.
Variable E : env.

Definition base_url : string := Config.SUPABASE_BASE_URL.

(** [_make_request]: [data] travels with POST, [params] with GET; any other
    method raises ValueError, which is not a [RequestException]. *)
Definition _make_request (method endpoint : string) (data params : dict)
  : M value :=
  let url := base_url +:+ endpoint in
  let* resp :=
    (if String.eqb method "GET" then
       fun w => (add_call (SupaGet url params) w,
                 Ok (supa_server E (trace w) method url params))
     else if String.eqb method "POST" then
       fun w => (add_call (SupaPost url data) w,
                 Ok (supa_server E (trace w) method url data))
     else raise) in
  match resp with
  | TransportError => ret VNone
  | Response status body =>
      match body with
      | BadText => ret VNone
      | NoText => ret VNone
      | JsonText v => if is_error_status status then ret VNone else ret v
      end
  end.

Definition get_pending_events : M value :=
  let params : dict := [("limit", VNum 100)] in
  let* result := _make_request "GET" "/admin/events/pending" [] params in
  if truthy result then
    match result with
    | VList _ => ret result
    | VDict r =>
        match assoc "events" r with
        | Some events =>
            (* the log line takes len(result['events']) *)
            let* _n := lift_result (py_len events) in
            ret events
        | None => ret (VList [])
        end
    | VStr s =>
        (* 'events' in result is a substring test; result['events'] raises *)
        match String.index 0 "events" s with
        | Some _ => raise
        | None => ret (VList [])
        end
    | _ => raise                       (* argument is not iterable *)
    end
  else ret (VList []).

Definition update_status_url : string := base_url +:+ "/admin/workers/update-status".

Definition update_worker_status (worker_id national_id_number : value)
    (status : string) (external_id blocked_reason : value) : M bool :=
  if negb (truthy worker_id) && negb (truthy national_id_number) then ret false
  else if negb (String.eqb status "approved" || String.eqb status "blocked")
  then ret false
  else if String.eqb status "blocked" && negb (truthy blocked_reason)
  then ret false
  else
    let data : dict := [("status", VStr status)] in
    let data := if truthy worker_id then dset "workerId" worker_id data else data in
    let data :=
      if truthy national_id_number
      then dset "nationalIdNumber" national_id_number data else data in
    let data :=
      if truthy external_id then dset "externalId" external_id data else data in
    let data :=
      if truthy blocked_reason
      then dset "blockedReason" blocked_reason data else data in
    let* result := _make_request "POST" "/admin/workers/update-status" data [] in
    ret (truthy result).

Definition download_image (url : value) (save_path : string) : M bool :=
  fun w =>
    let w' := add_call (ImageGet url) w in
    match image_server E (trace w) url with
    | ImageError => (w', Ok false)
    | ImageResponse status content =>
        if is_error_status status then (w', Ok false)
        else (set_fs (<[save_path := content]> (fs w')) w', Ok true)
    end.

End SupabaseAPI.
End SupabaseAPI.

(* ===================================================================== *)
(** ** processors/image_processor.py                                      *)
(* ===================================================================== *)

Module ImageProcessor.
Section ImageProcessor.
Variable E : env.

Definition faces_dir : string := Config.FACES_DIR.
Definition id_cards_dir : string := Config.ID_CARDS_DIR.
Definition similarity_threshold : Q := Config.FACE_SIMILARITY_THRESHOLD.

(** Returns the empty string when the file cannot be read. *)
Definition image_to_base64 (files : gmap string string) (image_path : string)
  : string :=
  match files !! image_path with
  | Some image_data => b64encode E image_data
  | None => ""
  end.

(** [None] when the file cannot be loaded, the encoder raises, or no face is
    found; with several faces the first one is used. *)
Definition get_face_encoding (files : gmap string string) (image_path : string)
  : option encoding :=
  match files !! image_path with
  | None => None
  | Some image =>
      match face_encodings E image with
      | None => None
      | Some [] => None
      | Some (first :: _) => Some first
      end
  end.

(** [face_recognition.face_distance(known_encodings, face_encoding)] *)
Fixpoint face_distances (known_encodings : list encoding)
    (face_encoding : encoding) : option (list Q) :=
  match known_encodings with
  | [] => Some []
  | k :: ks =>
      match face_distance E k face_encoding, face_distances ks face_encoding with
      | Some d, Some ds => Some (d :: ds)
      | _, _ => None
      end
  end.

(** [distances[np.argmin(distances)]]: the first smallest element. *)
Definition best_of (d : Q) (ds : list Q) : Q :=
  fold_left (fun best x => if Qle_bool best x then best else x) ds d.

Definition compare_faces (face_encoding : encoding)
    (known_encodings : list encoding) : bool * Q :=
  match known_encodings with
  | [] => (false, 0%Q)
  | _ =>
      match face_distances known_encodings face_encoding with
      | Some (d :: ds) =>
          let best_distance := best_of d ds in
          let similarity := (1 - best_distance)%Q in
          let is_match := Qle_bool similarity_threshold similarity in
          (is_match, similarity)
      | _ => (false, 0%Q)
      end
  end.

(** [matches.sort(key=lambda x: x[1], reverse=True)]: a stable sort, so equal
    scores keep the order in which they were appended. *)
Fixpoint insert_desc (x : string * Q) (l : list (string * Q))
  : list (string * Q) :=
  match l with
  | [] => [x]
  | y :: l' =>
      if Qle_bool (snd x) (snd y) then y :: insert_desc x l'
      else x :: y :: l'
  end.

Definition sort_desc (l : list (string * Q)) : list (string * Q) :=
  fold_left (fun acc x => insert_desc x acc) l [].

(** The loop body of [find_duplicate_faces]. *)
Definition match_against (files : gmap string string) (new_encoding : encoding)
    (existing_path : string) : list (string * Q) :=
  match get_face_encoding files existing_path with
  | None => []
  | Some existing_encoding =>
      let '(is_match, similarity) :=
        compare_faces new_encoding [existing_encoding] in
      if is_match then [(existing_path, similarity)] else []
  end.

Definition find_duplicate_faces (files : gmap string string)
    (new_face_path : string) (existing_faces : list string)
  : list (string * Q) :=
  match get_face_encoding files new_face_path with
  | None => []
  | Some new_encoding =>
      let matches := flat_map (match_against files new_encoding) existing_faces in
      sort_desc matches
  end.

End ImageProcessor.
End ImageProcessor.

(* ===================================================================== *)
(** ** processors/event_processor.py                                      *)
(* ===================================================================== *)

Module EventProcessor.
Import Database HikCentralAPI SupabaseAPI ImageProcessor Datetime.
Section EventProcessor.
Variable E : env.

Definition supabase_update_worker_status := SupabaseAPI.update_worker_status E.

(** What the creation transition holds once the images are on disk. *)
Record fetched := mkFetched {
  f_national_id : value;
  f_worker_id : value;
  f_face_path : string;
  f_id_card_path : string;
  f_id_card_url : value
}.

(** [existing and existing.get('hikcentral_person_id')] *)
Definition has_person_id (existing : option dict) : bool :=
  match existing with
  | Some ex => truthy (VDict ex) && truthy (dget ex "hikcentral_person_id")
  | None => false
  end.

(** [handle_worker_created], lines 136-182: validation, the check for a
    worker that is provisioned already, and the download of the images.
    [None] is an early [return]. *)
Definition created_fetch (wd : dict) : M (option fetched) :=
  let national_id := dget wd "nationalIdNumber" in
  let worker_id := py_or (dget wd "workerId") (dget wd "id") in
  if negb (truthy national_id) then
    do log ERROR "No national ID in worker data: {worker_data}" then ret None
  else if negb (truthy worker_id) then
    do log ERROR "No worker ID in worker data: {worker_data}" then ret None
  else
    do log INFO "Creating worker: {national_id} (Worker ID: {worker_id})" then
    let* existing := get_by_national_id national_id in
    if has_person_id existing then
      do log INFO "Worker already exists in HikCentral: {national_id}" then
      ret None
    else
      let face_url := py_or (dget wd "facePhoto") (dget wd "facePhotoUrl") in
      let id_card_url :=
        py_or (dget wd "nationalIdImage") (dget wd "idCardImageUrl") in
      if negb (truthy face_url) then
        do log ERROR "No face photo URL for worker: {national_id}" then ret None
      else
        do log INFO "Downloading images for worker: {national_id}" then
        let face_filename := py_str E national_id +:+ "_face.jpg" in
        let id_card_filename := py_str E national_id +:+ "_id.jpg" in
        let face_path := path_join E faces_dir face_filename in
        let id_card_path := path_join E id_cards_dir id_card_filename in
        let* ok := download_image E face_url face_path in
        if negb ok then
          do log ERROR "Failed to download face photo for worker: {national_id}"
          then ret None
        else
          do log INFO "Face photo downloaded: {face_path}" then
          do (if truthy id_card_url then
                let* ok2 := download_image E id_card_url id_card_path in
                if ok2 then log INFO "ID card downloaded: {id_card_path}"
                else log WARNING
                       "Failed to download ID card for worker: {national_id}"
              else ret tt) then
          ret (Some (mkFetched national_id worker_id face_path id_card_path
                       id_card_url)).

(** The comprehension that collects the cached face images of the store:
    [Path(p)] raises on a truthy value that is not a string. *)
Fixpoint existing_face_paths (files : gmap string string)
    (existing_workers : list dict) : result (list string) :=
  match existing_workers with
  | [] => Ok []
  | w :: ws =>
      let p := dget w "face_image_path" in
      if truthy p then
        match p with
        | VStr s =>
            match existing_face_paths files ws with
            | Ok rest =>
                Ok (if decide (is_Some (files !! s)) then s :: rest else rest)
            | Raised => Raised
            end
        | _ => Raised
        end
      else existing_face_paths files ws
  end.

(** Lines 184-193: the admission gate, run against the store. *)
Definition check_duplicates (face_path : string) : M (list (string * Q)) :=
  do log INFO "Checking for duplicate faces for worker: {national_id}" then
  let* existing_workers := get_all_workers in
  fun w =>
    match existing_face_paths (fs w) existing_workers with
    | Ok paths => (w, Ok (find_duplicate_faces E (fs w) face_path paths))
    | Raised => (w, Raised)
    end.

Definition duplicate_reason (similarity : Q) : string :=
  "وجه مطابق لعامل آخر - احتمال تزوير (تشابه: " +:+
  format_percent E similarity +:+ ")".

(** Lines 195-207: a duplicate was found. *)
Definition report_duplicate (f : fetched) (top : string * Q) : M unit :=
  do log WARNING
       "Potential duplicate faces found for worker {national_id}. Top match: {path} (similarity: {similarity})"
  then
  do supabase_update_worker_status (f_worker_id f) (f_national_id f) "blocked"
       VNone (VStr (duplicate_reason (snd top))) then
  ret tt.

Definition utc_offset : string := "+02:00".

(** Lines 221-259: the access validity window [(begin_time, end_time)]. *)
Definition validity_window (wd : dict) : M (string * string) :=
  let valid_from := dget wd "validFrom" in
  let valid_to := dget wd "validTo" in
  let from_dates : option (string * string) :=
    if truthy valid_from && truthy valid_to then
      match valid_from, valid_to with
      | VStr vf, VStr vt =>
          match strptime_ymd vf with
          | Some from_dt =>
              match strptime_ymd vt with
              | Some to_dt =>
                  Some (strftime_start_of_day from_dt +:+ utc_offset,
                        strftime_end_of_day to_dt +:+ utc_offset)
              | None => None
              end
          | None => None
          end
      | _, _ => None                 (* strptime raises TypeError, caught *)
      end
    else None in
  match from_dates with
  | Some window =>
      do log INFO "Using validFrom/validTo dates: {valid_from} to {valid_to}"
      then ret window
  | None =>
      do (if truthy valid_from && truthy valid_to then
            log WARNING
              "Error parsing validFrom/validTo dates: {e}. Using createdAt fallback."
          else ret tt) then
      let created_at := dget wd "createdAt" in
      if truthy created_at then
        match created_at with
        | VStr s =>
            match fromisoformat E (replace_Z s) with
            | Some dt =>
                match add_days dt 3650 with
                | Some end_dt =>
                    ret (strftime_seconds dt +:+ utc_offset,
                         strftime_seconds end_dt +:+ utc_offset)
                | None => raise      (* OverflowError *)
                end
            | None => raise          (* ValueError *)
            end
        | _ => raise                 (* no attribute 'replace' *)
        end
      else
        let* n := draw (now E) in
        match add_days n 3650 with
        | Some end_dt =>
            ret (strftime_seconds n +:+ utc_offset,
                 strftime_seconds end_dt +:+ utc_offset)
        | None => raise
        end
  end.

(** The record written to the store, pending or approved. *)
Definition worker_record (wd : dict) (f : fetched) (full_name : string)
    (status : string) (person_id : value) (access : bool) (created_at : string)
  : dict :=
  [("workerId", f_worker_id f);
   ("nationalIdNumber", f_national_id f);
   ("fullName", VStr full_name);
   ("phoneNumber", dget_default wd "phoneNumber" (VStr ""));
   ("email", dget_default wd "email" (VStr ""));
   ("status", VStr status);
   ("hikcentral_person_id", person_id);
   ("face_image_path", VStr (f_face_path f));
   ("id_card_image_path",
     if truthy (f_id_card_url f) then VStr (f_id_card_path f) else VStr "");
   ("has_privilege_access", VBool access);
   ("created_at", VStr created_at)].

Definition created_success_message : string :=
  "Successfully created worker in HikCentral: {national_id} (Person ID: {person_id})".

(** Lines 209-347: no duplicate was reported. *)
Definition created_provision (wd : dict) (f : fetched) : M unit :=
  do log INFO "No duplicate faces found for worker: {national_id}" then
  do log INFO "Converting face image to base64 for worker: {national_id}" then
  let* files := (fun w => (w, Ok (fs w))) in
  let face_base64 := image_to_base64 E files (f_face_path f) in
  if negb (truthy (VStr face_base64)) then
    log ERROR "Failed to convert face image to base64: {national_id}"
  else
    let* window := validity_window wd in
    let begin_time := fst window in
    let end_time := snd window in
    match dget_default wd "fullName" (VStr "") with
    | VStr full_name =>
        let name_parts := split_first_space full_name in
        let family_name := fst name_parts in
        let given_name :=
          match snd name_parts with Some g => g | None => "" end in
        do log INFO "Adding person to HikCentral: {national_id} (Worker ID: {worker_id})"
        then
        do log INFO "Date range: {begin_time} to {end_time}" then
        let* person_id :=
          add_person E (f_worker_id f) family_name given_name 1
            (dget_default wd "phoneNumber" (VStr ""))
            (dget_default wd "email" (VStr ""))
            face_base64 begin_time end_time in
        do log INFO "HikCentral add_person returned: {person_id}" then
        if negb (truthy person_id) then
          do log ERROR "Failed to add person to HikCentral: {national_id}" then
          do log INFO
               "Saving worker to local database with pending status: {national_id}"
          then
          let* t := draw (utcnow_iso E) in
          do upsert_worker E
               (worker_record wd f full_name "pending" (VStr "") false t) then
          log INFO "Worker saved to local database: {national_id}"
        else
          do log INFO "Person added to HikCentral with ID: {person_id}" then
          do log INFO "Adding person to privilege group: {national_id}" then
          let* privilege_result := add_to_privilege_group E person_id in
          do log INFO "Privilege group result: {privilege_result}" then
          do (if negb privilege_result then
                log WARNING
                  "Failed to add person to privilege group: {national_id}"
              else log INFO "Person added to privilege group: {national_id}")
          then
          do log INFO "Updating local database for worker: {national_id}" then
          let* t := draw (utcnow_iso E) in
          let record :=
            worker_record wd f full_name "approved" person_id true t in
          do log INFO "Worker record prepared: {worker_record}" then
          do upsert_worker E record then
          do log INFO
               "Worker saved to local database successfully: {national_id}"
          then
          do log INFO "Updating worker status in Supabase: {national_id}" then
          do supabase_update_worker_status (f_worker_id f) (f_national_id f)
               "approved" person_id VNone then
          log INFO created_success_message
    | _ => raise                     (* no attribute 'split' *)
    end.

Definition handle_worker_created (worker_data : value) : M unit :=
  try_except
    (match worker_data with
     | VDict wd =>
         let* pre := created_fetch wd in
         match pre with
         | None => ret tt
         | Some f =>
             let* duplicates := check_duplicates (f_face_path f) in
             match duplicates with
             | top :: _ => report_duplicate f top
             | [] => created_provision wd f
             end
         end
     | _ => raise                    (* no attribute 'get' *)
     end)
    (log ERROR "Error handling worker creation: {e}").

Definition default_blocked_reason : string := "تم الحظر بواسطة النظام".

Definition handle_worker_blocked (worker_data : value) : M unit :=
  try_except
    (match worker_data with
     | VDict wd =>
         let national_id := dget wd "nationalIdNumber" in
         let worker_id := dget wd "id" in
         let blocked_reason :=
           dget_default wd "blockedReason" (VStr default_blocked_reason) in
         do log INFO "Blocking worker: {national_id}" then
         let* worker := get_by_national_id national_id in
         match worker with
         | Some wk =>
             if negb (truthy (VDict wk)) then
               log WARNING "Worker not found in local database: {national_id}"
             else
               let person_id := dget wk "hikcentral_person_id" in
               if negb (truthy person_id) then
                 log WARNING "No HikCentral person ID for worker: {national_id}"
               else
                 let* removed := remove_from_privilege_group E person_id in
                 if removed then
                   let* t := draw (utcnow_iso E) in
                   do Database.update E [("nationalIdNumber", national_id)]
                        [("status", VStr "blocked");
                         ("blockedReason", blocked_reason);
                         ("has_privilege_access", VBool false);
                         ("blocked_at", VStr t)] then
                   log INFO "Successfully blocked worker: {national_id}"
                 else
                   log ERROR "Failed to block worker in HikCentral: {national_id}"
         | None =>
             log WARNING "Worker not found in local database: {national_id}"
         end
     | _ => raise
     end)
    (log ERROR "Error handling worker blocking: {e}").

Definition handle_worker_deleted (worker_data : value) : M unit :=
  try_except
    (match worker_data with
     | VDict wd =>
         let national_id := dget wd "nationalIdNumber" in
         do log INFO "Deleting worker: {national_id}" then
         let* worker := get_by_national_id national_id in
         match worker with
         | Some wk =>
             if negb (truthy (VDict wk)) then
               log WARNING "Worker not found in local database: {national_id}"
             else
               let person_id := dget wk "hikcentral_person_id" in
               if negb (truthy person_id) then
                 log WARNING "No HikCentral person ID for worker: {national_id}"
               else
                 let* deleted := delete_person E person_id in
                 if deleted then
                   let* t := draw (utcnow_iso E) in
                   do Database.update E [("nationalIdNumber", national_id)]
                        [("status", VStr "deleted"); ("deleted_at", VStr t)] then
                   log INFO "Successfully deleted worker: {national_id}"
                 else
                   log ERROR
                     "Failed to delete worker from HikCentral: {national_id}"
         | None =>
             log WARNING "Worker not found in local database: {national_id}"
         end
     | _ => raise
     end)
    (log ERROR "Error handling worker deletion: {e}").

Definition handle_worker_unblocked (worker_data : value) : M unit :=
  try_except
    (match worker_data with
     | VDict wd =>
         let national_id := dget wd "nationalIdNumber" in
         let worker_id := dget wd "id" in
         do log INFO "Unblocking worker: {national_id}" then
         let* worker := get_by_national_id national_id in
         match worker with
         | Some wk =>
             if negb (truthy (VDict wk)) then
               log WARNING "Worker not found in local database: {national_id}"
             else
               let person_id := dget wk "hikcentral_person_id" in
               if negb (truthy person_id) then
                 log WARNING "No HikCentral person ID for worker: {national_id}"
               else
                 let* added := add_to_privilege_group E person_id in
                 if added then
                   let* t := draw (utcnow_iso E) in
                   do Database.update E [("nationalIdNumber", national_id)]
                        [("status", VStr "approved");
                         ("blockedReason", VStr "");
                         ("has_privilege_access", VBool true);
                         ("unblocked_at", VStr t)] then
                   do supabase_update_worker_status worker_id national_id
                        "approved" person_id VNone then
                   log INFO "Successfully unblocked worker: {national_id}"
                 else
                   log ERROR
                     "Failed to unblock worker in HikCentral: {national_id}"
         | None =>
             log WARNING "Worker not found in local database: {national_id}"
         end
     | _ => raise
     end)
    (log ERROR "Error handling worker unblocking: {e}").

(** The event classes told apart by the [if]/[elif] chain of
    [process_single_event], in the order of the chain. *)
Inductive event_class :=
| WorkerCreated | WorkersBulkCreated
| WorkerBlocked | UnitWorkersBlocked
| WorkerDeleted
| WorkerUnblocked | UnitWorkersUnblocked
| UnknownEvent.

Definition classify (event_type : value) : event_class :=
  if py_eq event_type (VStr "worker.created") then WorkerCreated
  else if py_eq event_type (VStr "workers.bulk_created") then WorkersBulkCreated
  else if py_eq event_type (VStr "worker.blocked") then WorkerBlocked
  else if py_eq event_type (VStr "unit.workers_blocked") then UnitWorkersBlocked
  else if py_eq event_type (VStr "worker.deleted")
       || py_eq event_type (VStr "user.expired_workers_deleted")
       || py_eq event_type (VStr "user.deleted_workers_deleted")
  then WorkerDeleted
  else if py_eq event_type (VStr "worker.unblocked") then WorkerUnblocked
  else if py_eq event_type (VStr "unit.workers_unblocked")
  then UnitWorkersUnblocked
  else UnknownEvent.

(** [for worker in workers: handler(worker)] *)
Definition for_workers (workers : value) (handler : value -> M unit) : M unit :=
  match py_iter workers with
  | Ok l => for_each l handler
  | Raised => raise
  end.

(** [event.get('data', {}).get('workers', [])], then [event.get('workers', [])]
    when that is falsy. *)
Definition bulk_workers (ev : dict) : M value :=
  let* workers :=
    lift_result (py_get (dget_default ev "data" (VDict [])) "workers" (VList [])) in
  if negb (truthy workers) then ret (dget_default ev "workers" (VList []))
  else ret workers.

(** The shape shared by the single-worker branches: the [workers] list when
    it is truthy, else the [data] payload when it is truthy. *)
Definition single_or_list (ev : dict) (handler : value -> M unit)
    (otherwise : M unit) : M unit :=
  let workers := dget_default ev "workers" (VList []) in
  let event_data := dget_default ev "data" (VDict []) in
  if truthy workers then for_workers workers handler
  else if truthy event_data then handler event_data
  else otherwise.

Definition dispatch (ev : dict) (event_type : value) : M unit :=
  match classify event_type with
  | WorkerCreated =>
      let workers := dget_default ev "workers" (VList []) in
      let event_data := dget_default ev "data" (VDict []) in
      if truthy workers then
        let* _n := lift_result (py_len workers) in
        do log INFO "Processing {len(workers)} workers from event" then
        for_workers workers handle_worker_created
      else if truthy event_data then handle_worker_created event_data
      else log ERROR "No worker data found in event {event_id}"
  | WorkersBulkCreated =>
      let* workers := bulk_workers ev in
      let* _n := lift_result (py_len workers) in
      do log INFO "Processing {len(workers)} workers in bulk" then
      for_workers workers handle_worker_created
  | WorkerBlocked => single_or_list ev handle_worker_blocked (ret tt)
  | UnitWorkersBlocked =>
      let* workers := bulk_workers ev in
      for_workers workers handle_worker_blocked
  | WorkerDeleted => single_or_list ev handle_worker_deleted (ret tt)
  | WorkerUnblocked => single_or_list ev handle_worker_unblocked (ret tt)
  | UnitWorkersUnblocked =>
      let* workers := bulk_workers ev in
      for_workers workers handle_worker_unblocked
  | UnknownEvent => log WARNING "Unknown event type: {event_type}"
  end.

(** [event.get('type')] is evaluated before the [try]: an event that is not
    a dict raises out of [process_single_event]. *)
Definition process_single_event (event : value) : M unit :=
  match event with
  | VDict ev =>
      let event_type := dget ev "type" in
      do log INFO "Processing event: {event_type} (ID: {event_id})" then
      try_except (dispatch ev event_type)
        (log ERROR "Error processing event {event_type} (ID: {event_id}): {e}")
  | _ => raise
  end.

Definition process_events : M unit :=
  try_except
    (do log INFO "Fetching pending events..." then
     let* events := get_pending_events E in
     if negb (truthy events) then log INFO "No pending events to process"
     else
       let* _n := lift_result (py_len events) in
       do log INFO "Processing {len(events)} events" then
       for_workers events process_single_event)
    (log ERROR "Error processing events: {e}").

End EventProcessor.
End EventProcessor.

(* ===================================================================== *)
(** ** Observing a run                                                    *)
(* ===================================================================== *)

(** What the access-control system answered to a call, given the history
    of calls that preceded it. *)
Definition answer (E : env) (hist : list call) (c : call) : http_outcome :=
  match c with
  | HikPost url headers body => hik_server E hist url headers body
  | _ => TransportError
  end.

(** The calls made and the messages logged between two worlds of a run. *)
Definition calls_since (w w' : world) : list call :=
  drop (length (trace w)) (trace w').
Definition logs_since (w w' : world) : list (level * string) :=
  drop (length (logs w)) (logs w').

Definition is_hik_call (c : call) : bool :=
  match c with HikPost _ _ _ => true | _ => false end.

(** [createPerson]: a POST to the person/single/add endpoint. *)
Definition is_create_person (c : call) : bool :=
  match c with
  | HikPost url _ _ =>
      String.eqb url
        (HikCentralAPI.base_url +:+ HikCentralAPI.add_person_endpoint)
  | _ => false
  end.

(** The tags that the [if]/[elif] chain of [process_single_event] names. *)
Definition recognized_tags : list string :=
  ["worker.created"; "workers.bulk_created"; "worker.blocked";
   "unit.workers_blocked"; "worker.deleted"; "user.expired_workers_deleted";
   "user.deleted_workers_deleted"; "worker.unblocked";
   "unit.workers_unblocked"].

(** ASCII case folding, to speak of tags that differ only by letter case. *)
Definition ascii_lower (c : ascii) : ascii :=
  let n := nat_of_ascii c in
  if (65 <=? n)%nat && (n <=? 90)%nat then ascii_of_nat (n + 32) else c.

Fixpoint str_lower (s : string) : string :=
  match s with
  | EmptyString => EmptyString
  | String c s' => String (ascii_lower c) (str_lower s')
  end.

(** What one pass of [update] does to the records: a matching record takes
    the new fields and a fresh [_updated_at], the others are kept. *)
Definition updated_by (query upd : dict) (r r' : dict) : Prop :=
  if Database.matches query r
  then exists t, r' = dset "_updated_at" (VStr t) (dupdate r upd)
  else r' = r.

(** [b] is [a] followed by elements that all satisfy [P]: how the call
    history and the log grow along a run. *)
Definition extends {A} (P : A -> Prop) (a b : list A) : Prop :=
  exists x, b = a ++ x /\ Forall P x.

Definition not_hik (c : call) : Prop := is_hik_call c = false.
Definition not_success (e : level * string) : Prop :=
  e <> (INFO, EventProcessor.created_success_message).

(** The order of the gate's answer: [x] may stand before [y]. *)
Definition by_similarity_desc (x y : string * Q) : Prop := (snd y <= snd x)%Q.

(** How many records the store keeps under an identity key. *)
Definition count_key (nid : string) (data : list dict) : nat :=
  length (List.filter (Database.matches [("nationalIdNumber", VStr nid)]) data).

(** The access-control system answered a call with a success envelope:
    a JSON object whose [code] is the string "0", under a status that
    [raise_for_status] accepts. *)
Definition success_answer (E : env) (hist : list call) (c : call)
    (envelope : dict) : Prop :=
  exists status,
    answer E hist c = Response status (JsonText (VDict envelope)) /\
    dget envelope "code" = VStr "0" /\
    is_error_status status = false.

(** The request that the client sends from a world: the call that
    [_make_request] appends to the history. *)
Definition sent_by {A} (run : world * result A) (w : world) (c : call) : Prop :=
  trace (fst run) = trace w ++ [c].

(** The three transitions of a known worker, each with the remote operation
    it relies on. *)
Definition lifecycle (E : env) : list ((value -> M unit) * (value -> M bool)) :=
  [(EventProcessor.handle_worker_blocked E,
    HikCentralAPI.remove_from_privilege_group E);
   (EventProcessor.handle_worker_deleted E, HikCentralAPI.delete_person E);
   (EventProcessor.handle_worker_unblocked E,
    HikCentralAPI.add_to_privilege_group E)].

(** The records of the store kept under an identity key. *)
Definition records_of (national_id : value) (data : list dict) : list dict :=
  filter (fun r => Database.matches [("nationalIdNumber", national_id)] r = true)
         data.

(* ===================================================================== *)
(** ** Concrete scenarios                                                 *)
(* ===================================================================== *)

(** A reachable remote system, a small gallery of face images and the
    payloads used to run the model on concrete inputs. *)
Module Scenario.
Import HikCentralAPI EventProcessor.

Definition ok_envelope (data : dict) : http_outcome :=
  Response 200 (JsonText (VDict
    [("code", VStr "0"); ("msg", VStr "Success"); ("data", VDict data)])).

Definition failed_envelope : http_outcome :=
  Response 200 (JsonText (VDict
    [("code", VStr "128"); ("msg", VStr "Operation failed")])).

Definition is_endpoint (url endpoint : string) : bool :=
  String.eqb url (base_url +:+ endpoint).

(** Every call succeeds; a created person gets the identifier P-1001. *)
Definition hik_all_ok (hist : list call) (url : string)
    (headers : gmap string string) (body : string) : http_outcome :=
  if is_endpoint url add_person_endpoint
  then ok_envelope [("personId", VStr "P-1001")]
  else ok_envelope [].

(** The person is created, the access grant is refused. *)
Definition hik_grant_fails (hist : list call) (url : string)
    (headers : gmap string string) (body : string) : http_outcome :=
  if is_endpoint url add_person_endpoint
  then ok_envelope [("personId", VStr "P-1001")]
  else if is_endpoint url add_persons_endpoint then failed_envelope
  else ok_envelope [].

(** The creation succeeds but the answer names no identifier. *)
Definition hik_no_identifier (hist : list call) (url : string)
    (headers : gmap string string) (body : string) : http_outcome :=
  if is_endpoint url add_person_endpoint
  then ok_envelope [("personCode", VStr "w1")]
  else ok_envelope [].

(** An image server that answers every URL with the URL itself as content. *)
Definition echo_images (hist : list call) (url : value) : image_outcome :=
  match url with
  | VStr s => ImageResponse 200 s
  | _ => ImageError
  end.

(** One-dimensional encodings: ali and ali2 are close, omar is far, the
    blank picture shows no face. *)
Definition gallery (image : string) : option (list encoding) :=
  if String.eqb image "https://img/ali.jpg" then Some [[0 # 1]]
  else if String.eqb image "https://img/ali2.jpg" then Some [[4 # 10]]
  else if String.eqb image "https://img/omar.jpg" then Some [[9 # 10]]
  else if String.eqb image "https://img/blank.jpg" then Some []
  else None.

Definition distance_1d (a b : encoding) : option Q :=
  match a, b with
  | [x], [y] => Some (Qabs (x - y))
  | _, _ => None
  end.

(** A compact JSON rendering, enough to read the requests of a scenario. *)
Definition quote : string := String "034"%char "".

Fixpoint to_json (v : value) : string :=
  match v with
  | VNone => "null"
  | VBool true => "true"
  | VBool false => "false"
  | VNum n => str_of_Z n
  | VStr s => quote +:+ s +:+ quote
  | VList l =>
      "[" +:+
      (fix items (l : list value) : string :=
         match l with
         | [] => ""
         | [x] => to_json x
         | x :: rest => to_json x +:+ "," +:+ items rest
         end) l +:+ "]"
  | VDict d =>
      "{" +:+
      (fix items (d : dict) : string :=
         match d with
         | [] => ""
         | [(k, x)] => quote +:+ k +:+ quote +:+ ":" +:+ to_json x
         | (k, x) :: rest =>
             quote +:+ k +:+ quote +:+ ":" +:+ to_json x +:+ "," +:+ items rest
         end) d +:+ "}"
  end.

Definition parse_created_at (s : string) : option datetime :=
  if String.eqb s "2025-11-20T21:12:40.643+00:00"
  then Some (mkDatetime 2025 11 20 21 12 40)
  else None.

Definition demo_env (hik : list call -> string -> gmap string string -> string
                           -> http_outcome) : env :=
  {| hik_server := hik;
     supa_server := fun _ _ _ _ =>
       Response 200 (JsonText (VDict [("success", VBool true)]));
     image_server := echo_images;
     face_encodings := gallery;
     face_distance := distance_1d;
     b64encode := fun s => "base64," +:+ s;
     md5_b64 := fun s => "md5," +:+ s;
     hmac_sha256_b64 := fun key msg => "hmac," +:+ msg;
     json_dumps := to_json;
     uuid4 := fun n => "nonce-" +:+ str_of_Z (Z.of_nat n);
     time_ms := fun n => "1763673160" +:+ str_of_Z (Z.of_nat n);
     utcnow_iso := fun n => "2025-11-20T21:12:40." +:+ str_of_Z (Z.of_nat n);
     now := fun _ => mkDatetime 2025 11 21 8 0 0;
     fromisoformat := parse_created_at;
     format_percent := fun q => "60.0%";
     py_repr := fun _ => "<object>";
     path_join := fun d n => d +:+ "/" +:+ n |}.

Definition E_ok : env := demo_env hik_all_ok.
Definition E_grant_fails : env := demo_env hik_grant_fails.
Definition E_no_identifier : env := demo_env hik_no_identifier.

Definition empty_world : world := mkWorld [] ∅ [] [] 0.

Definition payload (national_id worker_id name face_url : string) : dict :=
  [("nationalIdNumber", VStr national_id);
   ("id", VStr worker_id);
   ("fullName", VStr name);
   ("facePhotoUrl", VStr face_url)].

Definition ali : dict := payload "123" "w1" "Ali Hassan" "https://img/ali.jpg".
Definition ali_again : dict :=
  payload "456" "w2" "Aly Hasan" "https://img/ali2.jpg".
Definition omar : dict := payload "789" "w3" "Omar Said" "https://img/omar.jpg".
Definition faceless : dict :=
  payload "321" "w4" "No Face" "https://img/blank.jpg".

(** The end-to-end payload of the specification. *)
Definition ali_dated : dict :=
  ali ++ [("validFrom", VStr "2025-01-01"); ("validTo", VStr "2025-12-31")].

(** The body of the [createPerson] request for [ali_dated]. *)
Definition ali_dated_body : dict :=
  [("personCode", VStr "w1");
   ("personFamilyName", VStr "Ali");
   ("personGivenName", VStr "Hassan");
   ("gender", VNum 1);
   ("orgIndexCode", VStr "1");
   ("phoneNo", VStr "");
   ("email", VStr "");
   ("faces", VList [VDict [("faceData", VStr "base64,https://img/ali.jpg")]]);
   ("fingerPrint", VList []);
   ("cards", VList []);
   ("beginTime", VStr "2025-01-01T00:00:00+02:00");
   ("endTime", VStr "2025-12-31T23:59:59+02:00");
   ("residentRoomNo", VNum 1);
   ("residentFloorNo", VNum 1)].

(** The bodies of the requests sent to the access-control system. *)
Definition hik_bodies (t : list call) : list (string * string) :=
  flat_map (fun c => match c with
                     | HikPost url _ body => [(url, body)]
                     | _ => []
                     end) t.

(** The store after Ali was provisioned in a reachable system. *)
Definition world_with_ali : world :=
  fst (handle_worker_created E_ok (VDict ali) empty_world).

(** Ali's record in that store. *)
Definition ali_record : dict := default [] (head (db world_with_ali)).

(** What the creation transition holds for a payload once its images are
    fetched, with no identity document. *)
Definition fetched_for (national_id worker_id : string) : fetched :=
  mkFetched (VStr national_id) (VStr worker_id)
    ("data/faces/" +:+ national_id +:+ "_face.jpg")
    ("data/id_cards/" +:+ national_id +:+ "_id.jpg") VNone.

(** The best match of [ali_again] against the store. *)
Definition ali_match : string * Q := ("data/faces/123_face.jpg", 6 # 10).

(** A payload that carries a creation timestamp and no validity dates. *)
Definition ali_stamped : dict :=
  ali ++ [("createdAt", VStr "2025-11-20T21:12:40.643Z")].

(** An event in the single-payload shape. *)
Definition event (tag : string) (data : dict) : dict :=
  [("type", VStr tag); ("id", VStr "e1"); ("data", VDict data)].

(** A blocking payload that names no reason. *)
Definition block_without_reason : dict :=
  [("nationalIdNumber", VStr "123"); ("id", VStr "w1")].

(** The request that a call through the client leaves in the history. *)
Definition last_call (w : world) : call :=
  default (ImageGet VNone) (last (trace w)).

Definition grant_request : M value :=
  _make_request E_grant_fails add_persons_endpoint
    (privilege_body (VStr "P-1001")) "POST".

Definition create_request : M value :=
  add_person E_no_identifier (VStr "w1") "Ali" "Hassan" 1 (VStr "") (VStr "")
    "base64,https://img/ali.jpg" "2025-01-01T00:00:00+02:00"
    "2025-12-31T23:59:59+02:00".

(** The access-control system cannot be reached. *)
Definition hik_down (hist : list call) (url : string)
    (headers : gmap string string) (body : string) : http_outcome :=
  TransportError.

Definition E_hik_down : env := demo_env hik_down.

(** The application cannot be reached either. *)
Definition E_offline : env :=
  mkEnv hik_down (fun _ _ _ _ => TransportError) (image_server E_ok)
    (face_encodings E_ok) (face_distance E_ok) (b64encode E_ok) (md5_b64 E_ok)
    (hmac_sha256_b64 E_ok) (json_dumps E_ok) (uuid4 E_ok) (time_ms E_ok)
    (utcnow_iso E_ok) (now E_ok) (fromisoformat E_ok) (format_percent E_ok)
    (py_repr E_ok) (path_join E_ok).

(** A payload whose face photo is not a URL. *)
Definition bad_face_url : dict :=
  [("nationalIdNumber", VStr "555"); ("id", VStr "w5");
   ("fullName", VStr "Sara Adel"); ("facePhotoUrl", VNum 7)].

(** The store once the stamped payload of Ali is provisioned, and the
    record it holds. *)
Definition world_with_stamped_ali : world :=
  fst (handle_worker_created E_ok (VDict ali_stamped) empty_world).

Definition stamped_record : dict :=
  default [] (head (db world_with_stamped_ali)).

(** The same payload once its face image is on disk. *)
Definition ali_fetched : world :=
  fst (created_fetch E_ok ali_stamped empty_world).

(** The store after a creation event for Ali that the access-control
    system did not answer, and the pending record it holds. *)
Definition world_after_refusal : world :=
  fst (handle_worker_created E_hik_down (VDict ali_stamped) empty_world).

Definition pending_ali : dict := default [] (head (db world_after_refusal)).

(** A payload whose dates are in no format that the code reads. *)
Definition ali_bad_dates : dict :=
  ali ++ [("validFrom", VStr "01/01/2025"); ("validTo", VStr "2025-12-31");
          ("createdAt", VStr "yesterday")].

End Scenario.

(* ===================================================================== *)
(** ** Basic facts about the model                                        *)
(* ===================================================================== *)

Section MonadFacts.

Lemma bind_ok {A B} (c : M A) (k : A -> M B) w w' a :
  c w = (w', Ok a) -> bind c k w = k a w'.
Proof. intros H. unfold bind. now rewrite H. Qed.

Lemma bind_raised {A B} (c : M A) (k : A -> M B) w w' :
  c w = (w', Raised) -> bind c k w = (w', Raised).
Proof. intros H. unfold bind. now rewrite H. Qed.

Lemma drop_length_app {A} (l k : list A) : drop (length l) (l ++ k) = k.
Proof. induction l; simpl; auto. Qed.

Lemma py_eq_str s t : py_eq (VStr s) (VStr t) = String.eqb s t.
Proof. reflexivity. Qed.

Lemma py_eq_str_refl s : py_eq (VStr s) (VStr s) = true.
Proof. simpl. apply String.eqb_refl. Qed.

(** Only the string "0" compares equal to ['0']. *)
Lemma py_eq_zero_code v : py_eq v (VStr "0") = true -> v = VStr "0".
Proof.
  destruct v; simpl; try discriminate.
  intros H. apply String.eqb_eq in H. now subst.
Qed.

End MonadFacts.

(* ===================================================================== *)
(** ** Strings and dates                                                  *)
(* ===================================================================== *)

Section StringFacts.

Lemma append_cons c s t : String c s +:+ t = String c (s +:+ t).
Proof. reflexivity. Qed.

Lemma append_nil t : "" +:+ t = t.
Proof. reflexivity. Qed.

Lemma truthy_cons c s : truthy (VStr (String c s)) = true.
Proof. reflexivity. Qed.

End StringFacts.

Ltac norm_append := repeat (rewrite append_cons || rewrite append_nil).

Section DatetimeFacts.
Import Datetime.
#[local] Open Scope Z_scope.

(** A bounded integer is one of finitely many numerals. *)
Lemma bounded_nat (n bound : Z) :
  0 <= n <= bound -> exists k, n = Z.of_nat k /\ (k <= Z.to_nat bound)%nat.
Proof. intros H. exists (Z.to_nat n). lia. Qed.

Lemma digit_roundtrip n : 0 <= n <= 9 -> digit_val (digit_char n) = Some n.
Proof.
  intros H. destruct (bounded_nat n 9 H) as (k & -> & Hk).
  do 10 (destruct k as [|k]; [reflexivity|]). cbn in Hk. lia.
Qed.

Lemma parse_month_pad2 m rest :
  1 <= m <= 12 ->
  parse_month (pad2 m +:+ String "-" rest) = Some (m, String "-"%char rest).
Proof.
  intros H. destruct (bounded_nat m 12 ltac:(lia)) as (k & -> & Hk).
  do 13 (destruct k as [|k]; [try reflexivity; lia|]). cbn in Hk. lia.
Qed.

Lemma parse_day_pad2 d :
  1 <= d <= 31 -> parse_day (pad2 d) = Some (d, ""%string).
Proof.
  intros H. destruct (bounded_nat d 31 ltac:(lia)) as (k & -> & Hk).
  do 32 (destruct k as [|k]; [try reflexivity; lia|]). cbn in Hk. lia.
Qed.

Lemma year_digits y :
  0 <= y <= 9999 ->
  1000 * (y / 1000 mod 10) + 100 * (y / 100 mod 10) + 10 * (y / 10 mod 10)
    + y mod 10 = y.
Proof. intros H. Z.div_mod_to_equations. lia. Qed.

Lemma days_in_month_le y m : days_in_month y m <= 31.
Proof.
  unfold days_in_month.
  destruct (is_leap y); destruct m as [|p|p]; try lia;
    do 4 (try destruct p as [p|p|]; try lia).
Qed.

(** Parsing the ISO rendering of a calendar date gives the date back. *)
Lemma strptime_iso_date y m d :
  valid_date y m d = true ->
  strptime_ymd (iso_date y m d) = Some (mkDatetime y m d 0 0 0).
Proof.
  intros Hv. pose proof Hv as Hv'. unfold valid_date in Hv'.
  repeat (apply andb_prop in Hv'; destruct Hv' as [Hv' ?]).
  pose proof (days_in_month_le y m) as Hd31.
  unfold iso_date, pad4, strptime_ymd.
  change (pad2 y) with
    (String (digit_char (y / 10 mod 10)) (String (digit_char (y mod 10)) "")).
  norm_append.
  rewrite !digit_roundtrip
    by (match goal with |- _ <= ?a mod 10 <= _ =>
          pose proof (Z.mod_pos_bound a 10); lia end).
  cbn [Ascii.eqb Bool.eqb].
  rewrite parse_month_pad2 by lia. cbn [Ascii.eqb Bool.eqb].
  rewrite parse_day_pad2 by lia.
  rewrite year_digits by lia. rewrite Hv. reflexivity.
Qed.

Lemma truthy_iso_date y m d : truthy (VStr (iso_date y m d)) = true.
Proof. unfold iso_date, pad4. norm_append. reflexivity. Qed.

End DatetimeFacts.

(* ===================================================================== *)
(** ** Dictionaries and the store                                         *)
(* ===================================================================== *)

Section StoreFacts.
Import Database.
Variable E : env.

Lemma assoc_dset k k' (v : value) d :
  assoc k' (dset k v d) = if String.eqb k' k then Some v else assoc k' d.
Proof.
  induction d as [|[k0 v0] d IH]; simpl.
  - destruct (String.eqb k' k); reflexivity.
  - destruct (String.eqb k k0) eqn:Hk0; simpl.
    + apply String.eqb_eq in Hk0. subst k0.
      destruct (String.eqb k' k); reflexivity.
    + rewrite IH. destruct (String.eqb k' k0) eqn:Hk'0; [|reflexivity].
      apply String.eqb_eq in Hk'0. subst k0.
      destruct (String.eqb k' k) eqn:Hkk; [|reflexivity].
      apply String.eqb_eq in Hkk. subst k'.
      rewrite String.eqb_refl in Hk0. discriminate.
Qed.

Lemma dget_dset k k' v d :
  dget (dset k v d) k' = if String.eqb k' k then v else dget d k'.
Proof.
  unfold dget, dget_default. rewrite assoc_dset.
  destruct (String.eqb k' k); reflexivity.
Qed.

(** [find_one] reads the store and nothing else. *)
Lemma get_by_national_id_run national_id w :
  get_by_national_id national_id w =
    (w, Ok (List.find (matches [("nationalIdNumber", national_id)]) (db w))).
Proof. reflexivity. Qed.

(** A record found under a string key is not the empty dict. *)
Lemma matches_truthy nid r :
  matches [("nationalIdNumber", VStr nid)] r = true -> truthy (VDict r) = true.
Proof. destruct r; [discriminate | reflexivity]. Qed.

Lemma update_loop_run query upd data w :
  exists data' n,
    update_loop E query upd data w =
      (mkWorld (db w) (fs w) (trace w) (logs w) (ticks w + n), Ok (data', n))
    /\ Forall2 (updated_by query upd) data data'
    /\ (n = 0%nat <-> List.find (matches query) data = None).
Proof.
  revert w. induction data as [|r rest IH]; intros w.
  - exists [], 0%nat. cbn. rewrite Nat.add_0_r. destruct w; cbn.
    repeat split; auto.
  - cbn [update_loop List.find]. unfold updated_by at 1.
    destruct (matches query r) eqn:Hm.
    + unfold bind, draw. cbn.
      destruct (IH (tick w)) as (data' & n & Hrun & Hall & Hn).
      rewrite Hrun. cbn.
      exists (dset "_updated_at" (VStr (utcnow_iso E (ticks w))) (dupdate r upd)
                :: data'), (S n).
      split; [|split].
      * unfold ret. do 3 f_equal. lia.
      * constructor; [|exact Hall]. unfold updated_by. rewrite Hm. eauto.
      * split; discriminate.
    + unfold bind. destruct (IH w) as (data' & n & Hrun & Hall & Hn).
      rewrite Hrun. cbn. exists (r :: data'), n.
      split; [reflexivity|]. split; [|exact Hn].
      constructor; [|exact Hall]. unfold updated_by. rewrite Hm. reflexivity.
Qed.

Lemma updated_by_none query upd data :
  List.find (matches query) data = None ->
  Forall2 (updated_by query upd) data data.
Proof.
  induction data as [|r rest IH]; [constructor|]. cbn.
  destruct (matches query r) eqn:Hm; [discriminate|]. intros H.
  constructor; [|auto]. unfold updated_by. rewrite Hm. reflexivity.
Qed.

Lemma update_run query upd w :
  exists data' n,
    Database.update E query upd w =
      (mkWorld data' (fs w) (trace w) (logs w) (ticks w + n), Ok n)
    /\ Forall2 (updated_by query upd) (db w) data'.
Proof.
  unfold Database.update, bind, read.
  destruct (update_loop_run query upd (db w) w) as (data' & n & Hrun & Hall & Hn).
  rewrite Hrun. cbn [fst snd].
  destruct (0 <? n)%nat eqn:Hpos.
  - exists data', n. split; [reflexivity | exact Hall].
  - exists (db w), n. split; [reflexivity|].
    apply updated_by_none. apply Hn. apply Nat.ltb_ge in Hpos. lia.
Qed.

Lemma dupdate_snoc d u k v : dupdate d (u ++ [(k, v)]) = dset k v (dupdate d u).
Proof. unfold dupdate. rewrite fold_left_app. reflexivity. Qed.

(** After [d.update(u)] a key holds the last value that [u] gives it. *)
Lemma dget_dupdate d u k :
  dget (dupdate d u) k =
    match assoc k (rev u) with Some v => v | None => dget d k end.
Proof.
  induction u as [|[k0 v0] u IH] using rev_ind; [reflexivity|].
  rewrite dupdate_snoc, dget_dset, rev_unit. cbn [assoc].
  destruct (String.eqb k k0); [reflexivity | exact IH].
Qed.

Lemma matches_key nid r :
  matches [("nationalIdNumber", VStr nid)] r =
    py_eq (dget r "nationalIdNumber") (VStr nid).
Proof. unfold matches. cbn. apply andb_true_r. Qed.

(** After a pass of [update] that leaves the key alone or sets it to
    itself, the first record under the key is the first such record before,
    updated. *)
Lemma find_updated nid upd data data' r :
  assoc "nationalIdNumber" (rev upd) = None \/
  assoc "nationalIdNumber" (rev upd) = Some (VStr nid) ->
  Forall2 (updated_by [("nationalIdNumber", VStr nid)] upd) data data' ->
  List.find (matches [("nationalIdNumber", VStr nid)]) data = Some r ->
  exists t,
    List.find (matches [("nationalIdNumber", VStr nid)]) data' =
      Some (dset "_updated_at" (VStr t) (dupdate r upd)).
Proof.
  intros Hkey Hall. induction Hall as [|x x' l l' Hx Hl IH]; [discriminate|].
  cbn [List.find]. unfold updated_by in Hx.
  destruct (matches [("nationalIdNumber", VStr nid)] x) eqn:Hm.
  - intros [= ->]. destruct Hx as [t ->]. exists t.
    assert (Hm' : matches [("nationalIdNumber", VStr nid)]
                    (dset "_updated_at" (VStr t) (dupdate r upd)) = true).
    { rewrite matches_key in *. rewrite dget_dset. cbn [String.eqb Ascii.eqb Bool.eqb].
      rewrite dget_dupdate. destruct Hkey as [-> | ->];
        [exact Hm | apply py_eq_str_refl]. }
    now rewrite Hm'.
  - subst x'. rewrite Hm. exact IH.
Qed.

Lemma find_app_none {A} (p : A -> bool) l x :
  List.find p l = None -> List.find p (l ++ [x]) = if p x then Some x else None.
Proof.
  induction l as [|y l IH]; cbn; [reflexivity|].
  destruct (p y); [discriminate | exact IH].
Qed.

(** [upsert_worker] on a record that names its key: the store then holds,
    first under that key, a record with the fields just written. *)
Lemma upsert_worker_run rec nid w :
  assoc "nationalIdNumber" rec = Some (VStr nid) ->
  assoc "nationalIdNumber" (rev rec) = Some (VStr nid) ->
  exists data' n ret_val stored,
    upsert_worker E rec w =
      (mkWorld data' (fs w) (trace w) (logs w) (ticks w + n), Ok ret_val) /\
    List.find (matches [("nationalIdNumber", VStr nid)]) data' = Some stored /\
    (forall k v,
        k <> "_updated_at" -> k <> "_created_at" ->
        assoc k rec = Some v -> assoc k (rev rec) = Some v ->
        dget stored k = v).
Proof.
  intros Hk Hkr. unfold upsert_worker. rewrite Hk.
  unfold bind. rewrite get_by_national_id_run.
  destruct (List.find (matches [("nationalIdNumber", VStr nid)]) (db w))
    as [ex|] eqn:Hfind.
  - pose proof (find_some _ _ Hfind) as [_ Hm].
    rewrite (matches_truthy _ _ Hm).
    destruct (update_run [("nationalIdNumber", VStr nid)] rec w)
      as (data' & n & Hrun & Hall).
    rewrite Hrun. cbn.
    destruct (find_updated nid rec (db w) data' ex (or_intror Hkr) Hall Hfind)
      as [t Hf].
    exists data', n, (dupdate ex rec),
      (dset "_updated_at" (VStr t) (dupdate ex rec)). split; [reflexivity|].
    split; [exact Hf|].
    intros k v Hu Hc _ Hv. rewrite dget_dset.
    apply String.eqb_neq in Hu. rewrite Hu.
    rewrite dget_dupdate, Hv. reflexivity.
  - unfold insert, bind, read, draw, write, ret. cbn.
    eexists _, 2%nat, _, _.
    split; [replace (ticks w + 2)%nat with (S (S (ticks w))) by lia;
            reflexivity|].
    split.
    + rewrite find_app_none by exact Hfind.
      rewrite matches_key, !dget_dset. cbn [String.eqb Ascii.eqb Bool.eqb].
      unfold dget, dget_default. rewrite Hk, py_eq_str_refl. reflexivity.
    + intros k v Hu Hc Hv _. rewrite !dget_dset.
      apply String.eqb_neq in Hu, Hc. rewrite Hu, Hc.
      unfold dget, dget_default. now rewrite Hv.
Qed.

End StoreFacts.

(* ===================================================================== *)
(** ** The signed RPC client                                              *)
(* ===================================================================== *)

Section SignedClient.
Import HikCentralAPI.
Variable E : env.

(** One request leaves the process per [_make_request]; its result is what
    [handle_response] makes of the server's answer. *)
Lemma make_request_run endpoint body method w :
  exists c,
    is_hik_call c = true /\
    is_create_person c = String.eqb endpoint add_person_endpoint /\
    _make_request E endpoint body method w =
      (add_call c (tick (tick w)), handle_response (answer E (trace w) c)).
Proof.
  unfold _make_request, _get_authenticated_headers, post, bind, draw, ret,
    lift_result.
  cbn. eexists (HikPost _ _ _). split; [reflexivity|]. split; [|reflexivity].
  cbn. unfold base_url.
  destruct (String.eqb endpoint add_person_endpoint) eqn:Heq.
  - apply String.eqb_eq in Heq. subst. reflexivity.
  - apply String.eqb_neq in Heq. apply String.eqb_neq. intros H. apply Heq.
    injection H as H.
    repeat (injection H as H). exact H.
Qed.

(** Lookups in the dictionary of [_get_authenticated_headers]. *)
Lemma authenticated_headers_lookup nonce timestamp body :
  let h := authenticated_headers E nonce timestamp body in
  h !! "Accept" = Some "application/json" /\
  h !! "Content-Type" = Some "application/json;charset=UTF-8" /\
  get_either h "x-ca-key" "X-Ca-Key" = Some app_key /\
  get_either h "x-ca-nonce" "X-Ca-Nonce" = Some nonce /\
  get_either h "x-ca-timestamp" "X-Ca-Timestamp" = Some timestamp /\
  h !! "Content-MD5" =
    match body with
    | Some b => if String.eqb b "" then None else Some (md5_b64 E b)
    | None => None
    end.
Proof.
  unfold authenticated_headers, get_either, _get_content_md5.
  destruct body as [b|]; [cbn [truthy]; destruct (String.eqb b "")|];
    cbn [negb]; repeat split; reflexivity.
Qed.


(** The signature header of the request that [_make_request] sends is the
    HMAC of that canonical string under the application secret. *)
Lemma make_request_signature endpoint body method w :
  exists headers body_str,
    trace (fst (_make_request E endpoint body method w)) =
      trace w ++ [HikPost (base_url +:+ endpoint)
                    (<["X-Ca-Signature" :=
                         hmac_sha256_b64 E app_secret
                           (string_to_sign method endpoint headers)]> headers)
                    body_str] /\
    headers =
      authenticated_headers E (uuid4 E (ticks w)) (time_ms E (S (ticks w)))
        (if truthy (VDict body) then Some body_str else None).
Proof.
  unfold _make_request, _get_authenticated_headers, post, bind, draw, ret,
    lift_result, _generate_signature.
  cbn. do 2 eexists. split; reflexivity.
Qed.

(** The empty object carries no [code] at all and is falsy: a 2xx answer
    hands it back as it is, and the operations built on [_make_request]
    report it as a failure like [None]. *)
Lemma empty_envelope_reported status w :
  handle_response (Response status (JsonText (VDict []))) =
    Ok (if is_error_status status then VNone else VDict []) /\
  truthy (VDict []) = false /\
  result_ok (VDict []) w = (w, Ok false).
Proof.
  unfold handle_response. cbn [truthy].
  destruct (is_error_status status); repeat split; reflexivity.
Qed.

(** C6. An envelope whose [code] is anything but the string "0" makes
    [_make_request] return [None], whatever the HTTP status, 2xx included;
    a transport error returns the same [None]. *)
Theorem C6_envelope_failure (endpoint method : string) (body : dict)
    (w : world) (c : call) (status : Z) (envelope : dict) :
  trace (fst (_make_request E endpoint body method w)) = trace w ++ [c] ->
  envelope <> [] ->
  dget envelope "code" <> VStr "0" ->
  (answer E (trace w) c = Response status (JsonText (VDict envelope)) ->
   snd (_make_request E endpoint body method w) = Ok VNone) /\
  (answer E (trace w) c = TransportError ->
   snd (_make_request E endpoint body method w) = Ok VNone).
Proof.
  intros Htrace Hne Hcode.
  destruct (make_request_run endpoint body method w) as (c' & _ & _ & Hrun).
  rewrite Hrun in Htrace |- *. cbn in Htrace.
  apply app_inv_head in Htrace. injection Htrace as ->.
  cbn [snd]. split; intros ->; [|reflexivity].
  unfold handle_response.
  destruct envelope as [|kv rest]; [congruence|]. cbn [truthy].
  destruct (py_eq (dget (kv :: rest) "code") (VStr "0")) eqn:Heq;
    [|reflexivity].
  apply py_eq_zero_code in Heq. congruence.
Qed.

(** A success envelope whose [data] object names no identifier makes
    [add_person] return the caller's [person_code]. *)
Lemma add_person_fallback (person_code phone_no email : value)
    (family_name given_name face_data begin_time end_time : string)
    (gender : Z) (w : world) (c : call) (status : Z) (envelope data : dict) :
  let run := add_person E person_code family_name given_name gender phone_no
               email face_data begin_time end_time w in
  trace (fst run) = trace w ++ [c] ->
  answer E (trace w) c = Response status (JsonText (VDict envelope)) ->
  is_error_status status = false ->
  dget envelope "code" = VStr "0" ->
  dget envelope "data" = VDict data ->
  assoc "personId" data = None ->
  assoc "id" data = None ->
  snd run = Ok person_code.
Proof.
  intros run Htrace Hans Hstatus Hcode Hdata Hpid Hid. subst run.
  unfold add_person in *.
  match goal with
  | H : context [_make_request E ?e ?b ?m] |- _ =>
      destruct (make_request_run e b m w) as (c' & _ & _ & Hrun)
  end.
  unfold bind in *. rewrite Hrun in Htrace |- *.
  assert (Hc : c' = c).
  { destruct (handle_response (answer E (trace w) c')) as [v|];
      [destruct (negb (truthy v)); [|destruct v as [| | | | |r];
         try (destruct (dget r "data"))]|];
      cbn in Htrace; apply app_inv_head in Htrace; congruence. }
  subst c'. rewrite Hans in *. unfold handle_response.
  assert (Hne : envelope <> []).
  { intros ->. discriminate. }
  destruct envelope as [|kv rest]; [congruence|]. cbn [truthy].
  rewrite Hcode. cbn [py_eq String.eqb Ascii.eqb Bool.eqb negb].
  rewrite Hstatus. cbn [truthy negb]. rewrite Hdata.
  unfold dget, dget_default. rewrite Hpid, Hid. reflexivity.
Qed.

End SignedClient.

Section PersonCodeFallback.
Import HikCentralAPI EventProcessor Scenario.


End PersonCodeFallback.

(* ===================================================================== *)
(** ** What each step of a transition may touch                           *)
(* ===================================================================== *)

Section Extends.
Context {A : Type} (P : A -> Prop).

Lemma extends_refl a : extends P a a.
Proof. exists []. split; [now rewrite app_nil_r | constructor]. Qed.

Lemma extends_snoc a b x : extends P a b -> P x -> extends P a (b ++ [x]).
Proof.
  intros (l & -> & Hl) Hx. exists (l ++ [x]). split; [now rewrite app_assoc|].
  apply Forall_app. split; [exact Hl | repeat constructor; exact Hx].
Qed.

Lemma extends_trans a b c : extends P a b -> extends P b c -> extends P a c.
Proof.
  intros (l & -> & Hl) (k & -> & Hk). exists (l ++ k).
  split; [now rewrite app_assoc | apply Forall_app; auto].
Qed.

Lemma extends_app a b l : extends P a b -> Forall P l -> extends P a (b ++ l).
Proof.
  intros (x & -> & Hx) Hl. exists (x ++ l).
  split; [now rewrite app_assoc | apply Forall_app; auto].
Qed.

Lemma extends_drop a b : extends P a b -> Forall P (drop (length a) b).
Proof. intros (l & -> & Hl). now rewrite drop_length_app. Qed.

End Extends.

Lemma bind_log {B} l m (k : unit -> M B) w :
  bind (log l m) k w = k tt (add_log l m w).
Proof. reflexivity. Qed.

Lemma bind_ret {A B} (a : A) (k : A -> M B) w : bind (ret a) k w = k a w.
Proof. reflexivity. Qed.

Lemma bind_get_by_national_id {B} nid (k : option dict -> M B) w :
  bind (Database.get_by_national_id nid) k w =
    k (List.find (Database.matches [("nationalIdNumber", nid)]) (db w)) w.
Proof. reflexivity. Qed.

Ltac fold_world :=
  cbn [add_log add_call tick set_db set_fs db fs trace logs ticks fst snd] in *.

Lemma bind_assoc {A B C} (c : M A) (k1 : A -> M B) (k2 : B -> M C) w :
  bind (bind c k1) k2 w = bind c (fun a => bind (k1 a) k2) w.
Proof. unfold bind. destruct (c w) as [w' [a|]]; reflexivity. Qed.

Ltac run_pure :=
  first [ rewrite bind_assoc | rewrite bind_log | rewrite bind_ret
        | rewrite bind_get_by_national_id ];
  cbv beta; fold_world.

Ltac solve_extends :=
  repeat first
    [ apply extends_snoc; [|first [reflexivity | discriminate]]
    | apply extends_app; [|assumption] ];
  apply extends_refl.

Section StepFacts.
Import Database HikCentralAPI SupabaseAPI ImageProcessor EventProcessor.
Variable E : env.

Lemma add_person_run person_code family_name given_name gender phone_no email
    face_data begin_time end_time w :
  exists c r,
    is_create_person c = true /\
    add_person E person_code family_name given_name gender phone_no email
      face_data begin_time end_time w = (add_call c (tick (tick w)), r).
Proof.
  unfold add_person, bind.
  match goal with
  | |- context [HikCentralAPI._make_request E ?e ?b ?m] =>
      destruct (make_request_run E e b m w) as (c & _ & Hc & ->)
  end.
  exists c. rewrite String.eqb_refl in Hc.
  destruct (handle_response (answer E (trace w) c)) as [v|]; [|eauto].
  destruct (negb (truthy v)); [eauto|].
  destruct v as [| | | | |r]; eauto. destruct (dget r "data"); eauto.
Qed.

Lemma result_ok_run v w : exists r, result_ok v w = (w, r).
Proof.
  unfold result_ok. destruct (truthy v); [destruct v|]; eauto.
Qed.

Lemma add_to_privilege_group_run person_id w :
  exists c r,
    is_hik_call c = true /\ is_create_person c = false /\
    add_to_privilege_group E person_id w = (add_call c (tick (tick w)), r).
Proof.
  unfold add_to_privilege_group, bind.
  match goal with
  | |- context [HikCentralAPI._make_request E ?e ?b ?m] =>
      destruct (make_request_run E e b m w) as (c & Hh & Hc & ->)
  end.
  exists c. destruct (handle_response (answer E (trace w) c)) as [v|]; [|eauto].
  destruct (result_ok_run v (add_call c (tick (tick w)))) as [r ->]. eauto.
Qed.

Lemma remove_from_privilege_group_run person_id w :
  exists c r,
    is_hik_call c = true /\ is_create_person c = false /\
    remove_from_privilege_group E person_id w = (add_call c (tick (tick w)), r).
Proof.
  unfold remove_from_privilege_group, bind.
  match goal with
  | |- context [HikCentralAPI._make_request E ?e ?b ?m] =>
      destruct (make_request_run E e b m w) as (c & Hh & Hc & ->)
  end.
  exists c. destruct (handle_response (answer E (trace w) c)) as [v|]; [|eauto].
  destruct (result_ok_run v (add_call c (tick (tick w)))) as [r ->]. eauto.
Qed.

Lemma supa_post_run endpoint data w :
  exists r,
    SupabaseAPI._make_request E "POST" endpoint data [] w =
      (add_call (SupaPost (SupabaseAPI.base_url +:+ endpoint) data) w, Ok r).
Proof.
  unfold SupabaseAPI._make_request, bind, ret.
  cbn [String.eqb Ascii.eqb Bool.eqb].
  destruct (supa_server E (trace w) "POST" (SupabaseAPI.base_url +:+ endpoint)
              data) as [|st [|v|]]; eauto.
  destruct (is_error_status st); eauto.
Qed.

(** The upstream report: at most one POST, and none to the access-control
    system. *)
Lemma update_worker_status_run worker_id national_id status external_id
    blocked_reason w :
  exists cs r,
    Forall (fun c => is_hik_call c = false) cs /\
    update_worker_status E worker_id national_id status external_id
      blocked_reason w =
      (mkWorld (db w) (fs w) (trace w ++ cs) (logs w) (ticks w), Ok r).
Proof.
  unfold update_worker_status.
  assert (Hnil : forall r : bool,
             exists cs r',
               Forall (fun c => is_hik_call c = false) cs /\
               (w, Ok r) =
               (mkWorld (db w) (fs w) (trace w ++ cs) (logs w) (ticks w), Ok r')).
  { intros r. exists [], r. split; [constructor|].
    rewrite app_nil_r. destruct w; reflexivity. }
  destruct (negb (truthy worker_id) && negb (truthy national_id));
    [apply Hnil|].
  destruct (negb (String.eqb status "approved" || String.eqb status "blocked"));
    [apply Hnil|].
  destruct (String.eqb status "blocked" && negb (truthy blocked_reason));
    [apply Hnil|].
  cbv zeta. unfold bind.
  match goal with
  | |- context [SupabaseAPI._make_request E _ ?e ?d _ w] =>
      destruct (supa_post_run e d w) as [r ->]
  end.
  eexists [_], _.
  split; [|reflexivity]. constructor; [reflexivity | constructor].
Qed.

Lemma download_image_run url save_path w :
  exists files r,
    download_image E url save_path w =
      (mkWorld (db w) files (trace w ++ [ImageGet url]) (logs w) (ticks w),
       Ok r).
Proof.
  unfold download_image.
  destruct (image_server E (trace w) url) as [|st content]; [eauto|].
  destruct (is_error_status st); eauto.
Qed.

Lemma created_fetch_run wd w :
  exists w' r,
    created_fetch E wd w = (w', Ok r) /\
    db w' = db w /\ ticks w' = ticks w /\
    extends not_hik (trace w) (trace w') /\
    extends not_success (logs w) (logs w') /\
    (forall f, r = Some f ->
       f_national_id f = dget wd "nationalIdNumber" /\
       f_worker_id f = py_or (dget wd "workerId") (dget wd "id") /\
       truthy (f_national_id f) = true /\
       truthy (f_worker_id f) = true) /\
    (has_person_id
       (List.find (matches [("nationalIdNumber", dget wd "nationalIdNumber")])
          (db w)) = true ->
     fs w' = fs w /\ trace w' = trace w /\ r = None).
Proof.
  destruct w as [d f t lg n]. unfold created_fetch.
  repeat first
    [ progress run_pure
    | match goal with
      | |- context [bind (download_image E ?u ?p) _ ?w] =>
          let files := fresh "files" in
          let ok := fresh "ok" in
          let Hrun := fresh "Hrun" in
          destruct (download_image_run u p w) as (files & ok & Hrun);
          rewrite (bind_ok _ _ _ _ _ Hrun); cbv beta; fold_world
      | |- context [if ?b then _ else _] => destruct b eqn:?
      end ];
  (do 2 eexists; split; [reflexivity|]; fold_world;
   repeat split; try solve_extends; try discriminate; try congruence).
  all: match goal with H : Some _ = Some _ |- _ => injection H as <- end.
  all: cbn [f_national_id f_worker_id]; try reflexivity.
  all: now apply negb_false_iff.
Qed.

End StepFacts.

(* ===================================================================== *)
(** ** The access validity window                                         *)
(* ===================================================================== *)

Section ValidityWindow.
Import Datetime EventProcessor Scenario.
#[local] Open Scope Z_scope.


End ValidityWindow.

(* ===================================================================== *)
(** ** Event dispatch                                                     *)
(* ===================================================================== *)

Section Dispatch.
Import EventProcessor Scenario.

Lemma py_eq_str_inv v t : py_eq v (VStr t) = true -> v = VStr t.
Proof.
  destruct v; simpl; try discriminate.
  intros H. apply String.eqb_eq in H. now subst.
Qed.

(** A tag is unknown exactly when it is none of the nine tags of the chain,
    compared as Python compares strings: character by character. *)
Lemma classify_unknown_iff v :
  classify v = UnknownEvent <->
  (forall s, In s recognized_tags -> v <> VStr s).
Proof.
  split.
  - intros Hc s Hin ->. unfold recognized_tags in Hin. cbn [In] in Hin.
    repeat (destruct Hin as [<- | Hin]; [discriminate Hc|]). exact Hin.
  - intros Hno. unfold classify.
    repeat match goal with
    | |- context [py_eq v (VStr ?t)] =>
        let Heq := fresh "Heq" in
        destruct (py_eq v (VStr t)) eqn:Heq;
        [apply py_eq_str_inv in Heq; exfalso; apply (Hno t);
           [unfold recognized_tags; cbn [In]; tauto | exact Heq]|]
    end.
    reflexivity.
Qed.

(** An event with an unknown tag costs two log lines and nothing else. *)
Lemma process_unknown_event (E : env) (ev : dict) (w : world) :
  classify (dget ev "type") = UnknownEvent ->
  process_single_event E (VDict ev) w =
    (add_log WARNING "Unknown event type: {event_type}"
       (add_log INFO "Processing event: {event_type} (ID: {event_id})" w),
     Ok tt).
Proof.
  intros Hc. unfold process_single_event, dispatch, bind, try_except, log.
  rewrite Hc. reflexivity.
Qed.


End Dispatch.

(* ===================================================================== *)
(** ** The admission gate                                                 *)
(* ===================================================================== *)

Section AdmissionGate.
Import Database HikCentralAPI SupabaseAPI ImageProcessor EventProcessor.
Variable E : env.

Lemma in_insert_desc x y l : In x (insert_desc y l) -> x = y \/ In x l.
Proof.
  induction l as [|z l IH]; cbn; [intuition congruence|].
  destruct (Qle_bool (snd y) (snd z)); cbn; intuition congruence.
Qed.

Lemma in_sort_desc x l : In x (sort_desc l) -> In x l.
Proof.
  unfold sort_desc.
  assert (H : forall acc, In x (fold_left (fun acc y => insert_desc y acc) l acc)
                          -> In x l \/ In x acc).
  { induction l as [|y l IH]; cbn; [tauto|]. intros acc Hin.
    apply IH in Hin. destruct Hin as [Hin|Hin]; [tauto|].
    apply in_insert_desc in Hin. destruct Hin as [->|Hin]; auto. }
  intros Hin. apply H in Hin. destruct Hin as [Hin|[]]. exact Hin.
Qed.

Lemma sort_desc_nil_iff l : sort_desc l = [] <-> l = [].
Proof.
  split; [|now intros ->].
  unfold sort_desc. destruct l as [|y l]; [reflexivity|]. cbn.
  assert (H : forall (l : list (string * Q)) acc,
             acc <> [] ->
             fold_left (fun acc y => insert_desc y acc) l acc <> []).
  { clear. induction l as [|y l IH]; cbn; [auto|]. intros acc Hacc.
    apply IH. destruct acc as [|z acc]; cbn; [discriminate|].
    destruct (Qle_bool (snd y) (snd z)); discriminate. }
  intros Hs. exfalso. apply (H l [y]); [discriminate | exact Hs].
Qed.

(** A reported match names a known image and reaches the threshold. *)
Lemma find_duplicate_faces_sound files new_face_path existing_faces p s :
  In (p, s) (find_duplicate_faces E files new_face_path existing_faces) ->
  In p existing_faces /\ Qle_bool similarity_threshold s = true.
Proof.
  unfold find_duplicate_faces.
  destruct (get_face_encoding E files new_face_path) as [ne|]; [|intros []].
  intros Hin. apply in_sort_desc in Hin. apply in_flat_map in Hin.
  destruct Hin as (q & Hq & Hin). unfold match_against in Hin.
  destruct (get_face_encoding E files q) as [ee|]; [|destruct Hin].
  unfold compare_faces, face_distances in Hin.
  destruct (face_distance E ee ne) as [dist|]; [|destruct Hin].
  cbn [best_of fold_left] in Hin.
  destruct (Qle_bool similarity_threshold (1 - dist)) eqn:Hle; [|destruct Hin].
  destruct Hin as [[= <- <-]|[]]. auto.
Qed.

(** A path collected from the store is the cached face image of a record. *)
Lemma existing_face_paths_sound files workers paths p :
  existing_face_paths files workers = Ok paths ->
  In p paths ->
  exists r, In r workers /\ dget r "face_image_path" = VStr p /\
            is_Some (files !! p).
Proof.
  revert paths. induction workers as [|r ws IH]; intros paths; cbn.
  - intros [= <-] [].
  - destruct (truthy (dget r "face_image_path")).
    + destruct (dget r "face_image_path") eqn:Hp; try discriminate.
      destruct (existing_face_paths files ws) as [rest|]; [|discriminate].
      intros [= <-] Hin.
      destruct (decide (is_Some (files !! s))) as [Hs|Hs].
      * destruct Hin as [<-|Hin]; [eauto|].
        destruct (IH rest eq_refl Hin) as (r' & ? & ? & ?). eauto.
      * destruct (IH rest eq_refl Hin) as (r' & ? & ? & ?). eauto.
    + intros Hp Hin. destruct (IH paths Hp Hin) as (r' & ? & ? & ?). eauto.
Qed.

Lemma check_duplicates_run face_path w :
  check_duplicates E face_path w =
    (add_log INFO "Checking for duplicate faces for worker: {national_id}" w,
     match existing_face_paths (fs w) (db w) with
     | Ok paths => Ok (find_duplicate_faces E (fs w) face_path paths)
     | Raised => Raised
     end).
Proof.
  unfold check_duplicates. rewrite bind_log. unfold bind, get_all_workers, read.
  cbn. destruct (existing_face_paths (fs w) (db w)); reflexivity.
Qed.

Lemma truthy_duplicate_reason s : truthy (VStr (duplicate_reason E s)) = true.
Proof. unfold duplicate_reason. rewrite append_cons. reflexivity. Qed.

Lemma update_worker_status_blocked worker_id national_id reason w :
  truthy worker_id = true -> truthy national_id = true ->
  truthy (VStr reason) = true ->
  exists r,
    update_worker_status E worker_id national_id "blocked" VNone (VStr reason) w =
      (add_call (SupaPost update_status_url
                   [("status", VStr "blocked"); ("workerId", worker_id);
                    ("nationalIdNumber", national_id);
                    ("blockedReason", VStr reason)]) w, Ok r).
Proof.
  intros Hw Hn Hr. unfold update_worker_status.
  rewrite Hw, Hn, Hr. cbn [negb andb orb String.eqb Ascii.eqb Bool.eqb truthy].
  cbv zeta. unfold bind.
  match goal with
  | |- context [SupabaseAPI._make_request E _ ?e ?d _ w] =>
      destruct (supa_post_run E e d w) as [r ->]
  end.
  exists (truthy r). reflexivity.
Qed.


End AdmissionGate.

Section UndeterminedGate.
Import Database HikCentralAPI SupabaseAPI ImageProcessor EventProcessor Scenario.



End UndeterminedGate.

Section PartialSuccess.
Import EventProcessor Scenario.


End PartialSuccess.

(* ===================================================================== *)
(** ** The block transition                                               *)
(* ===================================================================== *)

Section BlockTransition.
Import Database HikCentralAPI SupabaseAPI EventProcessor Scenario.

Lemma bind_draw {A B} (src : nat -> A) (k : A -> M B) w :
  bind (draw src) k w = k (src (ticks w)) (tick w).
Proof. reflexivity. Qed.



End BlockTransition.

(* ===================================================================== *)
(** ** The creation transition                                            *)
(* ===================================================================== *)

Section CreationTransition.
Import Database HikCentralAPI SupabaseAPI ImageProcessor EventProcessor.
Variable E : env.

Lemma bind_run {A B} (c : M A) (k : A -> M B) w w' (r : result A) :
  c w = (w', r) ->
  bind c k w = match r with Ok a => k a w' | Raised => (w', Raised) end.
Proof. intros H. unfold bind. rewrite H. destruct r; reflexivity. Qed.

Lemma validity_window_run wd w :
  exists l n r,
    validity_window E wd w =
      (mkWorld (db w) (fs w) (trace w) (logs w ++ l) (ticks w + n), r) /\
    Forall not_success l.
Proof.
  destruct w as [d f t lg n0]. unfold validity_window.
  repeat first
    [ progress run_pure
    | rewrite bind_draw; cbv beta; fold_world
    | match goal with
      | |- context [match ?x with _ => _ end] => destruct x eqn:?
      end ];
  unfold ret, raise, log; fold_world.
  all: first
    [ exists [], 0%nat; eexists; rewrite app_nil_r, Nat.add_0_r;
      split; [reflexivity | constructor]
    | exists [], 1%nat; eexists; rewrite app_nil_r, Nat.add_1_r;
      split; [reflexivity | constructor]
    | eexists [_], 0%nat, _; rewrite Nat.add_0_r;
      split; [reflexivity | repeat constructor; discriminate]
    | eexists [_], 1%nat, _; rewrite Nat.add_1_r;
      split; [reflexivity | repeat constructor; discriminate] ].
Qed.

Lemma bind_read_fs {B} (k : gmap string string -> M B) w :
  bind (fun w0 => (w0, Ok (fs w0))) k w = k (fs w) w.
Proof. reflexivity. Qed.

Lemma worker_record_key wd f full_name status person_id access t nid :
  f_national_id f = VStr nid ->
  let rec := worker_record wd f full_name status person_id access t in
  assoc "nationalIdNumber" rec = Some (VStr nid) /\
  assoc "nationalIdNumber" (rev rec) = Some (VStr nid) /\
  assoc "hikcentral_person_id" rec = Some person_id /\
  assoc "hikcentral_person_id" (rev rec) = Some person_id.
Proof. intros <-. cbn. auto. Qed.

(** Either the provisioning step does not log the final success line, or it
    ran to its end and the store then holds, first under the identity key,
    a record with a non-empty person identifier. *)
Lemma created_provision_run wd f w nid :
  f_national_id f = VStr nid ->
  exists w' r,
    created_provision E wd f w = (w', r) /\
    (extends not_success (logs w) (logs w') \/
     (r = Ok tt /\
      has_person_id
        (List.find (matches [("nationalIdNumber", VStr nid)]) (db w')) = true)).
Proof.
  intros Hnid. destruct w as [d fl t lg n0]. unfold created_provision.
  repeat first
    [ progress run_pure
    | rewrite bind_read_fs; cbv beta; fold_world
    | rewrite bind_draw; cbv beta; fold_world
    | match goal with
      | |- context [bind (validity_window E ?a) _ ?w] =>
          let l := fresh "l" in let r := fresh "r" in
          let Hrun := fresh "Hrun" in let Hl := fresh "Hl" in
          destruct (validity_window_run a w) as (l & ? & r & Hrun & Hl);
          rewrite (bind_run _ _ _ _ _ Hrun); destruct r; fold_world
      | |- context [bind (add_person E ?a1 ?a2 ?a3 ?a4 ?a5 ?a6 ?a7 ?a8 ?a9) _ ?w] =>
          let r := fresh "r" in let Hrun := fresh "Hrun" in
          destruct (add_person_run E a1 a2 a3 a4 a5 a6 a7 a8 a9 w)
            as (? & r & _ & Hrun);
          rewrite (bind_run _ _ _ _ _ Hrun); destruct r; fold_world
      | |- context [bind (add_to_privilege_group E ?a) _ ?w] =>
          let r := fresh "r" in let Hrun := fresh "Hrun" in
          destruct (add_to_privilege_group_run E a w) as (? & r & _ & _ & Hrun);
          rewrite (bind_run _ _ _ _ _ Hrun); destruct r; fold_world
      | |- context [bind (supabase_update_worker_status E ?a1 ?a2 ?a3 ?a4 ?a5) _ ?w] =>
          let Hrun := fresh "Hrun" in
          destruct (update_worker_status_run E a1 a2 a3 a4 a5 w)
            as (? & ? & _ & Hrun);
          unfold supabase_update_worker_status;
          rewrite (bind_run _ _ _ _ _ Hrun); fold_world
      | |- context [bind (upsert_worker E (worker_record ?wd ?f ?fn ?st ?pid ?ac ?t)) _ ?w] =>
          let Hrun := fresh "Hrun" in
          let Hfind := fresh "Hfind" in let Hget := fresh "Hget" in
          destruct (worker_record_key wd f fn st pid ac t nid Hnid)
            as (Hk1 & Hk2 & Hk3 & Hk4);
          destruct (upsert_worker_run E _ nid w Hk1 Hk2)
            as (? & ? & ? & ? & Hrun & Hfind & Hget);
          rewrite (bind_run _ _ _ _ _ Hrun); fold_world
      | |- context [if ?b then _ else _] => destruct b eqn:?
      | |- context [match ?x with _ => _ end] => destruct x eqn:?
      end ];
  unfold ret, raise, log; fold_world.
  all: do 2 eexists; (split; [reflexivity|]); fold_world.
  all: try (left; solve_extends).
  all: right; split; [reflexivity|].
  all: match goal with
       | Hf : List.find _ ?data = Some ?stored,
         Hg : forall k v, _ -> _ -> _ -> _ -> dget ?stored k = v |- _ =>
           rewrite Hf; unfold has_person_id;
           pose proof (find_some _ _ Hf) as [_ Hm];
           rewrite (matches_truthy _ _ Hm);
           rewrite (Hg "hikcentral_person_id" _ ltac:(discriminate)
                      ltac:(discriminate) Hk3 Hk4)
       end.
  all: now apply negb_false_iff.
Qed.

End CreationTransition.

(* ===================================================================== *)
(** ** Idempotence of the creation transition                             *)
(* ===================================================================== *)

Section Idempotence.
Import Database HikCentralAPI SupabaseAPI ImageProcessor EventProcessor.
Variable E : env.

Lemma quiet_run w w' :
  extends not_success (logs w) (logs w') ->
  ~ In (INFO, created_success_message) (logs_since w w').
Proof.
  intros Hext Hin. apply extends_drop in Hext.
  rewrite Forall_forall in Hext. apply list_elem_of_In in Hin.
  exact (Hext _ Hin eq_refl).
Qed.

(** A creation event for a worker that the store knows with a person
    identifier only adds log lines. *)
Lemma created_noop wd w :
  has_person_id
    (List.find (matches [("nationalIdNumber", dget wd "nationalIdNumber")])
       (db w)) = true ->
  let w' := fst (handle_worker_created E (VDict wd) w) in
  trace w' = trace w /\ db w' = db w /\ fs w' = fs w.
Proof.
  intros Hhas w'. subst w'. unfold handle_worker_created, try_except.
  destruct (created_fetch_run E wd w)
    as (w1 & r & Hrun & Hdb & _ & _ & _ & _ & Hnoop).
  destruct (Hnoop Hhas) as (Hfs & Htr & ->).
  rewrite (bind_ok _ _ _ _ _ Hrun). cbn. auto.
Qed.

(** A run of the transition either never logs the final success line, or
    leaves, first under the identity key, a record with a person
    identifier. *)
Lemma created_run_cases wd w nid :
  dget wd "nationalIdNumber" = VStr nid ->
  exists w1 r,
    handle_worker_created E (VDict wd) w = (w1, r) /\
    (extends not_success (logs w) (logs w1) \/
     has_person_id
       (List.find (matches [("nationalIdNumber", VStr nid)]) (db w1)) = true).
Proof.
  intros Hnid. unfold handle_worker_created, try_except.
  destruct (created_fetch_run E wd w)
    as (w1 & r & Hrun & _ & _ & _ & Hlogs & Hf & _).
  rewrite (bind_ok _ _ _ _ _ Hrun).
  destruct r as [f|].
  2:{ cbn. eauto. }
  destruct (Hf f eq_refl) as (Hfn & _). rewrite Hnid in Hfn.
  unfold bind at 1. rewrite check_duplicates_run.
  destruct (existing_face_paths (fs w1) (db w1)) as [paths|].
  2:{ unfold log. do 2 eexists. split; [reflexivity|]. left. fold_world.
      do 2 (apply extends_snoc; [|discriminate]). exact Hlogs. }
  destruct (find_duplicate_faces E (fs w1) (f_face_path f) paths)
    as [|top others].
  - match goal with
    | |- context [created_provision E wd f ?w0] =>
        destruct (created_provision_run E wd f w0 nid Hfn)
          as (w' & r & Hprov & [Hq | [-> Hhas]]); rewrite Hprov
    end.
    + fold_world.
      assert (Hext : extends not_success (logs w) (logs w')).
      { eapply extends_trans; [|exact Hq].
        apply extends_snoc; [exact Hlogs | discriminate]. }
      destruct r as [[]|]; do 2 eexists; (split; [reflexivity|]); left.
      * exact Hext.
      * fold_world. apply extends_snoc; [exact Hext | discriminate].
    + eauto.
  - unfold report_duplicate. rewrite bind_log.
    match goal with
    | |- context [bind (supabase_update_worker_status E ?a1 ?a2 ?a3 ?a4 ?a5) _ ?w0] =>
        destruct (update_worker_status_run E a1 a2 a3 a4 a5 w0)
          as (cs & b & _ & Hup);
        unfold supabase_update_worker_status;
        rewrite (bind_ok _ _ _ _ _ Hup)
    end.
    unfold ret. do 2 eexists. split; [reflexivity|]. left. fold_world.
    do 2 (apply extends_snoc; [|discriminate]). exact Hlogs.
Qed.

(** When the transition logs its final success line, the store holds,
    first under the identity key, a record with a person identifier. *)
Lemma created_success wd w nid :
  dget wd "nationalIdNumber" = VStr nid ->
  let w1 := fst (handle_worker_created E (VDict wd) w) in
  In (INFO, created_success_message) (logs_since w w1) ->
  has_person_id
    (List.find (matches [("nationalIdNumber", VStr nid)]) (db w1)) = true.
Proof.
  intros Hnid w1 Hin. subst w1.
  destruct (created_run_cases wd w nid Hnid) as (w1 & r & Hrun & [Hq | Hhas]);
    rewrite Hrun in *; cbn [fst] in *; [|exact Hhas].
  exfalso. exact (quiet_run _ _ Hq Hin).
Qed.


End Idempotence.

(* ===================================================================== *)
(** ** The theorems at concrete inputs                                    *)
(* ===================================================================== *)

Section Instances.
Import Database HikCentralAPI SupabaseAPI ImageProcessor EventProcessor
  Datetime Scenario.






Lemma C6_witness :
  answer E_grant_fails [] (last_call (fst (grant_request empty_world))) =
    Response 200 (JsonText (VDict [("code", VStr "128");
                                    ("msg", VStr "Operation failed")])) /\
  snd (grant_request empty_world) = Ok VNone.
Proof.
  assert (Hans : answer E_grant_fails (trace empty_world)
                   (last_call (fst (grant_request empty_world))) =
                 Response 200 (JsonText (VDict [("code", VStr "128");
                                                 ("msg", VStr "Operation failed")])))
    by (vm_compute; reflexivity).
  split; [exact Hans|].
  apply (proj1 (C6_envelope_failure E_grant_fails add_persons_endpoint "POST"
                  (privilege_body (VStr "P-1001")) empty_world
                  (last_call (fst (grant_request empty_world))) 200
                  [("code", VStr "128"); ("msg", VStr "Operation failed")]
                  ltac:(vm_compute; reflexivity)
                  ltac:(vm_compute; discriminate)
                  ltac:(vm_compute; discriminate))).
  exact Hans.
Defined.





End Instances.

(* ===================================================================== *)
(** ** More about the admission gate                                      *)
(* ===================================================================== *)

Section GateFacts.
Import ImageProcessor.
Variable E : env.

Lemma Qle_bool_false x y : Qle_bool x y = false -> (y <= x)%Q.
Proof.
  intros H. apply Qlt_le_weak. apply Qnot_le_lt. intros Hle.
  apply Qle_bool_iff in Hle. congruence.
Qed.

Lemma insert_desc_perm x l : Permutation (insert_desc x l) (x :: l).
Proof.
  induction l as [|y l IH]; cbn; [reflexivity|].
  destruct (Qle_bool (snd x) (snd y)); [|reflexivity].
  rewrite IH. apply perm_swap.
Qed.

Lemma insert_desc_sorted x l :
  StronglySorted by_similarity_desc l ->
  StronglySorted by_similarity_desc (insert_desc x l).
Proof.
  induction l as [|y l IH]; cbn; intros Hs.
  - repeat constructor.
  - inversion Hs as [|? ? Hl Hy]; subst.
    destruct (Qle_bool (snd x) (snd y)) eqn:Hle.
    + constructor; [auto|].
      rewrite Forall_forall. intros z Hz. apply list_elem_of_In in Hz.
      apply (Permutation_in _ (insert_desc_perm x l)) in Hz.
      destruct Hz as [<-|Hz].
      * apply Qle_bool_iff in Hle. exact Hle.
      * rewrite Forall_forall in Hy. apply Hy. now apply list_elem_of_In.
    + constructor; [exact Hs|].
      apply Qle_bool_false in Hle.
      constructor; [exact Hle|].
      eapply Forall_impl; [exact Hy|]. intros z Hz.
      unfold by_similarity_desc in *. eapply Qle_trans; eassumption.
Qed.

Lemma sort_desc_spec l :
  Permutation (sort_desc l) l /\ StronglySorted by_similarity_desc (sort_desc l).
Proof.
  unfold sort_desc.
  assert (H : forall acc,
             StronglySorted by_similarity_desc acc ->
             Permutation (fold_left (fun acc x => insert_desc x acc) l acc)
               (acc ++ l) /\
             StronglySorted by_similarity_desc
               (fold_left (fun acc x => insert_desc x acc) l acc)).
  { induction l as [|x l IH]; cbn; intros acc Hacc.
    - rewrite app_nil_r. auto.
    - destruct (IH (insert_desc x acc) (insert_desc_sorted x acc Hacc))
        as [Hp Hs].
      split; [|exact Hs]. rewrite Hp, insert_desc_perm.
      apply Permutation_middle. }
  destruct (H [] ltac:(constructor)) as [Hp Hs]. auto.
Qed.

(** X1. The matches come back ordered by similarity, best first: every
    later match is at most as similar as every earlier one. *)
Theorem find_duplicate_faces_sorted files new_face_path existing_faces :
  StronglySorted by_similarity_desc
    (find_duplicate_faces E files new_face_path existing_faces).
Proof.
  unfold find_duplicate_faces.
  destruct (get_face_encoding E files new_face_path); [|constructor].
  apply sort_desc_spec.
Qed.

Lemma match_against_spec files new_encoding q p s :
  In (p, s) (match_against E files new_encoding q) <->
  p = q /\
  exists existing_encoding d,
    get_face_encoding E files q = Some existing_encoding /\
    face_distance E existing_encoding new_encoding = Some d /\
    s = (1 - d)%Q /\
    Qle_bool similarity_threshold (1 - d) = true.
Proof.
  unfold match_against.
  destruct (get_face_encoding E files q) as [ee|].
  2:{ split; [intros [] | intros (_ & ? & ? & [=] & _)]. }
  unfold compare_faces, face_distances.
  destruct (face_distance E ee new_encoding) as [d|] eqn:Hd.
  2:{ cbn. split; [intros [] | intros (_ & ? & ? & [= <-] & ? & _)].
      congruence. }
  cbn [best_of fold_left].
  destruct (Qle_bool similarity_threshold (1 - d)) eqn:Hle.
  - split.
    + intros [[= <- <-]|[]]. split; [reflexivity|]. eauto 6.
    + intros (-> & ? & d' & [= <-] & Hd' & -> & _).
      assert (d' = d) by congruence. subst. now left.
  - split; [intros [] | intros (_ & ? & d' & [= <-] & Hd' & _ & ?)].
    assert (d' = d) by congruence. subst. congruence.
Qed.

(** X2. The gate reports exactly the known images that can be encoded and
    whose similarity [1 - distance] to the candidate reaches the threshold:
    nothing else is reported and none of them is left out. *)
Theorem find_duplicate_faces_spec files new_face_path existing_faces p s :
  In (p, s) (find_duplicate_faces E files new_face_path existing_faces) <->
  exists new_encoding existing_encoding d,
    get_face_encoding E files new_face_path = Some new_encoding /\
    In p existing_faces /\
    get_face_encoding E files p = Some existing_encoding /\
    face_distance E existing_encoding new_encoding = Some d /\
    s = (1 - d)%Q /\
    Qle_bool Config.FACE_SIMILARITY_THRESHOLD (1 - d) = true.
Proof.
  unfold find_duplicate_faces.
  destruct (get_face_encoding E files new_face_path) as [ne|].
  2:{ split; [intros [] | intros (? & ? & ? & [=] & _)]. }
  destruct (sort_desc_spec
              (flat_map (match_against E files ne) existing_faces)) as [Hp _].
  split.
  - intros Hin. apply (Permutation_in _ Hp) in Hin.
    apply in_flat_map in Hin. destruct Hin as (q & Hq & Hin).
    apply match_against_spec in Hin.
    destruct Hin as (-> & ee & d & He & Hd & Hs & Hle).
    exists ne, ee, d. auto 7.
  - intros (ne' & ee & d & [= <-] & Hq & He & Hd & Hs & Hle).
    apply (Permutation_in _ (Permutation_sym Hp)).
    apply in_flat_map. exists p. split; [exact Hq|].
    apply match_against_spec. split; [reflexivity|]. eauto 7.
Qed.

(** X3. A known image that cannot be encoded is skipped, it does not stop
    the scan: the answer is the one for the encodable images alone. *)
Theorem find_duplicate_faces_skips_unreadable files new_face_path
    existing_faces :
  find_duplicate_faces E files new_face_path existing_faces =
  find_duplicate_faces E files new_face_path
    (List.filter (fun p => bool_decide (is_Some (get_face_encoding E files p)))
       existing_faces).
Proof.
  unfold find_duplicate_faces.
  destruct (get_face_encoding E files new_face_path) as [ne|]; [|reflexivity].
  f_equal. induction existing_faces as [|q l IH]; [reflexivity|].
  cbn [flat_map List.filter].
  destruct (get_face_encoding E files q) as [ee|] eqn:Hq.
  - rewrite bool_decide_eq_true_2 by eauto. cbn [flat_map]. now rewrite IH.
  - rewrite bool_decide_eq_false_2 by (intros [? [=]]).
    unfold match_against at 1. rewrite Hq. exact IH.
Qed.

Lemma best_of_min d ds :
  In (best_of d ds) (d :: ds) /\
  Forall (fun x => (best_of d ds <= x)%Q) (d :: ds).
Proof.
  unfold best_of. revert d. induction ds as [|x ds IH]; intros d; cbn [fold_left].
  - split; [now left|]. repeat constructor. apply Qle_refl.
  - destruct (Qle_bool d x) eqn:Hle.
    + destruct (IH d) as [Hin Hall]. split.
      * destruct Hin as [<-|Hin]; [now left | right; now right].
      * inversion Hall as [|? ? Hd Hds]; subst.
        constructor; [exact Hd|]. constructor; [|exact Hds].
        apply Qle_bool_iff in Hle. eapply Qle_trans; eassumption.
    + destruct (IH x) as [Hin Hall]. split.
      * right. exact Hin.
      * inversion Hall as [|? ? Hx Hds]; subst.
        apply Qle_bool_false in Hle.
        constructor; [eapply Qle_trans; eassumption|].
        constructor; assumption.
Qed.

(** X4. [compare_faces] answers (False, 0.0) for an empty gallery and when
    the distance computation fails; otherwise its score is one minus the
    smallest distance, and the verdict says whether that score reaches the
    threshold. *)
Theorem compare_faces_spec face_encoding known_encodings :
  (known_encodings = [] ->
   compare_faces E face_encoding known_encodings = (false, 0%Q)) /\
  (face_distances E known_encodings face_encoding = None ->
   compare_faces E face_encoding known_encodings = (false, 0%Q)) /\
  (forall distances,
      known_encodings <> [] ->
      face_distances E known_encodings face_encoding = Some distances ->
      exists best,
        In best distances /\
        Forall (fun d => (best <= d)%Q) distances /\
        compare_faces E face_encoding known_encodings =
          (Qle_bool Config.FACE_SIMILARITY_THRESHOLD (1 - best), (1 - best)%Q)).
Proof.
  split; [|split].
  - intros ->. reflexivity.
  - intros Hnone. unfold compare_faces. rewrite Hnone.
    destruct known_encodings; reflexivity.
  - intros distances Hne Hd. unfold compare_faces. rewrite Hd.
    destruct known_encodings as [|k ks]; [congruence|].
    destruct distances as [|d ds].
    { cbn in Hd. destruct (face_distance E k face_encoding);
        [destruct (face_distances E ks face_encoding)|]; discriminate. }
    exists (best_of d ds). destruct (best_of_min d ds) as [Hin Hall].
    auto.
Qed.

End GateFacts.

(* ===================================================================== *)
(** ** More about the store                                               *)
(* ===================================================================== *)

Section MoreStoreFacts.
Import Database.
Variable E : env.

Lemma update_loop_count query upd data w w' data' n :
  update_loop E query upd data w = (w', Ok (data', n)) ->
  n = length (List.filter (matches query) data).
Proof.
  revert w w' data' n. induction data as [|r rest IH]; intros w w' data' n.
  - cbn. intros [= _ _ <-]. reflexivity.
  - cbn [update_loop List.filter]. destruct (matches query r).
    + unfold bind, draw.
      destruct (update_loop_run E query upd rest (tick w))
        as (d1 & n1 & Hr1 & _ & _).
      rewrite Hr1. cbn. intros [= _ _ <-]. f_equal. exact (IH _ _ _ _ Hr1).
    + unfold bind.
      destruct (update_loop_run E query upd rest w) as (d1 & n1 & Hr1 & _ & _).
      rewrite Hr1. cbn. intros [= _ _ <-]. exact (IH _ _ _ _ Hr1).
Qed.

(** X5. [update] returns the number of records that match the query, draws
    one time stamp per match, and rewrites the store record by record: a
    matching record takes the new fields and a fresh [_updated_at], any
    other record stays as it is, at its place; with no match the store is
    not written at all. *)
Theorem update_spec query upd w :
  let n := length (List.filter (matches query) (db w)) in
  exists data',
    Database.update E query upd w =
      (mkWorld data' (fs w) (trace w) (logs w) (ticks w + n), Ok n) /\
    Forall2 (updated_by query upd) (db w) data' /\
    length data' = length (db w) /\
    (n = 0%nat -> data' = db w).
Proof.
  intros n. destruct (update_run E query upd w) as (data' & n' & Hrun & Hall).
  assert (Hn : n' = n).
  { unfold Database.update, bind, read in Hrun.
    destruct (update_loop_run E query upd (db w) w)
      as (d1 & n1 & Hloop & _ & _).
    pose proof (update_loop_count _ _ _ _ _ _ _ Hloop) as Hc.
    rewrite Hloop in Hrun. cbn [snd fst] in Hrun.
    destruct (0 <? n1)%nat; cbn in Hrun; injection Hrun as _ _ Hn; subst;
      reflexivity. }
  subst n'. exists data'. split; [exact Hrun|]. split; [exact Hall|].
  split; [symmetry; eapply Forall2_length; exact Hall|].
  intros H0. fold n in Hrun. clear Hrun.
  assert (Hnone : forall r, In r (db w) -> matches query r = false).
  { intros r Hr. destruct (matches query r) eqn:Hm; [|reflexivity].
    assert (Hin : In r (List.filter (matches query) (db w)))
      by (apply filter_In; auto).
    subst n. destruct (List.filter (matches query) (db w));
      [destruct Hin | discriminate]. }
  clear H0. induction Hall as [|r r' l l' Hr Hl IH]; [reflexivity|].
  unfold updated_by in Hr. rewrite (Hnone r (or_introl eq_refl)) in Hr.
  subst r'. f_equal. apply IH. intros x Hx. apply Hnone. now right.
Qed.

Lemma filter_length_split {A} (p : A -> bool) l :
  (length (List.filter p l) + length (List.filter (fun x => negb (p x)) l)
   = length l)%nat.
Proof.
  induction l as [|x l IH]; [reflexivity|]. cbn.
  destruct (p x); cbn; lia.
Qed.

Lemma filter_none_id {A} (p : A -> bool) l :
  length (List.filter p l) = 0%nat ->
  List.filter (fun x => negb (p x)) l = l.
Proof.
  induction l as [|x l IH]; [reflexivity|]. cbn.
  destruct (p x); cbn; [discriminate|]. intros H. f_equal. auto.
Qed.

Lemma delete_run query w :
  let kept := List.filter (fun r => negb (matches query r)) (db w) in
  let n := (length (db w) - length kept)%nat in
  delete query w = (if (0 <? n)%nat then set_db kept w else w, Ok n).
Proof.
  cbv zeta. unfold delete, bind, read, ret, write. cbv zeta. cbv beta iota.
  destruct (0 <? _)%nat; reflexivity.
Qed.

Lemma filter_filter_neg {A} (p : A -> bool) l :
  List.filter p (List.filter (fun x => negb (p x)) l) = [].
Proof.
  induction l as [|x l IH]; [reflexivity|]. cbn.
  destruct (p x) eqn:Hp; cbn; [exact IH|]. now rewrite Hp.
Qed.

Lemma find_filter_nil {A} (p : A -> bool) l :
  List.filter p l = [] -> List.find p l = None.
Proof.
  induction l as [|x l IH]; [reflexivity|]. cbn.
  destruct (p x); [discriminate | exact IH].
Qed.

(** X7. [delete] removes exactly the records that [find_many] returns for
    the same query and returns their number; the other records keep their
    order, and afterwards no record matches the query.  When nothing
    matches, nothing is written. *)
Theorem delete_spec query w :
  let found := List.filter (matches query) (db w) in
  let w' := fst (delete query w) in
  snd (find_many (Some query) w) = Ok found /\
  snd (delete query w) = Ok (length found) /\
  db w' = List.filter (fun r => negb (matches query r)) (db w) /\
  snd (find_many (Some query) w') = Ok [] /\
  snd (find_one query w') = Ok None /\
  (found = [] -> w' = w).
Proof.
  cbv zeta. rewrite delete_run. cbn [fst snd].
  pose proof (filter_length_split (matches query) (db w)) as Hsplit.
  set (kept := List.filter (fun r => negb (matches query r)) (db w)) in *.
  set (found := List.filter (matches query) (db w)) in *.
  replace (length (db w) - length kept)%nat with (length found) by lia.
  assert (Hdb : db (if (0 <? length found)%nat then set_db kept w else w)
                = kept).
  { destruct (0 <? length found)%nat eqn:Hpos; [reflexivity|].
    apply Nat.ltb_ge in Hpos. subst kept found. symmetry.
    apply filter_none_id. lia. }
  split; [reflexivity|]. split; [reflexivity|]. split; [exact Hdb|].
  unfold find_many, find_one, bind, read, ret. cbn [fst snd]. rewrite Hdb.
  subst kept. rewrite filter_filter_neg.
  rewrite (find_filter_nil _ _ (filter_filter_neg (matches query) (db w))).
  repeat split. intros Hnil. now rewrite Hnil.
Qed.

Lemma count_key_app nid l x :
  count_key nid (l ++ [x]) =
    (count_key nid l +
     if matches [("nationalIdNumber", VStr nid)] x then 1 else 0)%nat.
Proof.
  unfold count_key. rewrite List.filter_app, length_app. cbn [List.filter].
  destruct (matches [("nationalIdNumber", VStr nid)] x); reflexivity.
Qed.

Lemma count_key_zero nid l :
  List.find (matches [("nationalIdNumber", VStr nid)]) l = None ->
  count_key nid l = 0%nat.
Proof.
  unfold count_key. induction l as [|x l IH]; [reflexivity|].
  cbn [List.find List.filter].
  destruct (matches [("nationalIdNumber", VStr nid)] x);
    [discriminate | exact IH].
Qed.

Lemma count_key_pos nid l r :
  List.find (matches [("nationalIdNumber", VStr nid)]) l = Some r ->
  (1 <= count_key nid l)%nat.
Proof.
  unfold count_key. induction l as [|x l IH]; [discriminate|].
  cbn [List.find List.filter].
  destruct (matches [("nationalIdNumber", VStr nid)] x);
    cbn [length]; [lia | exact IH].
Qed.

(** A pass of [update] under a key, with fields that name the same key,
    leaves the number of records under every key as it was. *)
Lemma updated_counts nid upd data data' other :
  assoc "nationalIdNumber" (rev upd) = Some (VStr nid) ->
  Forall2 (updated_by [("nationalIdNumber", VStr nid)] upd) data data' ->
  count_key other data' = count_key other data.
Proof.
  intros Hkey Hall. unfold count_key.
  induction Hall as [|r r' l l' Hr Hl IH]; [reflexivity|].
  cbn [List.filter].
  assert (Hm : matches [("nationalIdNumber", VStr other)] r' =
               matches [("nationalIdNumber", VStr other)] r).
  { unfold updated_by in Hr.
    destruct (matches [("nationalIdNumber", VStr nid)] r) eqn:Hmr;
      [|now subst].
    destruct Hr as [t ->]. rewrite !matches_key in *.
    rewrite dget_dset. cbn [String.eqb Ascii.eqb Bool.eqb].
    rewrite dget_dupdate, Hkey.
    apply py_eq_str_inv in Hmr. now rewrite Hmr. }
  rewrite Hm. destruct (matches [("nationalIdNumber", VStr other)] r);
    cbn [length]; now rewrite IH.
Qed.

Lemma insert_run record w :
  exists stamped,
    insert E record w =
      (mkWorld (db w ++ [stamped]) (fs w) (trace w) (logs w) (S (S (ticks w))),
       Ok stamped) /\
    forall k, k <> "_created_at" -> k <> "_updated_at" ->
              dget stamped k = dget record k.
Proof.
  unfold insert, bind, read, draw, write, ret. cbn.
  eexists. split; [reflexivity|]. intros k Hc Hu.
  rewrite !dget_dset. apply String.eqb_neq in Hc, Hu. now rewrite Hc, Hu.
Qed.

(** X6. [upsert_worker] never adds a second record under an identity key:
    a key that is present keeps its number of records (they are updated in
    place), a new key gets exactly one record, and the records under every
    other key are as many as before. *)
Theorem upsert_worker_keeps_keys (rec : dict) (nid : string) (w : world) :
  assoc "nationalIdNumber" rec = Some (VStr nid) ->
  assoc "nationalIdNumber" (rev rec) = Some (VStr nid) ->
  let w' := fst (upsert_worker E rec w) in
  count_key nid (db w') = Nat.max 1 (count_key nid (db w)) /\
  (forall other, other <> nid ->
     count_key other (db w') = count_key other (db w)).
Proof.
  intros Hk Hkr. cbv zeta. unfold upsert_worker. rewrite Hk.
  unfold bind. rewrite get_by_national_id_run.
  destruct (List.find (matches [("nationalIdNumber", VStr nid)]) (db w))
    as [ex|] eqn:Hfind.
  - pose proof (find_some _ _ Hfind) as [_ Hm].
    rewrite (matches_truthy _ _ Hm).
    destruct (update_run E [("nationalIdNumber", VStr nid)] rec w)
      as (data' & n & Hrun & Hall).
    rewrite Hrun. unfold ret. cbn [fst db].
    pose proof (count_key_pos _ _ _ Hfind) as Hpos.
    split.
    + rewrite (updated_counts nid rec (db w) data' nid Hkr Hall). lia.
    + intros other _. exact (updated_counts nid rec (db w) data' other Hkr Hall).
  - destruct (insert_run rec w) as (stamped & Hrun & Hst).
    rewrite Hrun. cbn [fst db].
    assert (Hkey : dget stamped "nationalIdNumber" = VStr nid).
    { rewrite Hst by discriminate. unfold dget, dget_default. now rewrite Hk. }
    split.
    + rewrite count_key_app, matches_key, Hkey, py_eq_str_refl.
      rewrite (count_key_zero _ _ Hfind). reflexivity.
    + intros other Hne. rewrite count_key_app, matches_key, Hkey, py_eq_str.
      apply String.eqb_neq in Hne. rewrite String.eqb_sym, Hne. lia.
Qed.

End MoreStoreFacts.

Section RequestLogFacts.
Import Database.
Variable E : env.

(** X8. [add_log] keeps the request log within [MAX_REQUEST_LOGS]: below
    the limit the new entry is appended, at or above it the oldest entries
    are dropped so that the newest 9999 and the new entry remain. *)
Theorem add_log_bounded (log_data : dict) (w : world) :
  let logs := db w in
  let n := Z.of_nat (length logs) in
  let logs' := db (fst (RequestLogsDatabase.add_log E log_data w)) in
  exists stamped,
    snd (RequestLogsDatabase.add_log E log_data w) = Ok stamped /\
    (forall k, k <> "_created_at" -> k <> "_updated_at" ->
               dget stamped k = dget log_data k) /\
    ((n < Config.MAX_REQUEST_LOGS)%Z -> logs' = logs ++ [stamped]) /\
    ((Config.MAX_REQUEST_LOGS <= n)%Z ->
     logs' = drop (Z.to_nat (n - 9999)) logs ++ [stamped] /\
     Z.of_nat (length logs') = Config.MAX_REQUEST_LOGS).
Proof.
  cbv zeta. unfold RequestLogsDatabase.add_log, bind, read, write, ret.
  unfold Config.MAX_REQUEST_LOGS, RequestLogsDatabase.slice_from.
  destruct (10000 <=? Z.of_nat (length (db w)))%Z eqn:Hle.
  - apply Z.leb_le in Hle.
    change (- (10000 - 1) <? 0)%Z with true. cbv iota.
    replace (Z.to_nat (Z.max 0 (Z.of_nat (length (db w)) + - (10000 - 1))))
      with (Z.to_nat (Z.of_nat (length (db w)) - 9999)) by lia.
    destruct (insert_run E log_data
                (set_db (drop (Z.to_nat (Z.of_nat (length (db w)) - 9999))
                           (db w)) w))
      as (stamped & Hrun & Hst).
    rewrite Hrun. cbn [fst snd db set_db]. exists stamped.
    split; [reflexivity|]. split; [exact Hst|].
    split; [lia|]. intros _. split; [reflexivity|].
    rewrite length_app, length_drop. cbn [length]. lia.
  - apply Z.leb_gt in Hle.
    destruct (insert_run E log_data w) as (stamped & Hrun & Hst).
    rewrite Hrun. cbn [fst snd db]. exists stamped.
    split; [reflexivity|]. split; [exact Hst|].
    split; [reflexivity | lia].
Qed.

End RequestLogFacts.

(* ===================================================================== *)
(** ** More about the signed RPC client                                   *)
(* ===================================================================== *)

Section ClientFacts.
Import HikCentralAPI.
Variable E : env.

(** The two ways out of the response handling that are not [None]. *)
Lemma handle_response_cases (resp : http_outcome) :
  (forall v,
      handle_response resp = Ok v /\ truthy v = true <->
      exists status d,
        resp = Response status (JsonText (VDict d)) /\ v = VDict d /\
        dget d "code" = VStr "0" /\ is_error_status status = false) /\
  (handle_response resp = Raised <->
   exists status v,
     resp = Response status (JsonText v) /\ truthy v = true /\
     forall d, v <> VDict d).
Proof.
  split.
  - intros v. split.
    + intros [Hok Ht].
      destruct resp as [|status [|body|]]; cbn in Hok.
      * injection Hok as <-. discriminate.
      * destruct (is_error_status status); injection Hok as <-; discriminate.
      * destruct (truthy body) eqn:Hb.
        -- destruct body as [| | | | |d]; try discriminate.
           destruct (py_eq (dget d "code") (VStr "0")) eqn:Hc; cbn [negb] in Hok.
           ++ destruct (is_error_status status) eqn:Hs;
                injection Hok as <-; [discriminate|].
              apply py_eq_zero_code in Hc. eauto 6.
           ++ injection Hok as <-. discriminate.
        -- destruct (is_error_status status); injection Hok as <-;
             [discriminate | congruence].
      * injection Hok as <-. discriminate.
    + intros (status & d & -> & -> & Hc & Hs).
      assert (Ht : truthy (VDict d) = true).
      { destruct d; [discriminate Hc | reflexivity]. }
      unfold handle_response. rewrite Ht, Hc, Hs. cbn. auto.
  - split.
    + destruct resp as [|status [|body|]]; cbn; try discriminate.
      * destruct (is_error_status status); discriminate.
      * destruct (truthy body) eqn:Hb.
        -- destruct body as [| | | | |d]; intros H;
             try (exists status; eexists; repeat split; [exact Hb|];
                  intros d0; discriminate).
           destruct (negb (py_eq (dget d "code") (VStr "0")));
             [discriminate|]. destruct (is_error_status status); discriminate.
        -- destruct (is_error_status status); discriminate.
    + intros (status & v & -> & Ht & Hnd). cbn. rewrite Ht.
      destruct v as [| | | | |d]; try reflexivity.
      exfalso. exact (Hnd d eq_refl).
Qed.

(** The shape shared by the operations that answer with a boolean. *)
Lemma success_answer_handled hist c envelope :
  success_answer E hist c envelope ->
  handle_response (answer E hist c) = Ok (VDict envelope) /\
  truthy (VDict envelope) = true.
Proof.
  intros (status & Hans & Hcode & Hs).
  assert (Ht : truthy (VDict envelope) = true)
    by (destruct envelope; [discriminate Hcode | reflexivity]).
  split; [|exact Ht].
  rewrite Hans. unfold handle_response. rewrite Ht, Hcode, Hs. reflexivity.
Qed.

Lemma handled_success_answer hist c v :
  handle_response (answer E hist c) = Ok v -> truthy v = true ->
  exists envelope, v = VDict envelope /\ success_answer E hist c envelope.
Proof.
  intros Hresp Ht.
  destruct (proj1 (proj1 (handle_response_cases (answer E hist c)) v)
              (conj Hresp Ht)) as (status & d & Hans & -> & Hcode & Hs).
  exists d. split; [reflexivity|]. exists status. auto.
Qed.

(** X9. [_make_request] sends one signed request and hands the response
    back to its caller in one case only: the body is a JSON object whose
    [code] is the string "0" and the HTTP status is not 4xx or 5xx.  It
    raises, instead of returning [None], exactly when the body is truthy
    JSON that is not an object. *)
Theorem make_request_spec (endpoint : string) (body : dict) (method : string)
    (w : world) :
  let run := _make_request E endpoint body method w in
  exists c,
    is_hik_call c = true /\ sent_by run w c /\
    (forall v,
        snd run = Ok v /\ truthy v = true <->
        exists envelope,
          v = VDict envelope /\ success_answer E (trace w) c envelope) /\
    (snd run = Raised <->
     exists status v,
       answer E (trace w) c = Response status (JsonText v) /\
       truthy v = true /\ forall d, v <> VDict d).
Proof.
  cbv zeta. unfold sent_by.
  destruct (make_request_run E endpoint body method w) as (c & Hh & _ & ->).
  exists c. cbn [fst snd trace add_call tick].
  split; [exact Hh|]. split; [reflexivity|]. split.
  - intros v. split.
    + intros [Hv Ht]. exact (handled_success_answer _ _ _ Hv Ht).
    + intros (envelope & -> & Hs). exact (success_answer_handled _ _ _ Hs).
  - exact (proj2 (handle_response_cases (answer E (trace w) c))).
Qed.

Lemma boolean_operation endpoint body w :
  let run := bind (_make_request E endpoint body "POST") result_ok w in
  exists c,
    is_hik_call c = true /\ sent_by run w c /\
    (snd run = Ok true <-> exists envelope, success_answer E (trace w) c envelope).
Proof.
  cbv zeta. unfold sent_by.
  destruct (make_request_run E endpoint body "POST" w) as (c & Hh & _ & Hrun).
  exists c. split; [exact Hh|].
  unfold bind. rewrite Hrun.
  destruct (handle_response (answer E (trace w) c)) as [v|] eqn:Hresp.
  - destruct (result_ok_run v (add_call c (tick (tick w)))) as [r Hr].
    rewrite Hr. cbn [fst snd trace add_call tick]. split; [reflexivity|].
    unfold result_ok in Hr.
    destruct (truthy v) eqn:Ht.
    + destruct (handled_success_answer _ _ _ Hresp Ht) as (d & -> & Hsucc).
      pose proof Hsucc as (status & _ & Hcode & _).
      rewrite Hcode in Hr. cbn in Hr. injection Hr as <-.
      split; [intros _; eauto | reflexivity].
    + injection Hr as <-. split; [discriminate|].
      intros (d & Hsucc). apply success_answer_handled in Hsucc.
      destruct Hsucc as [Hv Htd]. congruence.
  - cbn [fst snd trace add_call tick]. split; [reflexivity|].
    split; [discriminate|].
    intros (d & Hsucc). apply success_answer_handled in Hsucc.
    destruct Hsucc as [Hv _]. congruence.
Qed.

(** X10. [update_person], [delete_person], [add_to_privilege_group] and
    [remove_from_privilege_group] each send one signed request and answer
    True exactly when the remote system answered it with a success
    envelope. *)
Theorem boolean_operations_spec (w : world) (person_id : value) :
  let answered_ok (run : world * result bool) :=
    exists c,
      is_hik_call c = true /\ sent_by run w c /\
      (snd run = Ok true <->
       exists envelope, success_answer E (trace w) c envelope) in
  (forall person_code family_name given_name gender phone_no email
          begin_time end_time,
      answered_ok (update_person E person_id person_code family_name
                     given_name gender phone_no email begin_time end_time w)) /\
  answered_ok (delete_person E person_id w) /\
  answered_ok (add_to_privilege_group E person_id w) /\
  answered_ok (remove_from_privilege_group E person_id w).
Proof.
  cbv zeta. repeat split; intros; apply boolean_operation.
Qed.

(** What [add_person] answers, by the answer to its request. *)
Lemma add_person_cases (person_code phone_no email : value)
    (family_name given_name face_data begin_time end_time : string)
    (gender : Z) (w : world) :
  exists c r,
    is_create_person c = true /\
    add_person E person_code family_name given_name gender phone_no email
      face_data begin_time end_time w = (add_call c (tick (tick w)), r) /\
    (forall envelope,
        success_answer E (trace w) c envelope ->
        r = Ok (match dget envelope "data" with
                | VDict data =>
                    py_or (py_or (dget data "personId") (dget data "id"))
                      person_code
                | _ => VNone
                end)) /\
    ((forall envelope, ~ success_answer E (trace w) c envelope) ->
     r = Ok VNone \/ r = Raised).
Proof.
  unfold add_person, bind.
  match goal with
  | |- context [HikCentralAPI._make_request E ?e ?b ?m] =>
      destruct (make_request_run E e b m w) as (c & _ & Hc & ->)
  end.
  exists c. rewrite String.eqb_refl in Hc.
  destruct (handle_response (answer E (trace w) c)) as [v|] eqn:Hresp.
  - destruct (truthy v) eqn:Ht; cbn [negb].
    + destruct (handled_success_answer _ _ _ Hresp Ht) as (d & -> & Hsucc).
      exists (Ok (match dget d "data" with
                  | VDict data =>
                      py_or (py_or (dget data "personId") (dget data "id"))
                        person_code
                  | _ => VNone
                  end)).
      split; [exact Hc|].
      split; [destruct (dget d "data"); reflexivity|].
      split.
      * intros envelope Hs. apply success_answer_handled in Hs.
        destruct Hs as [Hv _]. rewrite Hresp in Hv. injection Hv as ->.
        reflexivity.
      * intros Hno. exfalso. exact (Hno d Hsucc).
    + eexists. split; [exact Hc|]. split; [reflexivity|]. split.
      * intros envelope Hs. apply success_answer_handled in Hs.
        destruct Hs as [Hv Hte]. rewrite Hresp in Hv. injection Hv as ->.
        congruence.
      * intros _. left. reflexivity.
  - eexists. split; [exact Hc|]. split; [reflexivity|]. split.
    + intros envelope Hs. apply success_answer_handled in Hs.
      destruct Hs as [Hv _]. congruence.
    + intros _. right. reflexivity.
Qed.

(** X11. [add_person] returns an identifier only for a success envelope
    whose [data] is an object: the [personId] of the data if it is truthy,
    else its [id], else the person code that was sent.  A success envelope
    with any other [data], and every answer that is not a success envelope,
    gives [None] (or the exception of a JSON body that is not an object). *)
Theorem add_person_identifier (person_code phone_no email : value)
    (family_name given_name face_data begin_time end_time : string)
    (gender : Z) (w : world) :
  let run := add_person E person_code family_name given_name gender phone_no
               email face_data begin_time end_time w in
  exists c,
    is_create_person c = true /\ sent_by run w c /\
    (forall envelope,
        success_answer E (trace w) c envelope ->
        snd run =
        Ok (match dget envelope "data" with
            | VDict data =>
                py_or (py_or (dget data "personId") (dget data "id")) person_code
            | _ => VNone
            end)) /\
    ((forall envelope, ~ success_answer E (trace w) c envelope) ->
     snd run = Ok VNone \/ snd run = Raised).
Proof.
  cbv zeta. unfold sent_by.
  destruct (add_person_cases person_code phone_no email family_name given_name
              face_data begin_time end_time gender w)
    as (c & r & Hc & -> & Hok & Hno).
  exists c. cbn [fst snd trace add_call tick]. auto.
Qed.

End ClientFacts.

(* ===================================================================== *)
(** ** More about the client of the application                           *)
(* ===================================================================== *)

Section UpstreamFacts.
Import SupabaseAPI.
Variable E : env.

Lemma supa_post_spec endpoint data w :
  exists v,
    SupabaseAPI._make_request E "POST" endpoint data [] w =
      (add_call (SupaPost (base_url +:+ endpoint) data) w, Ok v) /\
    (truthy v = true <->
     exists code v',
       supa_server E (trace w) "POST" (base_url +:+ endpoint) data =
         Response code (JsonText v') /\
       is_error_status code = false /\ truthy v' = true).
Proof.
  unfold SupabaseAPI._make_request, bind, ret.
  cbn [String.eqb Ascii.eqb Bool.eqb].
  destruct (supa_server E (trace w) "POST" (base_url +:+ endpoint) data)
    as [|st [|v|]].
  - exists VNone. split; [reflexivity|].
    split; [discriminate | intros (? & ? & [=] & _)].
  - exists VNone. split; [reflexivity|].
    split; [discriminate | intros (? & ? & [=] & _)].
  - destruct (is_error_status st) eqn:Hs.
    + exists VNone. split; [reflexivity|].
      split; [discriminate | intros (? & ? & [= <- <-] & ? & _); congruence].
    + exists v. split; [reflexivity|]. split.
      * intros Ht. eauto.
      * intros (? & ? & [= <- <-] & _ & Ht). exact Ht.
  - exists VNone. split; [reflexivity|].
    split; [discriminate | intros (? & ? & [=] & _)].
Qed.

(** A report that passes the three checks is one POST. *)
Lemma update_worker_status_accepted (worker_id national_id_number : value)
    (status : string) (external_id blocked_reason : value) (w : world) :
  truthy worker_id || truthy national_id_number = true ->
  status = "approved" \/ status = "blocked" /\ truthy blocked_reason = true ->
  let data :=
    List.filter (fun kv => truthy (snd kv))
      [("status", VStr status); ("workerId", worker_id);
       ("nationalIdNumber", national_id_number);
       ("externalId", external_id); ("blockedReason", blocked_reason)] in
  exists r,
    update_worker_status E worker_id national_id_number status external_id
      blocked_reason w = (add_call (SupaPost update_status_url data) w, Ok r) /\
    (r = true <->
     exists code v,
       supa_server E (trace w) "POST" update_status_url data =
         Response code (JsonText v) /\
       is_error_status code = false /\ truthy v = true).
Proof.
  intros Hids Hst. cbv zeta. unfold update_worker_status.
  assert (H1 : negb (truthy worker_id) && negb (truthy national_id_number)
               = false).
  { rewrite <- negb_orb, Hids. reflexivity. }
  assert (H2 : negb (String.eqb status "approved" || String.eqb status "blocked")
               = false).
  { destruct Hst as [-> | [-> _]]; reflexivity. }
  assert (H3 : String.eqb status "blocked" && negb (truthy blocked_reason)
               = false).
  { destruct Hst as [-> | [-> ->]]; reflexivity. }
  assert (Hts : truthy (VStr status) = true).
  { destruct Hst as [-> | [-> _]]; reflexivity. }
  rewrite H1, H2, H3. cbn [List.filter snd]. rewrite Hts.
  clear Hids Hst H1 H2 H3 Hts.
  unfold bind, ret, update_status_url.
  destruct (truthy worker_id), (truthy national_id_number),
    (truthy external_id), (truthy blocked_reason);
    cbn [dset String.eqb Ascii.eqb Bool.eqb];
    match goal with
    | |- context [SupabaseAPI._make_request E "POST" ?e ?d []] =>
        destruct (supa_post_spec e d w) as (v & -> & Hv)
    end;
    exists (truthy v); (split; [reflexivity | exact Hv]).
Qed.

(** X12. [update_worker_status] refuses, without any network call, a report
    with neither identity, a status other than approved or blocked, and a
    blocked report without a reason.  Every other report is exactly one POST
    whose body holds the status and, of the four optional fields, those
    that are truthy, in the order of the code; the answer is True exactly
    for truthy JSON under a status that is not an error. *)
Theorem update_worker_status_spec (worker_id national_id_number : value)
    (status : string) (external_id blocked_reason : value) (w : world) :
  let run := update_worker_status E worker_id national_id_number status
               external_id blocked_reason w in
  let refused :=
    (truthy worker_id = false /\ truthy national_id_number = false) \/
    (status <> "approved" /\ status <> "blocked") \/
    (status = "blocked" /\ truthy blocked_reason = false) in
  let data :=
    List.filter (fun kv => truthy (snd kv))
      [("status", VStr status); ("workerId", worker_id);
       ("nationalIdNumber", national_id_number);
       ("externalId", external_id); ("blockedReason", blocked_reason)] in
  (refused -> run = (w, Ok false)) /\
  (~ refused ->
   exists r,
     run = (add_call (SupaPost update_status_url data) w, Ok r) /\
     (r = true <->
      exists code v,
        supa_server E (trace w) "POST" update_status_url data =
          Response code (JsonText v) /\
        is_error_status code = false /\ truthy v = true)).
Proof.
  cbv zeta. split.
  - unfold update_worker_status. intros [[Hw Hn] | [[Ha Hb] | [Hb Hr]]].
    + rewrite Hw, Hn. reflexivity.
    + apply String.eqb_neq in Ha, Hb. rewrite Ha, Hb.
      destruct (negb (truthy worker_id) && negb (truthy national_id_number));
        reflexivity.
    + subst status. rewrite Hr.
      destruct (negb (truthy worker_id) && negb (truthy national_id_number));
        reflexivity.
  - intros Hnot. apply update_worker_status_accepted.
    + destruct (truthy worker_id) eqn:Hw; [reflexivity|].
      destruct (truthy national_id_number) eqn:Hn; [reflexivity|].
      exfalso. apply Hnot. auto.
    + destruct (String.eqb status "approved") eqn:Ha;
        [apply String.eqb_eq in Ha; auto|].
      destruct (String.eqb status "blocked") eqn:Hb.
      * apply String.eqb_eq in Hb. right. split; [exact Hb|].
        destruct (truthy blocked_reason) eqn:Hr; [reflexivity|].
        exfalso. apply Hnot. auto.
      * exfalso. apply Hnot. right. left.
        apply String.eqb_neq in Ha, Hb. auto.
Qed.

End UpstreamFacts.

(* ===================================================================== *)
(** ** The transitions of a worker that the store knows                   *)
(* ===================================================================== *)

Section Lifecycle.
Import Database HikCentralAPI SupabaseAPI ImageProcessor EventProcessor.
Variable E : env.

Lemma delete_person_run person_id w :
  exists c r,
    is_hik_call c = true /\ is_create_person c = false /\
    delete_person E person_id w = (add_call c (tick (tick w)), r).
Proof.
  unfold delete_person, bind.
  match goal with
  | |- context [HikCentralAPI._make_request E ?e ?b ?m] =>
      destruct (make_request_run E e b m w) as (c & Hh & Hc & ->)
  end.
  exists c. destruct (handle_response (answer E (trace w) c)) as [v|]; [|eauto].
  destruct (result_ok_run v (add_call c (tick (tick w)))) as [r ->]. eauto.
Qed.

(** What is logged before a request has no influence on it. *)
Lemma make_request_after_log endpoint body method l m w :
  HikCentralAPI._make_request E endpoint body method (add_log l m w) =
    (add_log l m (fst (HikCentralAPI._make_request E endpoint body method w)),
     snd (HikCentralAPI._make_request E endpoint body method w)).
Proof. destruct w. reflexivity. Qed.

Lemma operation_after_log handler op person_id l m w :
  In (handler, op) (lifecycle E) ->
  op person_id (add_log l m w) =
    (add_log l m (fst (op person_id w)), snd (op person_id w)).
Proof.
  unfold lifecycle. cbn [In].
  intros [[= <- <-] | [[= <- <-] | [[= <- <-] | []]]];
    unfold remove_from_privilege_group, delete_person, add_to_privilege_group,
      bind;
    rewrite make_request_after_log;
    match goal with
    | |- context [HikCentralAPI._make_request E ?e ?b ?m w] =>
        destruct (HikCentralAPI._make_request E e b m w) as [w1 [v|]]
    end; cbn [fst snd]; try reflexivity;
    destruct (result_ok_run v w1) as [r Hr];
    destruct (result_ok_run v (add_log l m w1)) as [r' Hr'];
    rewrite Hr, Hr'; cbn [fst snd]; f_equal;
    unfold result_ok, ret, raise in *;
    (destruct (truthy v); [destruct v|]); congruence.
Qed.

Lemma operation_run handler op person_id w :
  In (handler, op) (lifecycle E) ->
  exists c r,
    is_hik_call c = true /\ op person_id w = (add_call c (tick (tick w)), r).
Proof.
  unfold lifecycle. cbn [In].
  intros [[= <- <-] | [[= <- <-] | [[= <- <-] | []]]].
  - destruct (remove_from_privilege_group_run E person_id w)
      as (c & r & ? & _ & ?); eauto.
  - destruct (delete_person_run person_id w) as (c & r & ? & _ & ?); eauto.
  - destruct (add_to_privilege_group_run E person_id w)
      as (c & r & ? & _ & ?); eauto.
Qed.

(** X13. A blocking, deletion or unblocking event for a worker that the
    store does not know, or knows without a person identifier, is dropped
    with a warning: no call is made, the store and the files are left as
    they were, and nothing is raised. *)
Theorem lifecycle_dropped (wd : dict) (w : world) (handler : value -> M unit)
    (op : value -> M bool) :
  In (handler, op) (lifecycle E) ->
  has_person_id
    (List.find (matches [("nationalIdNumber", dget wd "nationalIdNumber")])
       (db w)) = false ->
  let run := handler (VDict wd) w in
  snd run = Ok tt /\
  trace (fst run) = trace w /\ db (fst run) = db w /\ fs (fst run) = fs w /\
  exists started dropped,
    logs (fst run) = logs w ++ [(INFO, started); (WARNING, dropped)].
Proof.
  unfold lifecycle. cbn [In]. intros Hin Hhas.
  assert (Hlogs : forall (l : list (level * string)) a b,
             (l ++ [a]) ++ [b] = l ++ [a; b])
    by (intros; now rewrite <- app_assoc).
  destruct Hin as [[= <- <-] | [[= <- <-] | [[= <- <-] | []]]]; cbv zeta;
    unfold handle_worker_blocked, handle_worker_deleted,
      handle_worker_unblocked, try_except;
    rewrite bind_log, bind_get_by_national_id; fold_world;
    unfold has_person_id in Hhas;
    (destruct (List.find _ (db w)) as [wk|];
     [destruct (truthy (VDict wk)); cbn [negb andb] in *;
      [rewrite Hhas; cbn [negb]|] |]);
    unfold log; fold_world; rewrite Hlogs; eauto 10.
Qed.

(** X14. When the remote operation of such a transition does not answer
    True (it answered False or raised), the record of the worker is not
    touched and no other call follows the one request: nothing is reported
    upstream, and nothing is raised. *)
Theorem lifecycle_remote_failure (wd wk : dict) (w : world)
    (handler : value -> M unit) (op : value -> M bool) :
  In (handler, op) (lifecycle E) ->
  List.find (matches [("nationalIdNumber", dget wd "nationalIdNumber")]) (db w)
    = Some wk ->
  has_person_id (Some wk) = true ->
  snd (op (dget wk "hikcentral_person_id") w) <> Ok true ->
  let run := handler (VDict wd) w in
  snd run = Ok tt /\
  db (fst run) = db w /\ fs (fst run) = fs w /\
  exists c,
    calls_since w (fst run) = [c] /\ is_hik_call c = true /\
    sent_by (op (dget wk "hikcentral_person_id") w) w c.
Proof.
  intros Hin Hfind Hhas Hfail.
  destruct (operation_run _ _ (dget wk "hikcentral_person_id") w Hin)
    as (c & r & Hc & Hop).
  pose proof (fun l m =>
                operation_after_log _ _ (dget wk "hikcentral_person_id") l m w Hin)
    as Hlog.
  rewrite Hop in Hfail, Hlog. cbn [fst snd] in Hfail, Hlog.
  unfold sent_by. rewrite Hop. cbn [fst trace add_call tick].
  unfold has_person_id in Hhas. apply andb_true_iff in Hhas.
  destruct Hhas as [Hwk Hpid].
  assert (Hdrop : forall t : list call, drop (length t) (t ++ [c]) = [c])
    by (intros; apply drop_length_app).
  unfold lifecycle in Hin. cbn [In] in Hin.
  destruct Hin as [[= <- <-] | [[= <- <-] | [[= <- <-] | []]]]; cbv zeta;
    unfold handle_worker_blocked, handle_worker_deleted,
      handle_worker_unblocked, try_except;
    rewrite bind_log, bind_get_by_national_id; fold_world;
    rewrite Hfind, Hwk, Hpid; cbn [negb];
    rewrite (bind_run _ _ _ _ _ (Hlog _ _));
    (destruct r as [[|]|]; [congruence| |]);
    unfold log, calls_since; fold_world; rewrite Hdrop; eauto 10.
Qed.

(** X15. A deletion that the remote system confirmed is a soft delete: the
    record stays in the store with status deleted and every other field,
    the person identifier included, as it was.  So a later creation event
    for the same key finds the worker provisioned already: it makes no call
    and writes nothing. *)
Theorem delete_keeps_record (wd wk : dict) (w : world) (nid : string) :
  dget wd "nationalIdNumber" = VStr nid ->
  List.find (matches [("nationalIdNumber", VStr nid)]) (db w) = Some wk ->
  truthy (dget wk "hikcentral_person_id") = true ->
  snd (delete_person E (dget wk "hikcentral_person_id") w) = Ok true ->
  let w' := fst (handle_worker_deleted E (VDict wd) w) in
  (exists c, calls_since w w' = [c] /\ is_hik_call c = true) /\
  length (db w') = length (db w) /\
  (exists stored,
      List.find (matches [("nationalIdNumber", VStr nid)]) (db w') = Some stored /\
      dget stored "status" = VStr "deleted" /\
      (forall k, k <> "status" -> k <> "deleted_at" -> k <> "_updated_at" ->
                 dget stored k = dget wk k)) /\
  (forall wd',
      dget wd' "nationalIdNumber" = VStr nid ->
      let w2 := fst (handle_worker_created E (VDict wd') w') in
      calls_since w' w2 = [] /\ db w2 = db w' /\ fs w2 = fs w').
Proof.
  intros Hnid Hfind Hpid Hdel w'.
  assert (Hin : In (handle_worker_deleted E, delete_person E) (lifecycle E))
    by (unfold lifecycle; cbn [In]; auto).
  destruct (operation_run _ _ (dget wk "hikcentral_person_id") w Hin)
    as (c & r & Hc & Hop).
  pose proof (fun l m =>
                operation_after_log _ _ (dget wk "hikcentral_person_id") l m w Hin)
    as Hlog.
  rewrite Hop in Hdel, Hlog. cbn [fst snd] in Hdel, Hlog. subst r.
  pose proof (find_some _ _ Hfind) as [_ Hm].
  assert (Hrun : exists data' n t,
             handle_worker_deleted E (VDict wd) w =
               (mkWorld data' (fs w) (trace w ++ [c])
                  (logs w ++ [(INFO, "Deleting worker: {national_id}");
                              (INFO, "Successfully deleted worker: {national_id}")])
                  n, Ok tt) /\
             Forall2 (updated_by [("nationalIdNumber", VStr nid)]
                        [("status", VStr "deleted"); ("deleted_at", VStr t)])
               (db w) data').
  { unfold handle_worker_deleted, try_except. rewrite Hnid.
    rewrite bind_log, bind_get_by_national_id. fold_world. rewrite Hfind.
    rewrite (matches_truthy _ _ Hm), Hpid. cbn [negb].
    rewrite (bind_run _ _ _ _ _ (Hlog _ _)). rewrite bind_draw.
    match goal with
    | |- context [bind (Database.update E ?q ?u) _ ?w0] =>
        destruct (update_run E q u w0) as (data' & n & Hupd & Hall);
        rewrite (bind_ok _ _ _ _ _ Hupd)
    end.
    cbv beta. unfold log, add_log. fold_world. rewrite <- app_assoc.
    do 3 eexists. split; [reflexivity | exact Hall]. }
  destruct Hrun as (data' & n & t & Hrun & Hall). subst w'. rewrite Hrun.
  cbn [fst]. unfold calls_since. fold_world.
  destruct (find_updated nid
              [("status", VStr "deleted"); ("deleted_at", VStr t)]
              (db w) data' wk (or_introl eq_refl) Hall Hfind)
    as [t' Hstored].
  assert (Hkept : forall k, k <> "status" -> k <> "deleted_at" ->
                            k <> "_updated_at" ->
            dget (dset "_updated_at" (VStr t')
                    (dupdate wk [("status", VStr "deleted");
                                 ("deleted_at", VStr t)])) k = dget wk k).
  { intros k H1 H2 H3. apply String.eqb_neq in H1, H2, H3.
    rewrite dget_dset, H3, dget_dupdate. cbn [rev app assoc]. now rewrite H1, H2. }
  split; [exists c; split; [apply drop_length_app | exact Hc]|].
  split; [symmetry; exact (Forall2_length _ _ _ Hall)|].
  split.
  { eexists. split; [exact Hstored|]. split; [|exact Hkept].
    rewrite dget_dset. cbn [String.eqb Ascii.eqb Bool.eqb].
    rewrite dget_dupdate. reflexivity. }
  intros wd' Hnid'.
  assert (Hhas : has_person_id
                   (List.find
                      (matches [("nationalIdNumber", dget wd' "nationalIdNumber")])
                      data') = true).
  { rewrite Hnid', Hstored. unfold has_person_id.
    pose proof (find_some _ _ Hstored) as [_ Hm'].
    rewrite (matches_truthy _ _ Hm').
    rewrite (Hkept "hikcentral_person_id") by discriminate. exact Hpid. }
  match goal with
  | |- context [handle_worker_created E _ ?w0] =>
      destruct (created_noop E wd' w0 Hhas) as (Htr & Hdb & Hfs)
  end.
  cbv zeta in Htr, Hdb, Hfs. rewrite Htr. fold_world.
  split; [apply drop_all | auto].
Qed.

(** X16. An unblocking that the remote system confirmed stores the worker
    as approved, with an empty blocking reason and access granted, and then
    reports it upstream as approved together with the person identifier;
    the worker identifier of the report is the [id] field of the payload,
    left out when it is falsy. *)
Theorem unblock_restores (wd wk : dict) (w : world) (nid : string) :
  dget wd "nationalIdNumber" = VStr nid ->
  nid <> "" ->
  List.find (matches [("nationalIdNumber", VStr nid)]) (db w) = Some wk ->
  truthy (dget wk "hikcentral_person_id") = true ->
  snd (add_to_privilege_group E (dget wk "hikcentral_person_id") w) = Ok true ->
  let w' := fst (handle_worker_unblocked E (VDict wd) w) in
  (exists c,
      is_hik_call c = true /\
      calls_since w w' =
        [c;
         SupaPost update_status_url
           (List.filter (fun kv => truthy (snd kv))
              [("status", VStr "approved"); ("workerId", dget wd "id");
               ("nationalIdNumber", VStr nid);
               ("externalId", dget wk "hikcentral_person_id")])]) /\
  exists stored,
    List.find (matches [("nationalIdNumber", VStr nid)]) (db w') = Some stored /\
    dget stored "status" = VStr "approved" /\
    dget stored "blockedReason" = VStr "" /\
    dget stored "has_privilege_access" = VBool true /\
    dget stored "hikcentral_person_id" = dget wk "hikcentral_person_id".
Proof.
  intros Hnid Hne Hfind Hpid Hadd w'.
  assert (Hin : In (handle_worker_unblocked E, add_to_privilege_group E)
                  (lifecycle E))
    by (unfold lifecycle; cbn [In]; auto).
  destruct (operation_run _ _ (dget wk "hikcentral_person_id") w Hin)
    as (c & r & Hc & Hop).
  pose proof (fun l m =>
                operation_after_log _ _ (dget wk "hikcentral_person_id") l m w Hin)
    as Hlog.
  rewrite Hop in Hadd, Hlog. cbn [fst snd] in Hadd, Hlog. subst r.
  pose proof (find_some _ _ Hfind) as [_ Hm].
  assert (Htn : truthy (VStr nid) = true).
  { cbn. apply negb_true_iff. now apply String.eqb_neq. }
  subst w'.
  unfold handle_worker_unblocked, try_except. rewrite Hnid.
  rewrite bind_log, bind_get_by_national_id. fold_world. rewrite Hfind.
  rewrite (matches_truthy _ _ Hm), Hpid. cbn [negb].
  rewrite (bind_run _ _ _ _ _ (Hlog _ _)). rewrite bind_draw.
  match goal with
  | |- context [bind (Database.update E ?q ?u) _ ?w0] =>
      destruct (update_run E q u w0) as (data' & n & Hupd & Hall);
      rewrite (bind_ok _ _ _ _ _ Hupd)
  end.
  cbv beta. unfold supabase_update_worker_status.
  match goal with
  | |- context [bind (update_worker_status E ?a1 ?a2 ?a3 ?a4 ?a5) _ ?w0] =>
      destruct (update_worker_status_accepted E a1 a2 a3 a4 a5 w0)
        as (b & Hup & _);
      [rewrite Htn; apply orb_true_r | left; reflexivity |]
  end.
  rewrite (bind_ok _ _ _ _ _ Hup). cbv beta.
  unfold log, calls_since. fold_world.
  cbn [List.filter snd truthy String.eqb negb] in *. rewrite Htn, Hpid.
  split.
  { exists c. split; [exact Hc|]. rewrite <- app_assoc. apply drop_length_app. }
  match type of Hall with
  | Forall2 (updated_by _ ?u) _ _ =>
      destruct (find_updated nid u (db w) data' wk (or_introl eq_refl) Hall Hfind)
        as [t Hstored]
  end.
  eexists. split; [exact Hstored|].
  rewrite !dget_dset. cbn [String.eqb Ascii.eqb Bool.eqb].
  rewrite !dget_dupdate. cbn [rev app assoc String.eqb Ascii.eqb Bool.eqb].
  auto.
Qed.

End Lifecycle.

(* ===================================================================== *)
(** ** The polling loop                                                   *)
(* ===================================================================== *)

Section EventLoop.
Import Database HikCentralAPI SupabaseAPI ImageProcessor EventProcessor.
Variable E : env.

Lemma for_each_app {A} (xs ys : list A) (body : A -> M unit) w :
  for_each (xs ++ ys) body w =
    bind (for_each xs body) (fun _ => for_each ys body) w.
Proof.
  revert w. induction xs as [|x xs IH]; intros w; cbn [app for_each].
  - reflexivity.
  - unfold bind. destruct (body x w) as [w1 [[]|]]; [|reflexivity].
    rewrite IH. reflexivity.
Qed.

Lemma not_a_dict_raises event w :
  (forall d, event <> VDict d) -> process_single_event E event w = (w, Raised).
Proof.
  intros Hnd. destruct event as [| | | | |d]; try reflexivity.
  exfalso. exact (Hnd d eq_refl).
Qed.

(** X17. [process_single_event] raises exactly when the event is not a
    dict: every error inside a transition is caught and logged.  Such an
    event stops the loop of [process_events]: the events after it in the
    batch are not processed.  [process_events] itself never raises. *)
Theorem event_loop_errors (w : world) :
  (forall event,
      snd (process_single_event E event w) = Raised <->
      forall d, event <> VDict d) /\
  (forall pre bad post,
      (forall d, bad <> VDict d) ->
      for_each (pre ++ bad :: post) (process_single_event E) w =
        for_each (pre ++ [bad]) (process_single_event E) w /\
      snd (for_each (pre ++ bad :: post) (process_single_event E) w) = Raised) /\
  snd (process_events E w) = Ok tt.
Proof.
  split; [|split].
  - intros event. split.
    + intros Hr d ->. revert Hr.
      unfold process_single_event, try_except. rewrite bind_log.
      match goal with
      | |- context [dispatch E ?a ?b ?w0] =>
          destruct (dispatch E a b w0) as [w1 [[]|]]
      end; discriminate.
    + intros Hnd. now rewrite not_a_dict_raises.
  - intros pre bad post Hnd.
    assert (Heq : for_each (pre ++ bad :: post) (process_single_event E) w =
                  for_each (pre ++ [bad]) (process_single_event E) w).
    { rewrite !for_each_app. unfold bind.
      destruct (for_each pre (process_single_event E) w) as [w1 [[]|]];
        [|reflexivity].
      cbn [for_each]. unfold bind. now rewrite !not_a_dict_raises. }
    split; [exact Heq|]. rewrite Heq, for_each_app. unfold bind.
    destruct (for_each pre (process_single_event E) w) as [w1 [[]|]];
      [|reflexivity].
    cbn [for_each]. unfold bind. now rewrite not_a_dict_raises.
  - unfold process_events, try_except.
    match goal with
    | |- snd (match ?c with _ => _ end) = _ => destruct c as [w1 [[]|]]
    end; reflexivity.
Qed.

(** X18. A poll that gets nothing usable from the application (a transport
    error, an error status, a body that is not JSON, or falsy JSON) costs
    one GET for at most 100 events and nothing else: nothing is stored,
    nothing is sent to the access-control system, nothing is raised. *)
Theorem idle_poll (w : world) :
  let url := SupabaseAPI.base_url +:+ "/admin/events/pending" in
  let params : dict := [("limit", VNum 100)] in
  (forall status v,
      supa_server E (trace w) "GET" url params = Response status (JsonText v) ->
      is_error_status status = true \/ truthy v = false) ->
  let run := process_events E w in
  snd run = Ok tt /\
  calls_since w (fst run) = [SupaGet url params] /\
  db (fst run) = db w /\ fs (fst run) = fs w.
Proof.
  cbv zeta. intros Hnone.
  assert (Hget : exists v,
             truthy v = false /\
             forall l m,
               get_pending_events E (add_log l m w) =
                 (add_call (SupaGet (SupabaseAPI.base_url +:+ "/admin/events/pending")
                              [("limit", VNum 100)]) (add_log l m w),
                  Ok v)).
  { unfold get_pending_events, SupabaseAPI._make_request, bind, ret.
    cbn [String.eqb Ascii.eqb Bool.eqb trace add_log].
    destruct (supa_server E (trace w) "GET"
                (SupabaseAPI.base_url +:+ "/admin/events/pending")
                [("limit", VNum 100)]) as [|status [|v|]] eqn:Hs;
      try (exists (VList []); split; [reflexivity|]; intros; reflexivity).
    destruct (Hnone status v eq_refl) as [He | Hf].
    - rewrite He. exists (VList []). split; [reflexivity|]. intros; reflexivity.
    - destruct (is_error_status status);
        [exists (VList []); split; [reflexivity|]; intros; reflexivity|].
      rewrite Hf. exists (VList []). split; [reflexivity|]. intros; reflexivity. }
  destruct Hget as (v & Hv & Hget).
  unfold process_events, try_except. rewrite bind_log.
  rewrite (bind_ok _ _ _ _ _ (Hget _ _)). rewrite Hv. cbn [negb].
  unfold log, calls_since. fold_world.
  rewrite drop_length_app. auto.
Qed.

End EventLoop.

(* ===================================================================== *)
(** ** What the creation transition reads                                 *)
(* ===================================================================== *)

Section CreationInputs.
Import Database HikCentralAPI SupabaseAPI ImageProcessor EventProcessor.
Variable E : env.

(** X19. The split of the full name at its first space loses nothing: the
    family name holds no space, and with the given name (when there is
    one) and the space between them it rebuilds the full name.  A name
    without a space is all family name. *)
Theorem split_first_space_spec (full_name : string) :
  let family_name := fst (split_first_space full_name) in
  (forall c, In c (list_ascii_of_string family_name) -> c <> " "%char) /\
  match snd (split_first_space full_name) with
  | Some given_name => full_name = family_name +:+ " " +:+ given_name
  | None =>
      full_name = family_name /\
      forall c, In c (list_ascii_of_string full_name) -> c <> " "%char
  end.
Proof.
  cbv zeta. induction full_name as [|c s IH]; cbn [split_first_space].
  - cbn. split; [intros c []|]. split; [reflexivity | intros c []].
  - destruct (Ascii.eqb c " ") eqn:Hc.
    + apply Ascii.eqb_eq in Hc. subst c. cbn. split; [intros c [] | reflexivity].
    + apply Ascii.eqb_neq in Hc.
      destruct (split_first_space s) as [a b]. cbn [fst snd] in *.
      destruct IH as [Hfam Hrest]. split.
      * cbn. intros c' [<- | Hin]; [exact Hc | exact (Hfam c' Hin)].
      * destruct b as [g|].
        -- rewrite append_cons. now f_equal.
        -- destruct Hrest as [Hs Hno]. split; [now f_equal|].
           cbn. intros c' [<- | Hin]; [exact Hc | exact (Hno c' Hin)].
Qed.


End CreationInputs.

(* ===================================================================== *)
(** ** How the creation transition ends                                   *)
(* ===================================================================== *)

Section CreationOutcome.
Import Database HikCentralAPI SupabaseAPI ImageProcessor EventProcessor.
Variable E : env.

Lemma update_worker_status_without_identity worker_id national_id_number
    status external_id blocked_reason w :
  truthy worker_id || truthy national_id_number = false ->
  update_worker_status E worker_id national_id_number status external_id
    blocked_reason w = (w, Ok false).
Proof.
  intros H. apply orb_false_iff in H. destruct H as [Hw Hn].
  unfold update_worker_status. rewrite Hw, Hn. reflexivity.
Qed.

(** The ways in which the provisioning step ends: before any call; after a
    createPerson call that raised or gave no identifier; after the grant
    call raised; or with the record stored as approved and the report sent. *)
Lemma created_provision_cases wd f w nid :
  f_national_id f = VStr nid ->
  exists w' r,
    created_provision E wd f w = (w', r) /\ fs w' = fs w /\
    ((trace w' = trace w /\ db w' = db w) \/
     exists c1 r1,
       is_create_person c1 = true /\
       (forall envelope,
           success_answer E (trace w) c1 envelope ->
           r1 = Ok (match dget envelope "data" with
                    | VDict data =>
                        py_or (py_or (dget data "personId") (dget data "id"))
                          (f_worker_id f)
                    | _ => VNone
                    end)) /\
       ((forall envelope, ~ success_answer E (trace w) c1 envelope) ->
        r1 = Ok VNone \/ r1 = Raised) /\
       match r1 with
       | Raised => r = Raised /\ trace w' = trace w ++ [c1] /\ db w' = db w
       | Ok person_id =>
           if truthy person_id then
             exists c2 (r2 : result bool),
               is_hik_call c2 = true /\ is_create_person c2 = false /\
               match r2 with
               | Raised =>
                   r = Raised /\ trace w' = trace w ++ [c1; c2] /\ db w' = db w
               | Ok granted =>
                   r = Ok tt /\
                   trace w' =
                     trace w ++ [c1; c2] ++
                     (if truthy (f_worker_id f) || truthy (VStr nid) then
                        [SupaPost update_status_url
                           (List.filter (fun kv => truthy (snd kv))
                              [("status", VStr "approved");
                               ("workerId", f_worker_id f);
                               ("nationalIdNumber", VStr nid);
                               ("externalId", person_id)])]
                      else []) /\
                   exists stored,
                     List.find (matches [("nationalIdNumber", VStr nid)]) (db w')
                       = Some stored /\
                     dget stored "status" = VStr "approved" /\
                     dget stored "hikcentral_person_id" = person_id /\
                     dget stored "has_privilege_access" = VBool true
               end
           else
             r = Ok tt /\ trace w' = trace w ++ [c1] /\
             exists stored,
               List.find (matches [("nationalIdNumber", VStr nid)]) (db w')
                 = Some stored /\
               dget stored "status" = VStr "pending" /\
               dget stored "hikcentral_person_id" = VStr "" /\
               dget stored "has_privilege_access" = VBool false
       end).
Proof.
  intros Hnid. unfold created_provision.
  rewrite !bind_log, bind_read_fs. fold_world.
  destruct (negb (truthy (VStr (image_to_base64 E (fs w) (f_face_path f))))).
  { unfold log. do 2 eexists. split; [reflexivity|]. fold_world. auto. }
  match goal with
  | |- context [bind (validity_window E ?a) _ ?w0] =>
      destruct (validity_window_run E a w0) as (l & n & rw & Hwin & _);
      rewrite (bind_run _ _ _ _ _ Hwin)
  end.
  fold_world.
  destruct rw as [window|].
  2:{ do 2 eexists. split; [reflexivity|]. fold_world. auto. }
  destruct (dget_default wd "fullName" (VStr "")) as [| | |full_name| |];
    try (unfold raise; do 2 eexists; split; [reflexivity|]; fold_world; auto).
  rewrite !bind_log. fold_world.
  match goal with
  | |- context [bind (add_person E ?a1 ?a2 ?a3 ?a4 ?a5 ?a6 ?a7 ?a8 ?a9) _ ?w0] =>
      destruct (add_person_cases E a1 a5 a6 a2 a3 a7 a8 a9 a4 w0)
        as (c1 & r1 & Hc1 & Hrun1 & Hok & Hno);
      rewrite (bind_run _ _ _ _ _ Hrun1)
  end.
  fold_world.
  destruct r1 as [person_id|].
  2:{ do 2 eexists. split; [reflexivity|]. fold_world. split; [reflexivity|].
      right. exists c1, Raised. repeat (split; [assumption|]). auto. }
  rewrite bind_log. fold_world.
  destruct (truthy person_id) eqn:Hpid; cbn [negb].
  - rewrite !bind_log. fold_world.
    match goal with
    | |- context [bind (add_to_privilege_group E ?a) _ ?w0] =>
        destruct (add_to_privilege_group_run E a w0) as (c2 & r2 & Hh2 & Hc2 & Hrun2);
        rewrite (bind_run _ _ _ _ _ Hrun2)
    end.
    fold_world.
    destruct r2 as [granted|].
    2:{ do 2 eexists. split; [reflexivity|]. fold_world. split; [reflexivity|].
        right. exists c1, (Ok person_id). rewrite Hpid.
        repeat (split; [assumption|]). exists c2, Raised.
        rewrite <- app_assoc. auto. }
    rewrite bind_log. fold_world.
    assert (Hlogged : forall (k : unit -> M unit) w0,
               exists m,
                 bind (if negb granted
                       then log WARNING
                              "Failed to add person to privilege group: {national_id}"
                       else log INFO
                              "Person added to privilege group: {national_id}")
                   k w0 = k tt (add_log (fst m) (snd m) w0)).
    { intros k w0. destruct granted; cbn [negb]; rewrite bind_log;
        [exists (INFO, "Person added to privilege group: {national_id}")
        |exists (WARNING, "Failed to add person to privilege group: {national_id}")];
        reflexivity. }
    match goal with
    | |- context [bind (if negb granted then _ else _) ?k ?w0] =>
        destruct (Hlogged k w0) as (m & ->)
    end.
    cbv beta. rewrite bind_log, bind_draw. cbv beta. rewrite bind_log.
    fold_world.
    match goal with
    | |- context [bind (upsert_worker E (worker_record ?wd ?f ?fn ?st ?pid ?ac ?t)) _ ?w0] =>
        destruct (worker_record_key wd f fn st pid ac t nid Hnid)
          as (Hk1 & Hk2 & _ & _);
        destruct (upsert_worker_run E (worker_record wd f fn st pid ac t) nid
                    w0 Hk1 Hk2)
          as (data' & n' & rv & stored & Hup & Hfind & Hget);
        rewrite (bind_run _ _ _ _ _ Hup)
    end.
    rewrite !bind_log. fold_world.
    unfold supabase_update_worker_status. rewrite Hnid.
    destruct (truthy (f_worker_id f) || truthy (VStr nid)) eqn:Hids.
    + match goal with
      | |- context [bind (update_worker_status E ?a1 ?a2 ?a3 ?a4 ?a5) _ ?w0] =>
          destruct (update_worker_status_accepted E a1 a2 a3 a4 a5 w0 Hids
                      (or_introl eq_refl)) as (b & Hrep & _);
          rewrite (bind_run _ _ _ _ _ Hrep)
      end.
      unfold log. do 2 eexists. split; [reflexivity|]. fold_world.
      split; [reflexivity|]. right. exists c1, (Ok person_id). rewrite Hpid.
      repeat (split; [assumption|]). exists c2, (Ok granted).
      repeat (split; [assumption|]). split; [reflexivity|].
      cbn [List.filter snd truthy String.eqb negb] in *.
      split; [now rewrite <- !app_assoc|].
      exists stored. split; [exact Hfind|].
      repeat split; apply Hget; (discriminate || reflexivity).
    + match goal with
      | |- context [bind (update_worker_status E ?a1 ?a2 ?a3 ?a4 ?a5) _ ?w0] =>
          rewrite (bind_run _ _ _ _ _
                     (update_worker_status_without_identity a1 a2 a3 a4 a5 w0
                        Hids))
      end.
      unfold log. do 2 eexists. split; [reflexivity|]. fold_world.
      split; [reflexivity|]. right. exists c1, (Ok person_id). rewrite Hpid.
      repeat (split; [assumption|]). exists c2, (Ok granted).
      repeat (split; [assumption|]). split; [reflexivity|].
      split; [now rewrite <- !app_assoc|].
      exists stored. split; [exact Hfind|].
      repeat split; apply Hget; (discriminate || reflexivity).
  - rewrite !bind_log, bind_draw. cbv beta. fold_world.
    match goal with
    | |- context [bind (upsert_worker E (worker_record ?wd ?f ?fn ?st ?pid ?ac ?t)) _ ?w0] =>
        destruct (worker_record_key wd f fn st pid ac t nid Hnid)
          as (Hk1 & Hk2 & _ & _);
        destruct (upsert_worker_run E (worker_record wd f fn st pid ac t) nid
                    w0 Hk1 Hk2)
          as (data' & n' & rv & stored & Hup & Hfind & Hget);
        rewrite (bind_run _ _ _ _ _ Hup)
    end.
    unfold log. do 2 eexists. split; [reflexivity|]. fold_world.
    split; [reflexivity|]. right. exists c1, (Ok person_id). rewrite Hpid.
    repeat (split; [assumption|]). split; [reflexivity|].
    split; [reflexivity|].
    exists stored. split; [exact Hfind|].
    repeat split; apply Hget; (discriminate || reflexivity).
Qed.

Lemma py_or_truthy a b : truthy b = true -> truthy (py_or a b) = true.
Proof. intros Hb. unfold py_or. destruct (truthy a) eqn:Ha; assumption. Qed.

(** X21. When the access-control system gives no success envelope to
    createPerson, the provisioning step makes that one call at most: no
    access is granted and nothing is reported upstream.  If the call
    returned (it did not raise), the worker is stored as pending, without
    access and with an empty person identifier, so that a later creation
    event for the same key is not taken for a worker that is provisioned
    already. *)
Theorem create_person_refused (wd : dict) (f : fetched) (w : world)
    (nid : string) :
  f_national_id f = VStr nid ->
  (forall c envelope,
      is_create_person c = true -> ~ success_answer E (trace w) c envelope) ->
  let run := created_provision E wd f w in
  fs (fst run) = fs w /\
  ((calls_since w (fst run) = [] /\ db (fst run) = db w) \/
   exists c,
     is_create_person c = true /\ calls_since w (fst run) = [c] /\
     ((snd run = Raised /\ db (fst run) = db w) \/
      (snd run = Ok tt /\
       exists stored,
         List.find (matches [("nationalIdNumber", VStr nid)]) (db (fst run))
           = Some stored /\
         dget stored "status" = VStr "pending" /\
         dget stored "hikcentral_person_id" = VStr "" /\
         dget stored "has_privilege_access" = VBool false /\
         has_person_id (Some stored) = false))).
Proof.
  intros Hnid Hrefused. cbv zeta.
  destruct (created_provision_cases wd f w nid Hnid)
    as (w' & r & -> & Hfs & Hcases).
  cbn [fst snd]. split; [exact Hfs|]. unfold calls_since.
  destruct Hcases as [[Htr Hdb] | (c1 & r1 & Hc1 & _ & Hno & Hcase)].
  { left. rewrite Htr. split; [apply drop_all | exact Hdb]. }
  right. exists c1. split; [exact Hc1|].
  destruct (Hno (fun envelope => Hrefused c1 envelope Hc1)) as [-> | ->].
  - cbn [truthy] in Hcase.
    destruct Hcase as (-> & Htr & stored & Hfind & Hst & Hid & Hacc).
    rewrite Htr. split; [apply drop_length_app|]. right. split; [reflexivity|].
    exists stored. repeat (split; [assumption|]).
    unfold has_person_id. rewrite Hid. apply andb_false_r.
  - destruct Hcase as (-> & Htr & Hdb).
    rewrite Htr. split; [apply drop_length_app|]. left. auto.
Qed.

(** X22. When createPerson is answered with a success envelope whose data
    is an object, the provisioning step goes on to the grant call with the
    identifier it read from the data.  Unless that call raises, the worker
    is stored as approved with that identifier and with access recorded as
    granted, whatever the grant call answered, and is reported upstream as
    approved under the same identifier, in one POST after the two calls to
    the access-control system. *)
Theorem create_person_accepted (wd : dict) (f : fetched) (w : world)
    (nid : string) :
  f_national_id f = VStr nid ->
  nid <> "" ->
  truthy (f_worker_id f) = true ->
  (forall c,
      is_create_person c = true ->
      exists envelope data,
        success_answer E (trace w) c envelope /\
        dget envelope "data" = VDict data) ->
  let run := created_provision E wd f w in
  fs (fst run) = fs w /\
  ((calls_since w (fst run) = [] /\ db (fst run) = db w) \/
   exists c1 c2 envelope data,
     is_create_person c1 = true /\
     success_answer E (trace w) c1 envelope /\
     dget envelope "data" = VDict data /\
     is_hik_call c2 = true /\ is_create_person c2 = false /\
     let person_id :=
       py_or (py_or (dget data "personId") (dget data "id")) (f_worker_id f) in
     truthy person_id = true /\
     ((snd run = Raised /\ calls_since w (fst run) = [c1; c2] /\
       db (fst run) = db w) \/
      (snd run = Ok tt /\
       calls_since w (fst run) =
         [c1; c2;
          SupaPost update_status_url
            [("status", VStr "approved"); ("workerId", f_worker_id f);
             ("nationalIdNumber", VStr nid); ("externalId", person_id)]] /\
       exists stored,
         List.find (matches [("nationalIdNumber", VStr nid)]) (db (fst run))
           = Some stored /\
         dget stored "status" = VStr "approved" /\
         dget stored "hikcentral_person_id" = person_id /\
         dget stored "has_privilege_access" = VBool true))).
Proof.
  intros Hnid Hne Hwid Haccepted. cbv zeta.
  destruct (created_provision_cases wd f w nid Hnid)
    as (w' & r & -> & Hfs & Hcases).
  cbn [fst snd]. split; [exact Hfs|]. unfold calls_since.
  destruct Hcases as [[Htr Hdb] | (c1 & r1 & Hc1 & Hok & _ & Hcase)].
  { left. rewrite Htr. split; [apply drop_all | exact Hdb]. }
  right. destruct (Haccepted c1 Hc1) as (envelope & data & Hsucc & Hdata).
  pose proof (Hok envelope Hsucc) as Hr1. rewrite Hdata in Hr1. subst r1.
  assert (Hpid : truthy (py_or (py_or (dget data "personId") (dget data "id"))
                           (f_worker_id f)) = true)
    by (apply py_or_truthy; exact Hwid).
  rewrite Hpid in Hcase.
  destruct Hcase as (c2 & r2 & Hh2 & Hc2 & Hcase).
  exists c1, c2, envelope, data. repeat (split; [assumption|]).
  destruct r2 as [granted|].
  - destruct Hcase as (-> & Htr & stored & Hfind & Hst & Hid & Hacc).
    right. split; [reflexivity|].
    rewrite Hwid in Htr. cbn [orb List.filter snd] in Htr. rewrite Hwid, Hpid in Htr.
    assert (Htn : truthy (VStr nid) = true).
    { cbn. apply negb_true_iff. now apply String.eqb_neq. }
    rewrite Htn in Htr. cbn [truthy String.eqb negb] in Htr.
    rewrite Htr. split; [apply drop_length_app|]. eauto.
  - destruct Hcase as (-> & Htr & Hdb). left. rewrite Htr.
    split; [reflexivity|]. split; [apply drop_length_app | exact Hdb].
Qed.

(** X23. A creation event that names no national identifier, no worker
    identifier ([workerId], else [id]) or no face photo ([facePhoto], else
    [facePhotoUrl]) is dropped before anything happens: no download, no
    call, no record, no exception. *)
Theorem creation_needs_identity_and_face (wd : dict) (w : world) :
  truthy (dget wd "nationalIdNumber") = false \/
  truthy (py_or (dget wd "workerId") (dget wd "id")) = false \/
  truthy (py_or (dget wd "facePhoto") (dget wd "facePhotoUrl")) = false ->
  let run := handle_worker_created E (VDict wd) w in
  snd run = Ok tt /\
  trace (fst run) = trace w /\ db (fst run) = db w /\ fs (fst run) = fs w.
Proof.
  intros Hmissing. cbv zeta.
  unfold handle_worker_created, try_except, created_fetch.
  destruct (truthy (dget wd "nationalIdNumber")) eqn:Hn; cbn [negb].
  2:{ repeat (progress run_pure). cbn. auto. }
  destruct (truthy (py_or (dget wd "workerId") (dget wd "id"))) eqn:Hw;
    cbn [negb].
  2:{ repeat (progress run_pure). cbn. auto. }
  repeat (progress run_pure).
  destruct (has_person_id _).
  { repeat (progress run_pure). cbn. auto. }
  destruct (truthy (py_or (dget wd "facePhoto") (dget wd "facePhotoUrl")))
    eqn:Hf; cbn [negb].
  2:{ repeat (progress run_pure). cbn. auto. }
  exfalso. destruct Hmissing as [H | [H | H]]; discriminate H.
Qed.

(** X24. When the face photo of a worker that is not provisioned yet cannot
    be downloaded (a transport error or an error status), the creation
    transition stops after that one request: no file is written, the store
    is left alone and the access-control system is not called. *)
Theorem creation_stops_on_failed_download (wd : dict) (w : world) :
  let face_url := py_or (dget wd "facePhoto") (dget wd "facePhotoUrl") in
  truthy (dget wd "nationalIdNumber") = true ->
  truthy (py_or (dget wd "workerId") (dget wd "id")) = true ->
  truthy face_url = true ->
  has_person_id
    (List.find (matches [("nationalIdNumber", dget wd "nationalIdNumber")])
       (db w)) = false ->
  (forall status content,
      image_server E (trace w) face_url = ImageResponse status content ->
      is_error_status status = true) ->
  let run := handle_worker_created E (VDict wd) w in
  snd run = Ok tt /\
  calls_since w (fst run) = [ImageGet face_url] /\
  db (fst run) = db w /\ fs (fst run) = fs w.
Proof.
  cbv zeta. intros Hn Hw Hf Hhas Hfail.
  unfold handle_worker_created, try_except, created_fetch.
  rewrite Hn, Hw. cbn [negb].
  repeat (progress run_pure).
  rewrite Hhas, Hf. cbn [negb].
  repeat (progress run_pure).
  match goal with
  | |- context [bind (download_image E ?u ?p) ?k ?w0] =>
      assert (Hdl : download_image E u p w0 = (add_call (ImageGet u) w0, Ok false))
  end.
  { unfold download_image. fold_world.
    destruct (image_server E (trace w) _) as [|status content] eqn:Himg;
      [reflexivity|].
    now rewrite (Hfail status content eq_refl). }
  rewrite (bind_run _ _ _ _ _ Hdl). cbn [negb].
  repeat (progress run_pure). cbn [fst snd].
  unfold ret, calls_since. fold_world.
  split; [reflexivity|]. split; [apply drop_length_app | auto].
Qed.

End CreationOutcome.

(* ===================================================================== *)
(** ** A worker that is sent again                                        *)
(* ===================================================================== *)

Section Retry.
Import Database HikCentralAPI SupabaseAPI ImageProcessor EventProcessor.
Variable E : env.

Lemma existing_face_paths_complete files workers paths r p :
  existing_face_paths files workers = Ok paths ->
  In r workers -> dget r "face_image_path" = VStr p -> p <> "" ->
  is_Some (files !! p) ->
  In p paths.
Proof.
  intros Hok Hin Hp Hne Hfile. revert paths Hok.
  induction workers as [|x ws IH]; [destruct Hin|].
  intros paths. cbn [existing_face_paths].
  destruct Hin as [-> | Hin].
  - rewrite Hp. cbn [truthy].
    apply String.eqb_neq in Hne. rewrite Hne. cbn [negb].
    destruct (existing_face_paths files ws) as [rest|]; [|discriminate].
    intros [= <-]. destruct (decide (is_Some (files !! p))); [now left|].
    contradiction.
  - destruct (truthy (dget x "face_image_path")).
    + destruct (dget x "face_image_path"); try discriminate.
      destruct (existing_face_paths files ws) as [rest|]; [|discriminate].
      intros [= <-].
      destruct (decide (is_Some (files !! s))); [right|]; now apply IH.
    + now apply IH.
Qed.

Lemma existing_face_paths_ok files workers :
  Forall (fun r => truthy (dget r "face_image_path") = true ->
                   exists s, dget r "face_image_path" = VStr s) workers ->
  exists paths, existing_face_paths files workers = Ok paths.
Proof.
  induction 1 as [|x ws Hx _ IH]; cbn [existing_face_paths]; [eauto|].
  destruct IH as [rest ->].
  destruct (truthy (dget x "face_image_path")); [|eauto].
  destruct (Hx eq_refl) as [s ->]. eauto.
Qed.

Lemma insert_desc_in y x l : In y (x :: l) -> In y (insert_desc x l).
Proof.
  induction l as [|z l IH]; cbn [insert_desc]; [auto|].
  destruct (Qle_bool (snd x) (snd z)); [|auto].
  intros [<- | [<- | Hin]].
  - right. apply IH. now left.
  - now left.
  - right. apply IH. now right.
Qed.

Lemma sort_desc_in y l : In y l -> In y (sort_desc l).
Proof.
  unfold sort_desc.
  assert (H : forall acc, In y l \/ In y acc ->
                          In y (fold_left (fun acc x => insert_desc x acc) l acc)).
  { induction l as [|x l IH]; cbn [fold_left]; intros acc [Hin | Hin];
      try (destruct Hin; fail); auto.
    - destruct Hin as [<- | Hin].
      + apply IH. right. apply insert_desc_in. now left.
      + apply IH. now left.
    - apply IH. right. apply insert_desc_in. now right. }
  intros Hin. apply H. now left.
Qed.

Lemma find_duplicate_faces_complete files new_face_path existing_faces p ne ee d :
  get_face_encoding E files new_face_path = Some ne ->
  In p existing_faces ->
  get_face_encoding E files p = Some ee ->
  face_distance E ee ne = Some d ->
  Qle_bool similarity_threshold (1 - d) = true ->
  In (p, (1 - d)%Q) (find_duplicate_faces E files new_face_path existing_faces).
Proof.
  intros Hne Hin Hee Hd Hthr. unfold find_duplicate_faces. rewrite Hne.
  apply sort_desc_in, in_flat_map. exists p. split; [exact Hin|].
  unfold match_against, compare_faces, face_distances. rewrite Hee, Hd.
  cbn [best_of fold_left]. rewrite Hthr. now left.
Qed.

Lemma download_image_files url save_path w :
  exists files ok,
    download_image E url save_path w =
      (mkWorld (db w) files (trace w ++ [ImageGet url]) (logs w) (ticks w),
       Ok ok) /\
    (files = fs w \/ exists content, files = <[save_path := content]> (fs w)).
Proof.
  unfold download_image.
  destruct (image_server E (trace w) url) as [|st content]; [eauto|].
  destruct (is_error_status st); [eauto|].
  do 2 eexists. split; [reflexivity|]. eauto.
Qed.

(** X25. The admission gate does not set aside the worker's own cached
    image.  When the store holds a record, such as the pending record of an
    earlier attempt, whose face image is the file under which the face of
    this event is saved, and the picture shows a face that matches itself,
    the creation transition never calls the access-control system and
    writes no record; when every stored face path is a string it ends by
    reporting the worker upstream as blocked for a matching face. *)
Theorem retry_matches_own_image (wd r : dict) (w : world) (nid : string)
    (status : Z) (content : string) (enc : encoding) (rest : list encoding)
    (d : Q) :
  let worker_id := py_or (dget wd "workerId") (dget wd "id") in
  let face_url := py_or (dget wd "facePhoto") (dget wd "facePhotoUrl") in
  let face_path := path_join E faces_dir (nid +:+ "_face.jpg") in
  let id_card_path := path_join E id_cards_dir (nid +:+ "_id.jpg") in
  dget wd "nationalIdNumber" = VStr nid -> nid <> "" ->
  truthy worker_id = true -> truthy face_url = true ->
  has_person_id
    (List.find (matches [("nationalIdNumber", VStr nid)]) (db w)) = false ->
  image_server E (trace w) face_url = ImageResponse status content ->
  is_error_status status = false ->
  face_path <> "" -> face_path <> id_card_path ->
  In r (db w) -> dget r "face_image_path" = VStr face_path ->
  face_encodings E content = Some (enc :: rest) ->
  face_distance E enc enc = Some d ->
  Qle_bool Config.FACE_SIMILARITY_THRESHOLD (1 - d) = true ->
  let w' := fst (handle_worker_created E (VDict wd) w) in
  Forall not_hik (calls_since w w') /\
  db w' = db w /\
  (Forall (fun r => truthy (dget r "face_image_path") = true ->
                    exists s, dget r "face_image_path" = VStr s) (db w) ->
   exists similarity,
     Qle_bool Config.FACE_SIMILARITY_THRESHOLD similarity = true /\
     last (trace w') =
       Some (SupaPost update_status_url
               [("status", VStr "blocked"); ("workerId", worker_id);
                ("nationalIdNumber", VStr nid);
                ("blockedReason", VStr (duplicate_reason E similarity))])).
Proof.
  cbv zeta.
  intros Hnid Hne Hwid Hurl Hhas Himg Hst Hpath Hdiff Hr Hrp Henc Hd Hthr.
  assert (Htn : truthy (VStr nid) = true).
  { cbn. apply negb_true_iff. now apply String.eqb_neq. }
  (* the images are fetched *)
  assert (Hfetch : exists w1,
             created_fetch E wd w =
               (w1, Ok (Some (mkFetched (VStr nid)
                                (py_or (dget wd "workerId") (dget wd "id"))
                                (path_join E faces_dir (nid +:+ "_face.jpg"))
                                (path_join E id_cards_dir (nid +:+ "_id.jpg"))
                                (py_or (dget wd "nationalIdImage")
                                   (dget wd "idCardImageUrl"))))) /\
             db w1 = db w /\
             extends not_hik (trace w) (trace w1) /\
             fs w1 !! path_join E faces_dir (nid +:+ "_face.jpg") = Some content).
  { unfold created_fetch. rewrite Hnid, Htn, Hwid. cbn [negb].
    repeat (progress run_pure). rewrite Hhas, Hurl. cbn [negb].
    repeat (progress run_pure). cbn [py_str].
    match goal with
    | |- context [bind (download_image E ?u ?p) ?k ?w0] =>
        assert (Hdl : download_image E u p w0 =
                      (set_fs (<[p := content]> (fs w0)) (add_call (ImageGet u) w0),
                       Ok true))
    end.
    { unfold download_image. fold_world. now rewrite Himg, Hst. }
    rewrite (bind_run _ _ _ _ _ Hdl). cbn [negb].
    repeat (progress run_pure).
    destruct (truthy (py_or (dget wd "nationalIdImage")
                        (dget wd "idCardImageUrl"))).
    - repeat (progress run_pure).
      match goal with
      | |- context [bind (download_image E ?u ?p) ?k ?w0] =>
          destruct (download_image_files u p w0)
            as (files & ok & Hrun2 & Hfiles);
          rewrite (bind_run _ _ _ _ _ Hrun2)
      end.
      fold_world.
      assert (Hkept : files !! path_join E faces_dir (nid +:+ "_face.jpg")
                      = Some content).
      { destruct Hfiles as [-> | [c2 ->]].
        - apply lookup_insert_eq.
        - rewrite lookup_insert_ne by (intros Heq; apply Hdiff; now symmetry).
          apply lookup_insert_eq. }
      destruct ok; repeat (progress run_pure); unfold ret;
        eexists; (split; [reflexivity|]); fold_world;
        (split; [reflexivity|]); (split; [solve_extends | exact Hkept]).
    - repeat (progress run_pure). unfold ret.
      eexists. split; [reflexivity|]. fold_world.
      split; [reflexivity|]. split; [solve_extends|]. apply lookup_insert_eq. }
  destruct Hfetch as (w1 & Hfetch & Hdb & Htr & Hfile).
  assert (Hown : get_face_encoding E (fs w1)
                   (path_join E faces_dir (nid +:+ "_face.jpg")) = Some enc).
  { unfold get_face_encoding. now rewrite Hfile, Henc. }
  unfold handle_worker_created, try_except.
  rewrite (bind_ok _ _ _ _ _ Hfetch). cbv beta. cbn [f_face_path].
  pose proof (check_duplicates_run E
                (path_join E faces_dir (nid +:+ "_face.jpg")) w1) as Hcheck.
  rewrite Hdb in Hcheck.
  destruct (existing_face_paths (fs w1) (db w)) as [paths|] eqn:Hpaths;
    rewrite (bind_run _ _ _ _ _ Hcheck).
  2:{ unfold log, calls_since. fold_world. split.
      - apply extends_drop. exact Htr.
      - split; [exact Hdb|]. intros Hall.
        destruct (existing_face_paths_ok (fs w1) (db w) Hall) as [? Hok].
        congruence. }
  pose proof (existing_face_paths_complete _ _ _ _ _ Hpaths Hr Hrp Hpath
                ltac:(rewrite Hfile; eauto)) as Hin.
  pose proof (find_duplicate_faces_complete _ _ _ _ _ _ _ Hown Hin Hown Hd Hthr)
    as Hdup.
  destruct (find_duplicate_faces E (fs w1) _ paths) as [|top others] eqn:Hfound;
    [destruct Hdup|].
  assert (Htop : Qle_bool Config.FACE_SIMILARITY_THRESHOLD (snd top) = true).
  { destruct top as [p s].
    apply (find_duplicate_faces_sound E (fs w1)
             (path_join E faces_dir (nid +:+ "_face.jpg")) paths p s).
    rewrite Hfound. now left. }
  unfold report_duplicate. rewrite bind_log.
  unfold supabase_update_worker_status. cbn [f_worker_id f_national_id].
  match goal with
  | |- context [bind (update_worker_status E ?a ?b _ _ (VStr ?c)) _ ?w0] =>
      destruct (update_worker_status_blocked E a b c w0 Hwid Htn
                  (truthy_duplicate_reason E _)) as [b' Hb];
      rewrite (bind_run _ _ _ _ _ Hb)
  end.
  cbv beta. unfold ret, calls_since. fold_world. split.
  - apply extends_drop. apply extends_snoc; [exact Htr | reflexivity].
  - split; [exact Hdb|]. intros _. exists (snd top).
    split; [exact Htop | apply last_snoc].
Qed.

End Retry.

(* ===================================================================== *)
(** ** Dates that cannot be used, and batches of workers                  *)
(* ===================================================================== *)

Section DateErrors.
Import Database HikCentralAPI SupabaseAPI ImageProcessor EventProcessor
  Datetime.
Variable E : env.

(** What [validity_window] does with a [createdAt] field once the two
    dates are out of the way. *)
Lemma validity_window_fallback wd w :
  (forall vf vt from_dt to_dt,
      dget wd "validFrom" = VStr vf -> dget wd "validTo" = VStr vt ->
      strptime_ymd vf = Some from_dt -> strptime_ymd vt = Some to_dt -> False) ->
  truthy (dget wd "createdAt") = true ->
  snd (validity_window E wd w) =
  match dget wd "createdAt" with
  | VStr s =>
      match fromisoformat E (replace_Z s) with
      | Some dt =>
          match add_days dt 3650 with
          | Some end_dt =>
              Ok (strftime_seconds dt +:+ utc_offset,
                  strftime_seconds end_dt +:+ utc_offset)
          | None => Raised
          end
      | None => Raised
      end
  | _ => Raised
  end.
Proof.
  intros Hbad Htc. unfold validity_window. cbv zeta.
  assert (Hnone :
    (if truthy (dget wd "validFrom") && truthy (dget wd "validTo") then
       match dget wd "validFrom", dget wd "validTo" with
       | VStr vf, VStr vt =>
           match strptime_ymd vf with
           | Some from_dt =>
               match strptime_ymd vt with
               | Some to_dt =>
                   Some (strftime_start_of_day from_dt +:+ utc_offset,
                         strftime_end_of_day to_dt +:+ utc_offset)
               | None => None
               end
           | None => None
           end
       | _, _ => None
       end
     else None) = None).
  { destruct (truthy (dget wd "validFrom") && truthy (dget wd "validTo"));
      [|reflexivity].
    destruct (dget wd "validFrom") as [| | |vf| |]; try reflexivity.
    destruct (dget wd "validTo") as [| | |vt| |]; try reflexivity.
    destruct (strptime_ymd vf) as [from_dt|] eqn:Hf; [|reflexivity].
    destruct (strptime_ymd vt) as [to_dt|] eqn:Ht; [|reflexivity].
    exfalso. exact (Hbad vf vt from_dt to_dt eq_refl eq_refl Hf Ht). }
  rewrite Hnone, Htc.
  assert (Hskip : forall (k : unit -> M (string * string)) w0,
             exists l,
               bind (if truthy (dget wd "validFrom") && truthy (dget wd "validTo")
                     then log WARNING
                            "Error parsing validFrom/validTo dates: {e}. Using createdAt fallback."
                     else ret tt) k w0 =
               k tt (mkWorld (db w0) (fs w0) (trace w0) (logs w0 ++ l) (ticks w0))).
  { intros k w0.
    destruct (truthy (dget wd "validFrom") && truthy (dget wd "validTo")).
    - rewrite bind_log. eexists [_]. reflexivity.
    - rewrite bind_ret. exists []. rewrite app_nil_r. now destruct w0. }
  match goal with
  | |- snd (bind _ ?k ?w0) = _ => destruct (Hskip k w0) as [l ->]
  end.
  cbv beta.
  destruct (dget wd "createdAt") as [| | |s| |]; try reflexivity.
  destruct (fromisoformat E (replace_Z s)) as [dt|]; [|reflexivity].
  destruct (add_days dt 3650); reflexivity.
Qed.


End DateErrors.

Section Batches.
Import Database HikCentralAPI SupabaseAPI ImageProcessor EventProcessor.
Variable E : env.

Lemma for_each_total {A} (handler : A -> M unit) :
  (forall x w, snd (handler x w) = Ok tt) ->
  forall xs ys w,
    snd (for_each xs handler w) = Ok tt /\
    for_each (xs ++ ys) handler w =
      for_each ys handler (fst (for_each xs handler w)).
Proof.
  intros Hok. induction xs as [|x xs IH]; intros ys w; cbn [app for_each].
  - split; reflexivity.
  - unfold bind. pose proof (Hok x w) as Hx.
    destruct (handler x w) as [w1 [[]|]]; [|discriminate Hx].
    apply IH.
Qed.

(** X27. The four transitions never raise: whatever goes wrong inside one
    is caught and logged.  So the workers of one event are handled one
    after the other to the end of the list, each from the state that the
    workers before it left: a worker that fails does not stop the workers
    after it. *)
Theorem workers_handled_independently :
  Forall
    (fun handler : value -> M unit =>
       (forall worker w, snd (handler worker w) = Ok tt) /\
       forall before after w,
         snd (for_each (before ++ after) handler w) = Ok tt /\
         for_each (before ++ after) handler w =
           for_each after handler (fst (for_each before handler w)))
    [handle_worker_created E; handle_worker_blocked E;
     handle_worker_deleted E; handle_worker_unblocked E].
Proof.
  assert (Hcaught : forall (c h : M unit) w,
             (forall w0, snd (h w0) = Ok tt) -> snd (try_except c h w) = Ok tt).
  { intros c h w Hh. unfold try_except.
    destruct (c w) as [w1 [[]|]]; [reflexivity | apply Hh]. }
  repeat (apply List.Forall_cons;
          [cbv beta;
           match goal with
           | |- (forall worker w, snd (?h worker w) = Ok tt) /\ _ =>
               assert (Hok : forall worker w, snd (h worker w) = Ok tt)
                 by (intros worker w; apply Hcaught; reflexivity);
               split;
               [exact Hok
               |intros before after w; split;
                [apply (for_each_total h Hok (before ++ after) [] w)
                |apply (for_each_total h Hok before after w)]]
           end
          |]).
  apply List.Forall_nil.
Qed.

End Batches.

(* ===================================================================== *)
(** ** Further instances                                                  *)
(* ===================================================================== *)

Section MoreInstances.
Import Database HikCentralAPI SupabaseAPI ImageProcessor EventProcessor
  Datetime Scenario.

Lemma upsert_worker_keeps_keys_witness :
  let rec : dict :=
    [("nationalIdNumber", VStr "123"); ("status", VStr "pending")] in
  let w' := fst (upsert_worker E_ok rec world_with_stamped_ali) in
  count_key "123" (db w') = Nat.max 1 (count_key "123" (db world_with_stamped_ali)) /\
  (forall other,
      other <> "123" ->
      count_key other (db w') = count_key other (db world_with_stamped_ali)).
Proof.
  apply (upsert_worker_keeps_keys E_ok
           [("nationalIdNumber", VStr "123"); ("status", VStr "pending")]
           "123" world_with_stamped_ali); reflexivity.
Defined.

Lemma lifecycle_dropped_witness :
  let run := handle_worker_deleted E_ok (VDict omar) world_with_stamped_ali in
  snd run = Ok tt /\
  trace (fst run) = trace world_with_stamped_ali /\
  db (fst run) = db world_with_stamped_ali /\ fs (fst run) = fs world_with_stamped_ali /\
  exists started dropped,
    logs (fst run) =
      logs world_with_stamped_ali ++ [(INFO, started); (WARNING, dropped)].
Proof.
  apply (lifecycle_dropped E_ok omar world_with_stamped_ali (handle_worker_deleted E_ok)
           (delete_person E_ok)).
  - right. left. reflexivity.
  - vm_compute. reflexivity.
Defined.

Lemma lifecycle_remote_failure_witness :
  let run := handle_worker_blocked E_hik_down (VDict block_without_reason)
               world_with_stamped_ali in
  snd run = Ok tt /\
  db (fst run) = db world_with_stamped_ali /\ fs (fst run) = fs world_with_stamped_ali /\
  exists c,
    calls_since world_with_stamped_ali (fst run) = [c] /\ is_hik_call c = true /\
    sent_by (remove_from_privilege_group E_hik_down
               (dget stamped_record "hikcentral_person_id") world_with_stamped_ali)
      world_with_stamped_ali c.
Proof.
  apply (lifecycle_remote_failure E_hik_down block_without_reason stamped_record
           world_with_stamped_ali (handle_worker_blocked E_hik_down)
           (remove_from_privilege_group E_hik_down)).
  - left. reflexivity.
  - vm_compute. reflexivity.
  - vm_compute. reflexivity.
  - vm_compute. discriminate.
Defined.

Lemma delete_keeps_record_witness :
  let w' := fst (handle_worker_deleted E_ok (VDict block_without_reason)
                   world_with_stamped_ali) in
  (exists c, calls_since world_with_stamped_ali w' = [c] /\ is_hik_call c = true) /\
  length (db w') = length (db world_with_stamped_ali) /\
  (exists stored,
      List.find (matches [("nationalIdNumber", VStr "123")]) (db w')
        = Some stored /\
      dget stored "status" = VStr "deleted" /\
      (forall k, k <> "status" -> k <> "deleted_at" -> k <> "_updated_at" ->
                 dget stored k = dget stamped_record k)) /\
  (forall wd',
      dget wd' "nationalIdNumber" = VStr "123" ->
      let w2 := fst (handle_worker_created E_ok (VDict wd') w') in
      calls_since w' w2 = [] /\ db w2 = db w' /\ fs w2 = fs w').
Proof.
  apply (delete_keeps_record E_ok block_without_reason stamped_record
           world_with_stamped_ali "123"); vm_compute; reflexivity.
Defined.

Lemma unblock_restores_witness :
  let w' := fst (handle_worker_unblocked E_ok (VDict block_without_reason)
                   world_with_stamped_ali) in
  (exists c,
      is_hik_call c = true /\
      calls_since world_with_stamped_ali w' =
        [c;
         SupaPost update_status_url
           [("status", VStr "approved"); ("workerId", VStr "w1");
            ("nationalIdNumber", VStr "123"); ("externalId", VStr "P-1001")]]) /\
  exists stored,
    List.find (matches [("nationalIdNumber", VStr "123")]) (db w')
      = Some stored /\
    dget stored "status" = VStr "approved" /\
    dget stored "blockedReason" = VStr "" /\
    dget stored "has_privilege_access" = VBool true /\
    dget stored "hikcentral_person_id" = VStr "P-1001".
Proof.
  apply (unblock_restores E_ok block_without_reason stamped_record world_with_stamped_ali
           "123"); try (vm_compute; reflexivity).
  discriminate.
Defined.

Lemma idle_poll_witness :
  let run := process_events E_offline empty_world in
  snd run = Ok tt /\
  calls_since empty_world (fst run) =
    [SupaGet (SupabaseAPI.base_url +:+ "/admin/events/pending")
       [("limit", VNum 100)]] /\
  db (fst run) = [] /\ fs (fst run) = ∅.
Proof.
  apply (idle_poll E_offline empty_world).
  intros status v H. vm_compute in H. discriminate H.
Defined.

Lemma create_person_refused_witness :
  let run := created_provision E_hik_down ali_stamped (fetched_for "123" "w1")
               ali_fetched in
  fs (fst run) = fs ali_fetched /\
  ((calls_since ali_fetched (fst run) = [] /\ db (fst run) = db ali_fetched) \/
   exists c,
     is_create_person c = true /\ calls_since ali_fetched (fst run) = [c] /\
     ((snd run = Raised /\ db (fst run) = db ali_fetched) \/
      (snd run = Ok tt /\
       exists stored,
         List.find (matches [("nationalIdNumber", VStr "123")]) (db (fst run))
           = Some stored /\
         dget stored "status" = VStr "pending" /\
         dget stored "hikcentral_person_id" = VStr "" /\
         dget stored "has_privilege_access" = VBool false /\
         has_person_id (Some stored) = false))).
Proof.
  apply (create_person_refused E_hik_down ali_stamped (fetched_for "123" "w1")
           ali_fetched "123").
  - reflexivity.
  - intros c envelope _ (status & Hans & _). destruct c; discriminate Hans.
Defined.

Lemma create_person_accepted_witness :
  let run := created_provision E_ok ali_stamped (fetched_for "123" "w1") ali_fetched in
  fs (fst run) = fs ali_fetched /\
  ((calls_since ali_fetched (fst run) = [] /\ db (fst run) = db ali_fetched) \/
   exists c1 c2 envelope data,
     is_create_person c1 = true /\
     success_answer E_ok (trace ali_fetched) c1 envelope /\
     dget envelope "data" = VDict data /\
     is_hik_call c2 = true /\ is_create_person c2 = false /\
     let person_id :=
       py_or (py_or (dget data "personId") (dget data "id")) (VStr "w1") in
     truthy person_id = true /\
     ((snd run = Raised /\ calls_since ali_fetched (fst run) = [c1; c2] /\
       db (fst run) = db ali_fetched) \/
      (snd run = Ok tt /\
       calls_since ali_fetched (fst run) =
         [c1; c2;
          SupaPost update_status_url
            [("status", VStr "approved"); ("workerId", VStr "w1");
             ("nationalIdNumber", VStr "123"); ("externalId", person_id)]] /\
       exists stored,
         List.find (matches [("nationalIdNumber", VStr "123")]) (db (fst run))
           = Some stored /\
         dget stored "status" = VStr "approved" /\
         dget stored "hikcentral_person_id" = person_id /\
         dget stored "has_privilege_access" = VBool true))).
Proof.
  apply (create_person_accepted E_ok ali_stamped (fetched_for "123" "w1") ali_fetched
           "123").
  - reflexivity.
  - discriminate.
  - reflexivity.
  - intros [url headers body| | |] Hc; try discriminate Hc.
    exists [("code", VStr "0"); ("msg", VStr "Success");
            ("data", VDict [("personId", VStr "P-1001")])],
      [("personId", VStr "P-1001")].
    split; [|reflexivity]. exists 200%Z.
    cbn [is_create_person] in Hc. apply String.eqb_eq in Hc. subst url.
    vm_compute. auto.
Defined.

Lemma creation_needs_identity_and_face_witness :
  let run := handle_worker_created E_ok (VDict [("id", VStr "w9")]) empty_world in
  snd run = Ok tt /\
  trace (fst run) = [] /\ db (fst run) = [] /\ fs (fst run) = ∅.
Proof.
  apply (creation_needs_identity_and_face E_ok [("id", VStr "w9")] empty_world).
  left. reflexivity.
Defined.

Lemma creation_stops_on_failed_download_witness :
  let run := handle_worker_created E_ok (VDict bad_face_url) empty_world in
  snd run = Ok tt /\
  calls_since empty_world (fst run) = [ImageGet (VNum 7)] /\
  db (fst run) = [] /\ fs (fst run) = ∅.
Proof.
  apply (creation_stops_on_failed_download E_ok bad_face_url empty_world);
    try reflexivity.
  intros status content H. vm_compute in H. discriminate H.
Defined.

Lemma retry_matches_own_image_witness :
  let w' := fst (handle_worker_created E_ok (VDict ali_stamped) world_after_refusal) in
  Forall not_hik (calls_since world_after_refusal w') /\
  db w' = db world_after_refusal /\
  (Forall (fun r => truthy (dget r "face_image_path") = true ->
                    exists s, dget r "face_image_path" = VStr s)
     (db world_after_refusal) ->
   exists similarity,
     Qle_bool Config.FACE_SIMILARITY_THRESHOLD similarity = true /\
     last (trace w') =
       Some (SupaPost update_status_url
               [("status", VStr "blocked"); ("workerId", VStr "w1");
                ("nationalIdNumber", VStr "123");
                ("blockedReason", VStr (duplicate_reason E_ok similarity))])).
Proof.
  apply (retry_matches_own_image E_ok ali_stamped pending_ali world_after_refusal "123"
           200%Z "https://img/ali.jpg" [0 # 1] [] (0 # 1));
    try (vm_compute; reflexivity); try (vm_compute; discriminate).
  vm_compute. left. reflexivity.
Defined.


End MoreInstances.
